(** * Wazuh MCP server: protocol engine and authenticated client

    A shallow embedding of the Python sources

      - [mcp_protocol.py]   (JSON-RPC dispatcher, tool registry, schema
                             derivation, stdio transport),
      - [wazuh_client.py]   (token lifecycle of [WazuhClientBase]),
      - [src/tools/__init__.py] ([ToolUtils.format_agent_id]),

    followed by the properties proved about them.

    Conventions.  A Python [str] is a Rocq [string]; each character stands
    for the code point of the same number, so the embedding covers the
    code points 0..255.  Python integers are [Z].  A raised exception is a
    value of an exception type and every function that can raise returns a
    sum.  Where the interpreter's own behaviour shows (the words of its
    exceptions, the limit [int] puts on the number of digits), it is that
    of CPython 3.11 and later. *)

From Stdlib Require Import ZArith List Bool Ascii String Lia.
From Stdlib Require Import Numbers.DecimalString.
From Stdlib Require Import Floats.PrimFloat.
Import ListNotations.

Set Warnings "-register-all".

Local Open Scope string_scope.
Local Open Scope Z_scope.

(* ===================================================================== *)
(** * Part I: the embedding                                               *)
(* ===================================================================== *)

(** ** Python strings and integers *)

Module PyStr.

Definition code (c : ascii) : Z := Z.of_nat (nat_of_ascii c).

Definition chr (n : Z) : ascii := ascii_of_nat (Z.to_nat n).

Definition newline : string := String (chr 10) "".

(** [str.isspace] on one character: U+0009..U+000D, U+001C..U+0020,
    U+0085 and U+00A0 are the white-space code points below 256. *)
Definition isspace (c : ascii) : bool :=
  let n := code c in
  ((9 <=? n) && (n <=? 13)) || ((28 <=? n) && (n <=? 32))
  || (n =? 133) || (n =? 160).

(** A decimal digit as [\d] and [int] see it; below 256 these are
    the ASCII digits only. *)
Definition isdecimal (c : ascii) : bool :=
  let n := code c in (48 <=? n) && (n <=? 57).

Definition digit_value (c : ascii) : Z := code c - 48.

Fixpoint lstrip (s : string) : string :=
  match s with
  | EmptyString => EmptyString
  | String c r => if isspace c then lstrip r else s
  end.

Fixpoint rstrip (s : string) : string :=
  match s with
  | EmptyString => EmptyString
  | String c r =>
      match rstrip r with
      | EmptyString => if isspace c then EmptyString else String c EmptyString
      | r' => String c r'
      end
  end.

(** [s.strip()] *)
Definition strip (s : string) : string := rstrip (lstrip s).

(** [str(n)] for an integer. *)
Definition str_of_int (n : Z) : string :=
  NilEmpty.string_of_int (Z.to_int n).

Fixpoint zeros (k : nat) : string :=
  match k with
  | O => EmptyString
  | S k' => String "0" (zeros k')
  end.

(** [f"{n:03d}"]: sign, then zeros up to a total width of three. *)
Definition format_03d (n : Z) : string :=
  let sign := if n <? 0 then "-" else "" in
  let digits := str_of_int (Z.abs n) in
  sign ++ zeros (3 - String.length sign - String.length digits) ++ digits.

(** The white space [int] skips around a number: the ASCII white space of
    C (U+0009..U+000D and the space) and, of the characters above U+007F,
    those [str.isspace] knows.  Unlike [str.strip], it does not skip the
    separators U+001C..U+001F. *)
Definition int_isspace (c : ascii) : bool :=
  let n := code c in
  ((9 <=? n) && (n <=? 13)) || (n =? 32) || (n =? 133) || (n =? 160).

Fixpoint int_lstrip (s : string) : string :=
  match s with
  | EmptyString => EmptyString
  | String c r => if int_isspace c then int_lstrip r else s
  end.

Fixpoint int_rstrip (s : string) : string :=
  match s with
  | EmptyString => EmptyString
  | String c r =>
      match int_rstrip r with
      | EmptyString => if int_isspace c then EmptyString else String c EmptyString
      | r' => String c r'
      end
  end.

(** The number of decimal digits in a string, and the most [int] converts
    ([sys.get_int_max_str_digits()], 4300 unless configured otherwise). *)
Fixpoint count_digits (s : string) : nat :=
  match s with
  | EmptyString => 0%nat
  | String c r => ((if isdecimal c then 1 else 0) + count_digits r)%nat
  end.

Definition int_max_str_digits : nat := 4300.

(** Digits with single underscores between them, as [int] accepts. *)
Fixpoint int_digits (acc : Z) (after_digit : bool) (s : string) : option Z :=
  match s with
  | EmptyString => if after_digit then Some acc else None
  | String c r =>
      if isdecimal c then int_digits (10 * acc + digit_value c) true r
      else if (Ascii.eqb c "_" && after_digit)%bool then int_digits acc false r
      else None
  end.

(** [int(s)] in base ten; [None] is [ValueError], which is also what a
    number of more than [int_max_str_digits] digits ends in. *)
Definition py_int (s : string) : option Z :=
  let t := int_rstrip (int_lstrip s) in
  if (int_max_str_digits <? count_digits t)%nat then None
  else
    match t with
    | String "+" r => int_digits 0 false r
    | String "-" r => option_map Z.opp (int_digits 0 false r)
    | _ => int_digits 0 false t
    end.

End PyStr.

(** ** [src/tools/__init__.py]: [ToolUtils] *)

Module ToolUtils.
Import PyStr.

(** The longest prefix of at most [n] decimal digits, and the rest. *)
Fixpoint take_digits (n : nat) (s : string) : string * string :=
  match n, s with
  | S n', String c r =>
      if isdecimal c
      then let (ds, rest) := take_digits n' r in (String c ds, rest)
      else (EmptyString, s)
  | _, _ => (EmptyString, s)
  end.

(** [re.match(r'^\d{1,3}$', s)]: the greedy run of digits has to end at
    the end of the string, or just before a final newline, which is where
    [$] matches. *)
Definition re_match_1_3_digits (s : string) : bool :=
  let (ds, rest) := take_digits 3 s in
  negb (String.eqb ds "")
  && (String.eqb rest "" || String.eqb rest newline).

(** [ToolUtils.format_agent_id] on a [str] argument: the pair
    [(formatted_id, error_message)]. *)
Definition format_agent_id (agent_id : string) : string * option string :=
  let agent_id := strip agent_id in
  if re_match_1_3_digits agent_id then
    match py_int agent_id with
    | Some num =>
        if (0 <=? num) && (num <=? 999) then (format_03d num, None)
        else ("", Some ("Agent ID must be between 0 and 999, got: " ++ agent_id))
    | None =>
        ("", Some ("Cannot convert agent ID to number: " ++ agent_id))
    end
  else
    ("", Some ("Invalid agent ID format: " ++ agent_id
               ++ ". Expected numeric string.")).

End ToolUtils.

(** The terms in which the behaviour of [format_agent_id] is stated: a
    string of one to three decimal digits, the number it denotes, and
    that number written with exactly three digits. *)

Module AgentIdSpec.
Import PyStr.

Fixpoint all_digits (s : string) : bool :=
  match s with
  | EmptyString => true
  | String c r => isdecimal c && all_digits r
  end.

Definition is_numeric_1_3 (s : string) : bool :=
  all_digits s && (1 <=? String.length s)%nat && (String.length s <=? 3)%nat.

Fixpoint decimal_acc (acc : Z) (s : string) : Z :=
  match s with
  | EmptyString => acc
  | String c r => decimal_acc (10 * acc + digit_value c) r
  end.

Definition decimal_value (s : string) : Z := decimal_acc 0 s.

Definition digit_char (d : Z) : ascii := chr (48 + d).

Definition three_digits (n : Z) : string :=
  String (digit_char (n / 100))
    (String (digit_char ((n / 10) mod 10))
       (String (digit_char (n mod 10)) EmptyString)).

End AgentIdSpec.

(** ** JSON values

  The values [json.loads] produces and [json.dumps] consumes.  Python's
  [None] is [JNull], so the same type serves for the result of
  [dict.get]. *)

Module Json.
Import PyStr.

Inductive json : Type :=
| JNull
| JBool (b : bool)
| JInt (n : Z)
| JFloat (x : float)
| JStr (s : string)
| JList (items : list json)
| JDict (fields : list (string * json)).

(** A [dict] keeps its keys in insertion order; they are distinct. *)
Fixpoint dict_get (d : list (string * json)) (k : string) : option json :=
  match d with
  | [] => None
  | (k', v) :: rest => if String.eqb k' k then Some v else dict_get rest k
  end.

(** [d.get(k, default)] *)
Definition get_default (d : list (string * json)) (k : string) (default : json) : json :=
  match dict_get d k with
  | Some v => v
  | None => default
  end.

(** [d.get(k)] *)
Definition get (d : list (string * json)) (k : string) : json :=
  get_default d k JNull.

(** Truth value of a value in a condition. *)
Definition truthy (v : json) : bool :=
  match v with
  | JNull => false
  | JBool b => b
  | JInt n => negb (n =? 0)
  | JFloat x => negb (PrimFloat.eqb x 0%float)
  | JStr s => negb (String.eqb s "")
  | JList items => match items with [] => false | _ => true end
  | JDict fields => match fields with [] => false | _ => true end
  end.

(** [v == s] for a string literal [s]. *)
Definition eq_str (v : json) (s : string) : bool :=
  match v with
  | JStr s' => String.eqb s' s
  | _ => false
  end.

(** [type(v).__name__] *)
Definition type_name (v : json) : string :=
  match v with
  | JNull => "NoneType"
  | JBool _ => "bool"
  | JInt _ => "int"
  | JFloat _ => "float"
  | JStr _ => "str"
  | JList _ => "list"
  | JDict _ => "dict"
  end.

Definition hex_digit (n : Z) : ascii :=
  if n <? 10 then chr (48 + n) else chr (87 + n).

(** One character of a string under [json.dumps] with [ensure_ascii]:
    the printable ASCII range is kept, the quote and the backslash are
    escaped, everything else becomes a short escape or [\u00xx]. *)
Definition escape_char (c : ascii) : string :=
  let n := code c in
  if n =? 34 then "\" ++ String c ""
  else if n =? 92 then "\\"
  else if n =? 8 then "\b"
  else if n =? 12 then "\f"
  else if n =? 10 then "\n"
  else if n =? 13 then "\r"
  else if n =? 9 then "\t"
  else if (32 <=? n) && (n <=? 126) then String c ""
  else "\u00" ++ String (hex_digit (n / 16)) (String (hex_digit (n mod 16)) "").

Fixpoint escape (s : string) : string :=
  match s with
  | EmptyString => EmptyString
  | String c r => escape_char c ++ escape r
  end.

Definition quote (s : string) : string :=
  String (chr 34) (escape s ++ String (chr 34) "").

Section Dumps.
(** The text [json.dumps] writes for a float. *)
Variable float_repr : float -> string.

(** [json.dumps(v)] with the default separators. *)
Fixpoint dumps (v : json) : string :=
  match v with
  | JNull => "null"
  | JBool true => "true"
  | JBool false => "false"
  | JInt n => str_of_int n
  | JFloat x => float_repr x
  | JStr s => quote s
  | JList items =>
      "[" ++ (fix join (l : list json) : string :=
                match l with
                | [] => ""
                | [x] => dumps x
                | x :: rest => dumps x ++ ", " ++ join rest
                end) items ++ "]"
  | JDict fields =>
      "{" ++ (fix join (l : list (string * json)) : string :=
                match l with
                | [] => ""
                | [(k, x)] => quote k ++ ": " ++ dumps x
                | (k, x) :: rest => quote k ++ ": " ++ dumps x ++ ", " ++ join rest
                end) fields ++ "}"
  end.
End Dumps.

(** [str(v)], as an f-string interpolates a value; [py_repr] is [repr] on
    the values that are not a [str]. *)
Definition py_str (py_repr : json -> string) (v : json) : string :=
  match v with
  | JStr s => s
  | _ => py_repr v
  end.

End Json.



(** ** [mcp_protocol.py]: schema derivation ([python_type_to_json_type], [tool]) *)

Module Schema.
Import PyStr Json.

(** A parameter annotation, as far as the derivation looks at it. *)
Inductive py_type : Type :=
| TyStr
| TyInt
| TyFloat
| TyBool
| TyList
| TyDict
| TyNone                                            (* type(None) *)
| TyGeneric (origin : py_type) (args : list py_type) (* List[T], Dict[K, V], ... *)
| TyUnion (args : list py_type)                     (* Union[...], Optional[T] *)
| TyOther (name : string).                          (* anything else, or no annotation *)

Definition is_none_type (t : py_type) : bool :=
  match t with TyNone => true | _ => false end.

(** [get_origin(t) is Union and type(None) in get_args(t)] *)
Definition is_optional (t : py_type) : bool :=
  match t with
  | TyUnion args => existsb is_none_type args
  | _ => false
  end.

(** [python_type_to_json_type]; in the union case every member is mapped
    first and the members other than [type(None)] are kept. *)
Fixpoint python_type_to_json_type (t : py_type) : string :=
  match t with
  | TyStr => "string"
  | TyInt => "integer"
  | TyFloat => "number"
  | TyBool => "boolean"
  | TyList => "array"
  | TyDict => "object"
  | TyNone => "null"
  | TyGeneric TyList _ => "array"
  | TyGeneric TyDict _ => "object"
  | TyGeneric _ _ => "string"
  | TyUnion args =>
      let non_none_args :=
        filter (fun a => negb (fst a))
               (map (fun a => (is_none_type a, python_type_to_json_type a)) args) in
      match non_none_args with
      | [(_, json_type)] => json_type
      | _ => "object"
      end
  | TyOther _ => "string"
  end.

(** One entry of [inspect.signature(func).parameters]; [default = None]
    is [inspect.Parameter.empty]. *)
Record Param : Type := {
  param_name : string;
  annotation : py_type;
  default : option json
}.

(** The decorated function: its [__name__] and its signature. *)
Record func : Type := {
  func_name : string;
  parameters : list Param
}.

(** [properties[k] = v] on an insertion-ordered dict. *)
Fixpoint dict_set (d : list (string * json)) (k : string) (v : json)
  : list (string * json) :=
  match d with
  | [] => [(k, v)]
  | (k', v') :: rest =>
      if String.eqb k' k then (k', v) :: rest else (k', v') :: dict_set rest k v
  end.

(** The loop over [params_to_inspect], threading [properties] and
    [required]. *)
Fixpoint inspect_params (ps : list Param)
         (properties : list (string * json)) (required : list string)
  : list (string * json) * list string :=
  match ps with
  | [] => (properties, required)
  | param :: rest =>
      let prop_def := JDict [("type", JStr (python_type_to_json_type (annotation param)))] in
      let required' :=
        match default param with
        | None => if negb (is_optional (annotation param))
                  then (required ++ [param_name param])%list else required
        | Some _ => required
        end in
      inspect_params rest (dict_set properties (param_name param) prop_def) required'
  end.


(** What the decorator stores on the function. *)
Record tool_metadata : Type := {
  _tool_name : string;
  _tool_description : string;
  _tool_input_schema : json
}.

Definition skip_self (ps : list Param) : list Param :=
  match ps with
  | p :: rest => if String.eqb (param_name p) "self" then rest else ps
  | [] => ps
  end.

(** [tool(name, description)(func)] *)
Definition tool (name : option string) (description : string) (f : func)
  : tool_metadata :=
  let tool_name :=
    match name with
    | Some n => if String.eqb n "" then func_name f else n
    | None => func_name f
    end in
  let params_to_inspect := skip_self (parameters f) in
  let (properties, required) := inspect_params params_to_inspect [] [] in
  {| _tool_name := tool_name;
     _tool_description := description;
     _tool_input_schema :=
       JDict [("$schema", JStr "http://json-schema.org/draft-07/schema#");
              ("type", JStr "object");
              ("properties", JDict properties);
              ("required", JList (map JStr required));
              ("title", JStr (tool_name ++ "_params"))] |}.



(** The signature of [get_wazuh_vulnerability_summary] in [main.py]. *)
Definition vulnerability_summary : func :=
  {| func_name := "get_wazuh_vulnerability_summary";
     parameters :=
       [{| param_name := "self"; annotation := TyOther "empty"; default := None |};
        {| param_name := "agent_id"; annotation := TyStr; default := None |};
        {| param_name := "limit"; annotation := TyUnion [TyInt; TyNone];
           default := Some JNull |};
        {| param_name := "severity"; annotation := TyUnion [TyStr; TyNone];
           default := Some JNull |};
        {| param_name := "cve"; annotation := TyUnion [TyStr; TyNone];
           default := Some JNull |}] |}.

End Schema.

(** ** [mcp_protocol.py]: the dispatcher ([McpServer]) and the transport *)

Module Mcp.
Import PyStr Json.

Module ProtocolVersion.
Definition V_2024_11_05 : string := "2024-11-05".
End ProtocolVersion.

Module ErrorCodes.
Definition PARSE_ERROR : Z := -32700.
Definition INVALID_REQUEST : Z := -32600.
Definition METHOD_NOT_FOUND : Z := -32601.
Definition INVALID_PARAMS : Z := -32602.
Definition INTERNAL_ERROR : Z := -32603.
End ErrorCodes.
Import ErrorCodes.

Record ServerCapabilities : Type := {
  cap_tools : bool;
  cap_prompts : bool;
  cap_resources : bool
}.

Record Content : Type := {
  content_type : string;
  content_text : string
}.

Record CallToolResult : Type := {
  content : list Content;
  is_error : bool
}.

Record Implementation : Type := {
  impl_name : string;
  impl_version : string
}.

Record McpServerInfo : Type := {
  protocol_version : string;
  capabilities : ServerCapabilities;
  server_info : Implementation;
  instructions : option string
}.

(** Exceptions: [JsonRpcError], or any other [Exception] given by its
    [str()]. *)
Inductive exn : Type :=
| JsonRpcError (code : Z) (message : string) (data : json)
| PyException (text : string).

(** [str(e)]; [JsonRpcError.__init__] passes its text to [Exception]. *)
Definition str_exn (e : exn) : string :=
  match e with
  | JsonRpcError code message _ =>
      "JSON-RPC Error " ++ str_of_int code ++ ": " ++ message
  | PyException text => text
  end.

(** What [json.loads] ends in: a value, [JSONDecodeError], or another
    exception (a [ValueError] for an integer of more digits than [int]
    converts, a [RecursionError] for a text nested too deeply). *)
Inductive decoded : Type :=
| Decoded (value : json)
| JSONDecodeError
| OtherError.

(** What awaiting a tool method ends in: a [CallToolResult], some other
    value (given by its [str()]), or an exception. *)
Inductive outcome : Type :=
| Returns (result : CallToolResult)
| ReturnsOther (str_result : string)
| Raises (e : exn).

(** [asdict(c)] for a [Content] *)
Definition asdict (c : Content) : json :=
  JDict [("type", JStr (content_type c)); ("text", JStr (content_text c))].

Section Server.

(** Everything a tool can read or change: the handler object, its clients,
    the remote service. *)
Variable world : Type.

(** [json.loads] on a line. *)
Variable loads : string -> decoded.

(** The text [json.dumps] writes for a float. *)
Variable float_repr : float -> string.

(** [repr(v)] of a value that is not a [str]. *)
Variable py_repr : json -> string.

(** A tool method, with its [__module__] and [__qualname__]:
    [call w kwargs] is [await method(handler, **kwargs)]. *)
Record tool_method : Type := {
  func_module : string;
  qualname : string;
  call : world -> list (string * json) -> outcome * world
}.

(** How the interpreter names a function in the text of a [TypeError]:
    through its module, unless that is [builtins]. *)
Definition func_str (m : tool_method) : string :=
  if String.eqb (func_module m) "builtins" then qualname m ++ "()"
  else func_module m ++ "." ++ qualname m ++ "()".

(** One value of [handler._tools]; [method = None] when the entry has no
    (or a false) ["method"]. *)
Record tool_info : Type := {
  tool_name : string;
  description : string;
  input_schema : json;
  method : option tool_method
}.

(** The handler object: [get_info()] and, when the class went through
    [tool_box], the [_tools] dict in registration order. *)
Record ServerHandler : Type := {
  get_info : world -> exn + McpServerInfo;
  _tools : option (list (string * tool_info))
}.

Record McpServer : Type := {
  handler : ServerHandler;
  tools : list (string * tool_info);
  initialized : bool
}.

(** [McpServer.__init__], with [_register_tools] *)
Definition new_server (server_handler : ServerHandler) : McpServer :=
  {| handler := server_handler;
     tools := match _tools server_handler with
              | Some ts => ts
              | None => []
              end;
     initialized := false |}.

Fixpoint lookup_tool (ts : list (string * tool_info)) (k : string)
  : option tool_info :=
  match ts with
  | [] => None
  | (k', v) :: rest => if String.eqb k' k then Some v else lookup_tool rest k
  end.

Definition _create_success_response (request_id result : json) : string :=
  let response :=
    JDict [("jsonrpc", JStr "2.0"); ("id", request_id); ("result", result)] in
  dumps float_repr response.

(** [data = JNull] is the default [data=None]. *)
Definition _create_error_response (request_id : json) (code : Z)
           (message : string) (data : json) : string :=
  let error := [("code", JInt code); ("message", JStr message)] in
  let error :=
    match data with
    | JNull => error
    | _ => (error ++ [("data", data)])%list
    end in
  let response :=
    JDict [("jsonrpc", JStr "2.0"); ("id", request_id); ("error", JDict error)] in
  dumps float_repr response.

Definition _handle_initialize (self : McpServer) (w : world) (params : json)
  : exn + json :=
  match get_info (handler self) w with
  | inl e => inl e
  | inr info =>
      inr (JDict
        [("protocolVersion", JStr ProtocolVersion.V_2024_11_05);
         ("capabilities",
          JDict [("tools", JDict []); ("prompts", JDict []); ("resources", JDict [])]);
         ("serverInfo",
          JDict [("name", JStr (impl_name (server_info info)));
                 ("version", JStr (impl_version (server_info info)))]);
         ("instructions",
          match instructions info with
          | Some text => JStr text
          | None => JNull
          end)])
  end.

Definition _handle_tools_list (self : McpServer) (params : json) : json :=
  let tools :=
    match _tools (handler self) with
    | Some ts =>
        map (fun entry =>
               JDict [("name", JStr (fst entry));
                      ("description", JStr (description (snd entry)));
                      ("inputSchema", input_schema (snd entry))]) ts
    | None => []
    end in
  JDict [("tools", JList tools)].

(** [await method(self.handler, **arguments)]: the expansion of
    [arguments] fails unless it is a mapping. *)
Definition invoke (m : tool_method) (w : world) (arguments : json)
  : outcome * world :=
  match arguments with
  | JDict kwargs => call m w kwargs
  | _ => (Raises (PyException
            (func_str m ++ " argument after ** must be a mapping, not "
             ++ type_name arguments)), w)
  end.

Definition tool_not_found (tool_name : json) : exn :=
  JsonRpcError METHOD_NOT_FOUND ("Tool not found: " ++ py_str py_repr tool_name) JNull.

Definition _handle_tools_call (self : McpServer) (w : world) (params : json)
  : (exn + json) * world :=
  match params with
  | JDict p =>
      let tool_name := get p "name" in
      if negb (truthy tool_name) then
        (inl (JsonRpcError INVALID_PARAMS "Missing tool name" JNull), w)
      else
        let arguments := get_default p "arguments" (JDict []) in
        match _tools (handler self) with
        | None => (inl (tool_not_found tool_name), w)
        | Some ts =>
            (* tool_name in self.handler._tools *)
            match tool_name with
            | JList _ | JDict _ =>
                (inl (PyException ("unhashable type: '" ++ type_name tool_name ++ "'")), w)
            | JStr name =>
                match lookup_tool ts name with
                | Some info =>
                    match method info with
                    | Some m =>
                        match invoke m w arguments with
                        | (Returns result, w') =>
                            (inr (JDict [("content", JList (map asdict (content result)));
                                         ("isError", JBool (is_error result))]), w')
                        | (ReturnsOther str_result, w') =>
                            (inr (JDict [("content",
                                          JList [JDict [("type", JStr "text");
                                                        ("text", JStr str_result)]]);
                                         ("isError", JBool false)]), w')
                        | (Raises e, w') =>
                            (inr (JDict [("content",
                                          JList [JDict [("type", JStr "text");
                                                        ("text", JStr ("Error calling tool: "
                                                                       ++ str_exn e))]]);
                                         ("isError", JBool true)]), w')
                        end
                    | None => (inl (tool_not_found tool_name), w)
                    end
                | None => (inl (tool_not_found tool_name), w)
                end
            | _ => (inl (tool_not_found tool_name), w)
            end
        end
  | _ =>
      (inl (PyException ("'" ++ type_name params ++ "' object has no attribute 'get'")), w)
  end.

(** The [UnboundLocalError] of reading the local variable [request]
    before anything was assigned to it. *)
Definition unbound_request : exn :=
  PyException "cannot access local variable 'request' where it is not associated with a value".

(** [McpServer.handle_message]: the response line, or [None] when nothing
    is to be sent, or the exception that leaves the method, with the
    server and the world afterwards.  The inner [match] is the body of the
    [try]; its [inl e] is an exception reaching [except Exception].  When
    it is [json.loads] that raised it, [request] was never assigned, and
    the handler, which reads [request], raises in its turn. *)
Definition handle_message (self : McpServer) (w : world) (message : string)
  : (exn + option string) * McpServer * world :=
  match loads message with
  | JSONDecodeError =>
      (inr (Some (_create_error_response JNull PARSE_ERROR "Parse error" JNull)),
       self, w)
  | OtherError => (inl unbound_request, self, w)
  | Decoded request =>
      let '(body, self', w') :=
        match request with
        | JDict fields =>
            match dict_get fields "jsonrpc" with
            | None =>
                (inr (Some (_create_error_response
                              JNull INVALID_REQUEST "Invalid JSON-RPC request" JNull)),
                 self, w)
            | Some tag =>
                if negb (eq_str tag "2.0") then
                  (inr (Some (_create_error_response
                                (get fields "id") INVALID_REQUEST
                                "Unsupported JSON-RPC version" JNull)),
                   self, w)
                else
                  let method := get fields "method" in
                  if negb (truthy method) then
                    (inr (Some (_create_error_response
                                  (get fields "id") INVALID_REQUEST
                                  "Missing method field" JNull)),
                     self, w)
                  else
                    let params := get_default fields "params" (JDict []) in
                    let request_id := get fields "id" in
                    if eq_str method "initialize" then
                      match _handle_initialize self w params with
                      | inl e => (inl e, self, w)
                      | inr response =>
                          (inr (Some (_create_success_response request_id response)),
                           self, w)
                      end
                    else if eq_str method "notifications/initialized" then
                      (inr None,
                       {| handler := handler self;
                          tools := tools self;
                          initialized := true |},
                       w)
                    else if eq_str method "tools/list" then
                      (inr (Some (_create_success_response
                                    request_id (_handle_tools_list self params))),
                       self, w)
                    else if eq_str method "tools/call" then
                      match _handle_tools_call self w params with
                      | (inl e, w') => (inl e, self, w')
                      | (inr response, w') =>
                          (inr (Some (_create_success_response request_id response)),
                           self, w')
                      end
                    else
                      (inr (Some (_create_error_response
                                    request_id METHOD_NOT_FOUND
                                    ("Method not found: " ++ py_str py_repr method) JNull)),
                       self, w)
            end
        | _ =>
            (inr (Some (_create_error_response
                          JNull INVALID_REQUEST "Invalid JSON-RPC request" JNull)),
             self, w)
        end in
      match body with
      | inr response => (inr response, self', w')
      | inl e =>
          (inr (Some (_create_error_response
                        (match request with
                         | JDict fields => get fields "id"
                         | _ => JNull
                         end)
                        INTERNAL_ERROR (str_exn e) JNull)),
           self', w')
      end
  end.

(** *** [StdioTransport] *)

(** What reaches standard output. *)
Inductive io_event : Type :=
| Write (text : string)
| Flush.

(** [print(response, flush=True)] *)
Definition print_flush (response : string) : list io_event :=
  [Write (response ++ newline); Flush].

(** [StdioTransport.start] over the lines [sys.stdin.readline] returns one
    after the other; past the last one it returns the empty string.  The
    result is the output written, and the server and world at the end.
    An exception that leaves [handle_message] is caught outside the
    [while]: it is logged and the method returns. *)
Fixpoint start (server : McpServer) (w : world) (stdin : list string)
  : list io_event * McpServer * world :=
  match stdin with
  | [] => ([], server, w)
  | line :: rest =>
      if String.eqb line "" then ([], server, w)        (* EOF *)
      else
        let line := strip line in
        if String.eqb line "" then start server w rest  (* continue *)
        else
          match handle_message server w line with
          | (inl _, server', w') => ([], server', w')  (* except Exception *)
          | (inr response, server', w') =>
              let written :=
                match response with
                | Some text => if String.eqb text "" then [] else print_flush text
                | None => []
                end in
              let '(out, server'', w'') := start server' w' rest in
              ((written ++ out)%list, server'', w'')
          end
  end.

(** *** Vocabulary for the properties *)

(** [message] decodes to an object tagged ["2.0"] whose method is the
    string [method_name]. *)
Definition is_request (message : string) (fields : list (string * json))
           (method_name : string) : Prop :=
  loads message = Decoded (JDict fields)
  /\ dict_get fields "jsonrpc" = Some (JStr "2.0")
  /\ get fields "method" = JStr method_name.

(** The request names a registered tool whose method is [m], to be invoked
    with [arguments]. *)
Definition resolves_tool (self : McpServer) (fields : list (string * json))
           (m : tool_method) (arguments : json) : Prop :=
  exists p name ts info,
    get_default fields "params" (JDict []) = JDict p
    /\ get p "name" = JStr name
    /\ name <> ""
    /\ _tools (handler self) = Some ts
    /\ lookup_tool ts name = Some info
    /\ method info = Some m
    /\ arguments = get_default p "arguments" (JDict []).


(** The output part of a run of the transport. *)
Definition output (r : list io_event * McpServer * world) : list io_event :=
  fst (fst r).

(** [self] after [self.initialized = True]. *)
Definition mark_initialized (self : McpServer) : McpServer :=
  {| handler := handler self; tools := tools self; initialized := true |}.

(** The dict a tool call answers with when all it has is a text. *)
Definition text_result (text : string) (is_error : bool) : json :=
  JDict [("content", JList [JDict [("type", JStr "text"); ("text", JStr text)]]);
         ("isError", JBool is_error)].

End Server.

Arguments func_module {world}.
Arguments qualname {world}.
Arguments func_str {world}.
Arguments call {world}.
Arguments tool_name {world}.
Arguments description {world}.
Arguments input_schema {world}.
Arguments method {world}.
Arguments get_info {world}.
Arguments _tools {world}.
Arguments handler {world}.
Arguments tools {world}.
Arguments initialized {world}.
Arguments new_server {world}.
Arguments lookup_tool {world}.
Arguments invoke {world}.
Arguments resolves_tool {world}.
Arguments mark_initialized {world}.

End Mcp.

(** ** [wazuh_client.py]: [WazuhClientBase] *)

Module Wazuh.
Import PyStr Json.

Inductive exn : Type :=
| WazuhApiError (message : string) (status_code : option Z)
| ClientError (text : string)        (* aiohttp.ClientError, with its str() *)
| JSONDecodeError
| PyException (text : string).       (* any other exception *)

(** A response as the client reads it: the status, and what awaiting
    [text()] and [json()] gives. *)
Record Response : Type := {
  status : Z;
  text : exn + string;
  json_body : exn + json
}.

Definition headers_t : Type := list (string * string).

(** [headers[k] = v] *)
Fixpoint set_header (h : headers_t) (k v : string) : headers_t :=
  match h with
  | [] => [(k, v)]
  | (k', v') :: rest =>
      if String.eqb k' k then (k', v) :: rest else (k', v') :: set_header rest k v
  end.

(** The calls that reach the remote service, in order. *)
Inductive remote_call : Type :=
| AuthCall (url username password : string)
| ResourceCall (method url : string) (headers : headers_t) (params json_data : json).

Definition is_auth_call (c : remote_call) : bool :=
  match c with AuthCall _ _ _ => true | _ => false end.

Definition is_resource_call (c : remote_call) : bool :=
  match c with ResourceCall _ _ _ _ _ => true | _ => false end.

(** The fields of the client the token lifecycle uses; [_session] says
    whether a session object is held. *)
Record WazuhClientBase : Type := {
  base_url : string;
  username : string;
  password : string;
  token : json;
  _session : bool
}.

Definition with_token (c : WazuhClientBase) (t : json) : WazuhClientBase :=
  {| base_url := base_url c; username := username c; password := password c;
     token := t; _session := _session c |}.

Section Client.

(** The remote service together with the connection to it. *)
Variable remote : Type.

(** [session.post(url, auth=BasicAuth(username, password), headers=...)] *)
Variable post :
  remote -> string -> string -> string -> headers_t -> (exn + Response) * remote.

(** [session.request(method, url, headers=..., params=..., json=...)] *)
Variable request :
  remote -> string -> string -> headers_t -> json -> json -> (exn + Response) * remote.

(** [json.loads] on a body: the value, or the exception raised, which is
    [JSONDecodeError] or another one (a [ValueError] for an integer of
    more digits than [int] converts, a [RecursionError]). *)
Variable loads : string -> exn + json.
Variable py_repr : json -> string.
Variable urljoin : string -> string -> string.

Record state : Type := {
  self : WazuhClientBase;
  net : remote;
  calls : list remote_call
}.

(** State and exceptions. *)
Definition M (A : Type) : Type := state -> (exn + A) * state.

Definition ret {A} (a : A) : M A := fun st => (inr a, st).

Definition raise {A} (e : exn) : M A := fun st => (inl e, st).

Definition bind {A B} (c : M A) (k : A -> M B) : M B :=
  fun st =>
    match c st with
    | (inr a, st') => k a st'
    | (inl e, st') => (inl e, st')
    end.

Notation "x <- c1 ;; c2" := (bind c1 (fun x => c2))
  (at level 61, c1 at next level, right associativity).
Notation "c1 ;; c2" := (bind c1 (fun _ => c2))
  (at level 61, right associativity).

(** [try: c  except aiohttp.ClientError as e: raise wrap(str(e))] *)
Definition except_client_error {A} (c : M A) (wrap : string -> exn) : M A :=
  fun st =>
    match c st with
    | (inl (ClientError text), st') => (inl (wrap text), st')
    | r => r
    end.

Definition lift {A} (r : exn + A) : M A :=
  match r with
  | inl e => raise e
  | inr a => ret a
  end.

Definition get_self : M WazuhClientBase := fun st => (inr (self st), st).

(** The state once the remote has served the call [c]. *)
Definition record_call (st : state) (net' : remote) (c : remote_call) : state :=
  {| self := self st; net := net'; calls := (calls st ++ [c])%list |}.

(** The state after [self.token = t]. *)
Definition store_token (st : state) (t : json) : state :=
  {| self := with_token (self st) t; net := net st; calls := calls st |}.

Definition set_token (t : json) : M unit :=
  fun st => (inr tt, store_token st t).

Definition do_post (url username password : string) (headers : headers_t) : M Response :=
  fun st =>
    let (r, net') := post (net st) url username password headers in
    (r, record_call st net' (AuthCall url username password)).

Definition do_request (method url : string) (headers : headers_t)
           (params json_data : json) : M Response :=
  fun st =>
    let (r, net') := request (net st) method url headers params json_data in
    (r, record_call st net' (ResourceCall method url headers params json_data)).

Definition no_session : exn :=
  WazuhApiError "Client session not initialized. Use 'async with' for WazuhClientBase." None.

Definition attribute_error (v : json) : exn :=
  PyException ("'" ++ type_name v ++ "' object has no attribute 'get'").

(** [WazuhClientBase.authenticate] *)
Definition authenticate : M json :=
  c <- get_self ;;
  if negb (_session c) then raise no_session
  else
    let auth_url := urljoin (base_url c) "/security/user/authenticate" in
    except_client_error
      (response <- do_post auth_url (username c) (password c)
                     [("Content-Type", "application/json")] ;;
       if status response =? 200 then
         data <- lift (json_body response) ;;
         match data with
         | JDict d =>
             match get_default d "data" (JDict []) with
             | JDict inner =>
                 set_token (get inner "token") ;;
                 ret (get inner "token")
             | other => raise (attribute_error other)
             end
         | _ => raise (attribute_error data)
         end
       else
         error_text <- lift (text response) ;;
         raise (WazuhApiError
                  ("Authentication failed: " ++ str_of_int (status response)
                   ++ " - " ++ error_text)
                  (Some (status response))))
      (fun text =>
         WazuhApiError ("Connection error during authentication: " ++ text) (Some 503)).

Definition bearer (t : json) : string := "Bearer " ++ py_str py_repr t.

(** The [try] block of [_make_request]. *)
Definition attempt (method url : string) (headers : headers_t)
           (params json_data : json) : M json :=
  except_client_error
    (response <- do_request method url headers params json_data ;;
     response_text <- lift (text response) ;;
     if status response =? 200 then
       match loads response_text with
       | inr v => ret v
       | inl JSONDecodeError =>
           raise (WazuhApiError ("Invalid JSON response: " ++ response_text) None)
       | inl e => raise e
       end
     else if status response =? 401 then
       (* re-authenticate and retry once *)
       set_token JNull ;;
       authenticate ;;
       c <- get_self ;;
       let headers := set_header headers "Authorization" (bearer (token c)) in
       retry_resp <- do_request method url headers params json_data ;;
       retry_text <- lift (text retry_resp) ;;
       if status retry_resp =? 200 then
         match loads retry_text with
         | inr v => ret v
         | inl e => raise e
         end
       else
         raise (WazuhApiError
                  ("API request failed after re-auth: "
                   ++ str_of_int (status retry_resp) ++ " - " ++ retry_text)
                  (Some (status retry_resp)))
     else
       raise (WazuhApiError
                ("API request failed: " ++ str_of_int (status response)
                 ++ " - " ++ response_text)
                (Some (status response))))
    (fun text => WazuhApiError ("Connection error: " ++ text) (Some 503)).

(** The first two statements of [_make_request]: the session has to be
    there, and a token is fetched when none is held. *)
Definition ensure_token : M unit :=
  c <- get_self ;;
  if negb (_session c) then raise no_session
  else if negb (truthy (token c)) then authenticate ;; ret tt
  else ret tt.

Definition request_headers (c : WazuhClientBase) : headers_t :=
  [("Authorization", bearer (token c)); ("Content-Type", "application/json")].

(** [WazuhClientBase._make_request] *)
Definition _make_request (method endpoint : string) (params json_data : json)
  : M json :=
  ensure_token ;;
  c <- get_self ;;
  let url := urljoin (base_url c) endpoint in
  let headers := request_headers c in
  attempt method url headers params json_data.

(** *** Vocabulary for the properties *)

Definition auth_url (c : WazuhClientBase) : string :=
  urljoin (base_url c) "/security/user/authenticate".

(** The call [authenticate] makes for the client [c]. *)
Definition auth_call (c : WazuhClientBase) : remote_call :=
  AuthCall (auth_url c) (username c) (password c).

Definition count_auth (cs : list remote_call) : nat :=
  List.length (filter is_auth_call cs).

Definition count_resource (cs : list remote_call) : nat :=
  List.length (filter is_resource_call cs).

End Client.

Arguments self {remote}.
Arguments net {remote}.
Arguments calls {remote}.
Arguments ret {remote A}.
Arguments raise {remote A}.
Arguments bind {remote A B}.
Arguments lift {remote A}.
Arguments except_client_error {remote A}.
Arguments get_self {remote}.
Arguments set_token {remote}.
Arguments record_call {remote}.
Arguments store_token {remote}.

End Wazuh.

(** ** A small server and a few request lines

    Concrete data for the worked examples: a handler with three tools and
    the lines sent to it.  A line is written with apostrophes where the
    wire format has double quotes. *)

Module Sample.
Import PyStr Json Mcp.

Fixpoint dq (s : string) : string :=
  match s with
  | EmptyString => EmptyString
  | String c r => String (if Ascii.eqb c "'" then chr 34 else c) (dq r)
  end.

(** The world of the sample tools: the number of tool invocations so far. *)
Definition world : Type := nat.

Definition status_method : tool_method world :=
  {| func_module := "sample"; qualname := "SampleHandler.status";
     call := fun w _ =>
       (Returns {| content := [{| content_type := "text"; content_text := "ok" |}];
                   is_error := false |}, S w) |}.

Definition boom_method : tool_method world :=
  {| func_module := "sample"; qualname := "SampleHandler.boom";
     call := fun w _ => (Raises (PyException "boom"), S w) |}.

Definition count_method : tool_method world :=
  {| func_module := "sample"; qualname := "SampleHandler.count";
     call := fun w _ => (ReturnsOther "42", S w) |}.

Definition no_params (name : string) : json :=
  JDict [("$schema", JStr "http://json-schema.org/draft-07/schema#");
         ("type", JStr "object");
         ("properties", JDict []);
         ("required", JList []);
         ("title", JStr (name ++ "_params"))].

Definition sample_tool (name : string) (m : tool_method world)
  : string * tool_info world :=
  (name, {| tool_name := name; description := ""; input_schema := no_params name;
            method := Some m |}).

Definition sample_handler : ServerHandler world :=
  {| get_info := fun _ =>
       inr {| protocol_version := ProtocolVersion.V_2024_11_05;
              capabilities := {| cap_tools := true; cap_prompts := false;
                                 cap_resources := false |};
              server_info := {| impl_name := "sample"; impl_version := "0.0.1" |};
              instructions := None |};
     _tools := Some [sample_tool "status" status_method;
                     sample_tool "boom" boom_method;
                     sample_tool "count" count_method] |}.

Definition sample_server : McpServer world := new_server sample_handler.

Definition call_request (id : Z) (name : string) : list (string * json) :=
  [("jsonrpc", JStr "2.0"); ("id", JInt id); ("method", JStr "tools/call");
   ("params", JDict [("name", JStr name); ("arguments", JDict [])])].

(** The request lines of the examples. *)
Definition line_call_boom : string :=
  dq "{'jsonrpc': '2.0', 'id': 1, 'method': 'tools/call', 'params': {'name': 'boom', 'arguments': {}}}".
Definition line_call_count : string :=
  dq "{'jsonrpc': '2.0', 'id': 2, 'method': 'tools/call', 'params': {'name': 'count', 'arguments': {}}}".
Definition line_call_no_name : string :=
  dq "{'jsonrpc': '2.0', 'id': 3, 'method': 'tools/call', 'params': {}}".
Definition line_call_unknown : string :=
  dq "{'jsonrpc': '2.0', 'id': 4, 'method': 'tools/call', 'params': {'name': 'nope'}}".
Definition line_list_no_id : string :=
  dq "{'jsonrpc': '2.0', 'method': 'tools/list'}".
Definition line_initialized : string :=
  dq "{'jsonrpc': '2.0', 'method': 'notifications/initialized'}".
Definition line_no_tag : string :=
  dq "{'id': 7, 'method': 'tools/list'}".
Definition line_old_tag : string :=
  dq "{'jsonrpc': '1.0', 'id': 8, 'method': 'tools/list'}".
Definition line_no_method : string :=
  dq "{'jsonrpc': '2.0', 'id': 9}".
Definition line_frobnicate : string :=
  dq "{'jsonrpc': '2.0', 'id': 10, 'method': 'frobnicate'}".
Definition line_array : string := "[1, 2]".

(** A line that is one integer of 4301 digits. *)
Definition line_long_number : string := String "1" (zeros 4300).

Definition fields_list_no_id : list (string * json) :=
  [("jsonrpc", JStr "2.0"); ("method", JStr "tools/list")].
Definition fields_initialized : list (string * json) :=
  [("jsonrpc", JStr "2.0"); ("method", JStr "notifications/initialized")].
Definition fields_no_tag : list (string * json) :=
  [("id", JInt 7); ("method", JStr "tools/list")].
Definition fields_old_tag : list (string * json) :=
  [("jsonrpc", JStr "1.0"); ("id", JInt 8); ("method", JStr "tools/list")].
Definition fields_no_method : list (string * json) :=
  [("jsonrpc", JStr "2.0"); ("id", JInt 9)].
Definition fields_frobnicate : list (string * json) :=
  [("jsonrpc", JStr "2.0"); ("id", JInt 10); ("method", JStr "frobnicate")].

(** What [json.loads] gives for each of these lines; [line_garbage] is
    not among them, it does not decode. *)
Definition sample_lines : list (string * json) :=
  [(line_call_boom, JDict (call_request 1 "boom"));
   (line_call_count, JDict (call_request 2 "count"));
   (line_call_no_name,
    JDict [("jsonrpc", JStr "2.0"); ("id", JInt 3); ("method", JStr "tools/call");
           ("params", JDict [])]);
   (line_call_unknown,
    JDict [("jsonrpc", JStr "2.0"); ("id", JInt 4); ("method", JStr "tools/call");
           ("params", JDict [("name", JStr "nope")])]);
   (line_list_no_id, JDict fields_list_no_id);
   (line_initialized, JDict fields_initialized);
   (line_no_tag, JDict fields_no_tag);
   (line_old_tag, JDict fields_old_tag);
   (line_no_method, JDict fields_no_method);
   (line_frobnicate, JDict fields_frobnicate);
   (line_array, JList [JInt 1; JInt 2])].

(** [json.loads] on the lines above; the long number is more than [int]
    converts, and any other text counts as undecodable here. *)
Definition sample_loads (line : string) : decoded :=
  match dict_get sample_lines line with
  | Some value => Decoded value
  | None =>
      if String.eqb line line_long_number then OtherError   (* ValueError *)
      else JSONDecodeError
  end.

(** The examples hold no float and interpolate strings only, so the two
    renderings below are never consulted. *)
Definition no_float : float -> string := fun _ => "".
Definition no_repr : json -> string := fun _ => "".

Definition sample_handle (server : McpServer world) (w : world) (line : string)
  : (exn + option string) * McpServer world * world :=
  handle_message world sample_loads no_float no_repr server w line.

Definition sample_start (server : McpServer world) (w : world) (stdin : list string)
  : list io_event * McpServer world * world :=
  start world sample_loads no_float no_repr server w stdin.

End Sample.

(** ** A scripted remote service

    Concrete data for the worked examples of the client: the remote is
    the list of the answers it will give, one per call. *)

Module SampleRemote.
Import PyStr Json Wazuh.

Definition remote : Type := list (exn + Response).

Definition serve (script : remote) : (exn + Response) * remote :=
  match script with
  | [] => (inl (ClientError "Cannot connect to host"), [])
  | answer :: rest => (answer, rest)
  end.

Definition post (script : remote) (url username password : string)
           (headers : headers_t) : (exn + Response) * remote :=
  serve script.

Definition request (script : remote) (method url : string) (headers : headers_t)
           (params json_data : json) : (exn + Response) * remote :=
  serve script.

(** The body [{}] decodes to the empty object; no other body is decoded
    in the examples. *)
Definition loads (body : string) : exn + json :=
  if String.eqb body "{}" then inr (JDict []) else inl JSONDecodeError.

Definition no_repr : json -> string := fun _ => "".

(** [urljoin] of a base without a path and an absolute path. *)
Definition urljoin (base path : string) : string := base ++ path.

Definition grants (t : string) : exn + Response :=
  inr {| status := 200;
         text := inr "";
         json_body := inr (JDict [("data", JDict [("token", JStr t)])]) |}.

Definition answers (code : Z) (body : string) : exn + Response :=
  inr {| status := code; text := inr body; json_body := inl JSONDecodeError |}.

Definition client (t : json) : WazuhClientBase :=
  {| base_url := "https://localhost:55000";
     username := "wazuh";
     password := "wazuh";
     token := t;
     _session := true |}.

Definition initial (t : json) (script : remote) : state remote :=
  {| self := client t; net := script; calls := [] |}.

Definition get_agents (st : state remote) : (exn + json) * state remote :=
  _make_request remote post request loads no_repr urljoin "GET" "/agents" JNull JNull st.

(** No token at first; the request is answered 401 twice. *)
Definition twice_unauthorized : state remote :=
  initial JNull [grants "t1"; answers 401 "Unauthorized";
                 grants "t2"; answers 401 "Unauthorized"; answers 200 "{}"].

(** A token is held; the request is answered 500. *)
Definition server_error : state remote :=
  initial (JStr "t0") [answers 500 "boom"].

Definition login : remote_call :=
  AuthCall "https://localhost:55000/security/user/authenticate" "wazuh" "wazuh".

Definition agents_with (t : string) : remote_call :=
  ResourceCall "GET" "https://localhost:55000/agents"
               [("Authorization", "Bearer " ++ t); ("Content-Type", "application/json")]
               JNull JNull.

End SampleRemote.

(** ** More request lines for the sample server *)

Module SampleMore.
Import PyStr Json Mcp Sample.

Definition line_call_status : string :=
  dq "{'jsonrpc': '2.0', 'id': 11, 'method': 'tools/call', 'params': {'name': 'status', 'arguments': {}}}".
Definition line_call_list_arguments : string :=
  dq "{'jsonrpc': '2.0', 'id': 12, 'method': 'tools/call', 'params': {'name': 'status', 'arguments': [1]}}".
Definition line_list : string :=
  dq "{'jsonrpc': '2.0', 'id': 13, 'method': 'tools/list'}".

Definition fields_call_list_arguments : list (string * json) :=
  [("jsonrpc", JStr "2.0"); ("id", JInt 12); ("method", JStr "tools/call");
   ("params", JDict [("name", JStr "status"); ("arguments", JList [JInt 1])])].
Definition fields_list : list (string * json) :=
  [("jsonrpc", JStr "2.0"); ("id", JInt 13); ("method", JStr "tools/list")].

Definition more_lines : list (string * json) :=
  [(line_call_status, JDict (call_request 11 "status"));
   (line_call_list_arguments, JDict fields_call_list_arguments);
   (line_list, JDict fields_list)].

(** [json.loads] on these lines and on those of [Sample]. *)
Definition more_loads (line : string) : decoded :=
  match dict_get more_lines line with
  | Some v => Decoded v
  | None => sample_loads line
  end.

Definition more_handle (server : McpServer world) (w : world) (line : string)
  : (exn + option string) * McpServer world * world :=
  handle_message world more_loads no_float no_repr server w line.

Definition more_start (server : McpServer world) (w : world) (stdin : list string)
  : list io_event * McpServer world * world :=
  start world more_loads no_float no_repr server w stdin.

(** Two stretches of input. *)
Definition stdin_first : list string :=
  [line_call_status ++ newline; line_initialized ++ newline].
Definition stdin_second : list string := [line_frobnicate ++ newline].

(** The line that holds the long number, as it is read. *)
Definition stdin_long_number : string := line_long_number ++ newline.

End SampleMore.

(** ** Printable text

    The characters from the space to the tilde: the ones [json.dumps]
    leaves as they are. *)

Module Printable.
Import PyStr.

Definition printable (c : ascii) : bool :=
  (32 <=? code c) && (code c <=? 126).

Fixpoint all_printable (s : string) : bool :=
  match s with
  | EmptyString => true
  | String c r => printable c && all_printable r
  end.

End Printable.

(** ** [mcp_protocol.py]: [ToolRegistry] and [tool_box] *)

Module Registry.
Import PyStr Json Schema Mcp.

Section Registry.

Variable world : Type.

(** [tools[k] = v] on the insertion-ordered dict of tools. *)
Fixpoint set_tool (ts : list (string * tool_info world)) (k : string)
         (v : tool_info world) : list (string * tool_info world) :=
  match ts with
  | [] => [(k, v)]
  | (k', v') :: rest =>
      if String.eqb k' k then (k', v) :: rest else (k', v') :: set_tool rest k v
  end.

(** [ToolRegistry.register_tool] on the registry's [tools]. *)
Definition register_tool (tools : list (string * tool_info world))
           (name description : string) (input_schema : json)
           (method : tool_method world) : list (string * tool_info world) :=
  set_tool tools name
           {| tool_name := name;
              description := description;
              input_schema := input_schema;
              method := Some method |}.

(** A value of [cls.__dict__]: a function that went through [tool], with
    what the decorator stored on it, or anything else. *)
Inductive member : Type :=
| Decorated (meta : tool_metadata) (m : tool_method world)
| Plain.

(** The entry [tool_box] makes for a decorated method. *)
Definition entry_of (meta : tool_metadata) (m : tool_method world) : tool_info world :=
  {| tool_name := _tool_name meta;
     description := _tool_description meta;
     input_schema := _tool_input_schema meta;
     method := Some m |}.

(** The loop of [tool_box] over [cls.__dict__.items()]. *)
Fixpoint collect_tools (members : list (string * member))
         (tools : list (string * tool_info world)) : list (string * tool_info world) :=
  match members with
  | [] => tools
  | (_, Decorated meta m) :: rest =>
      collect_tools rest (set_tool tools (_tool_name meta) (entry_of meta m))
  | (_, Plain) :: rest => collect_tools rest tools
  end.

(** [tool_box(cls)]: the [_tools] it stores on the class. *)
Definition tool_box (members : list (string * member))
  : list (string * tool_info world) :=
  collect_tools members [].

(** The last decorated member whose tool name is [n]. *)
Fixpoint last_decorated (members : list (string * member)) (n : string)
  : option (tool_metadata * tool_method world) :=
  match members with
  | [] => None
  | (_, mem) :: rest =>
      match last_decorated rest n with
      | Some found => Some found
      | None =>
          match mem with
          | Decorated meta m =>
              if String.eqb (_tool_name meta) n then Some (meta, m) else None
          | Plain => None
          end
      end
  end.

End Registry.

Arguments set_tool {world}.
Arguments register_tool {world}.
Arguments Decorated {world}.
Arguments Plain {world}.
Arguments entry_of {world}.
Arguments collect_tools {world}.
Arguments tool_box {world}.
Arguments last_decorated {world}.

End Registry.

(** The terms in which the derived schema is stated. *)

Module SchemaSpec.
Import Json Schema.

(** The names [python_type_to_json_type] can give. *)
Definition json_type_names : list string :=
  ["string"; "integer"; "number"; "boolean"; "array"; "object"; "null"].


End SchemaSpec.

(** ** [src/tools/__init__.py]: more of [ToolUtils] *)

Module ToolUtilsMore.
Import PyStr.

(** [str.lower] on one character: below 256 the capital letters are
    U+0041..U+005A and U+00C0..U+00DE without the multiplication sign
    U+00D7, each 32 below its small letter. *)
Definition lower_char (c : ascii) : ascii :=
  let n := code c in
  if ((65 <=? n) && (n <=? 90))
     || ((192 <=? n) && (n <=? 222) && negb (n =? 215))
  then chr (n + 32) else c.

Fixpoint lower (s : string) : string :=
  match s with
  | EmptyString => EmptyString
  | String c r => String (lower_char c) (lower r)
  end.

(** The dataclass [Port] of [wazuh_client.py]. *)
Record Port : Type := {
  local_ip : option string;
  local_port : option Z;
  remote_ip : option string;
  remote_port : option Z;
  protocol : option string;
  state : option string;
  pid : option string;
  process : option string
}.

(** [port_state and port_state.lower() == "listening"] *)
Definition is_listening (port_state : option string) : bool :=
  match port_state with
  | Some s => negb (String.eqb s "") && String.eqb (lower s) "listening"
  | None => false
  end.

(** [not port_state or port_state.lower() != "listening"] *)
Definition is_not_listening (port_state : option string) : bool :=
  match port_state with
  | Some s => String.eqb s "" || negb (String.eqb (lower s) "listening")
  | None => true
  end.

(** The loop of [filter_ports_by_state], threading [filtered_ports]. *)
Fixpoint filter_loop (state_filter_lower : string) (ports : list Port)
         (filtered_ports : list Port) : list Port :=
  match ports with
  | [] => filtered_ports
  | port :: rest =>
      let port_state := state port in
      match port_state with
      | Some EmptyString => filter_loop state_filter_lower rest filtered_ports
      | _ =>
          if String.eqb state_filter_lower "listening" then
            if is_listening port_state
            then filter_loop state_filter_lower rest (filtered_ports ++ [port])%list
            else filter_loop state_filter_lower rest filtered_ports
          else
            if is_not_listening port_state
            then filter_loop state_filter_lower rest (filtered_ports ++ [port])%list
            else filter_loop state_filter_lower rest filtered_ports
      end
  end.

(** [ToolUtils.filter_ports_by_state] *)
Definition filter_ports_by_state (ports : list Port) (state_filter : string)
  : list Port :=
  if String.eqb state_filter "" then ports
  else filter_loop (lower state_filter) ports [].

(** The first [n] characters. *)
Fixpoint take (n : nat) (s : string) : string :=
  match n, s with
  | S n', String c r => String c (take n' r)
  | _, _ => EmptyString
  end.

(** The slice [s[:k]]: a negative [k] counts from the end. *)
Definition slice_to (s : string) (k : Z) : string :=
  if 0 <=? k then take (Z.to_nat k) s
  else take (Z.to_nat (Z.of_nat (String.length s) + k)) s.

(** [ToolUtils.truncate_text] *)
Definition truncate_text (text : string) (max_length : Z) : string :=
  if Z.of_nat (String.length text) <=? max_length then text
  else slice_to text (max_length - 3) ++ "...".

(** Whether the port carries a state other than the empty string, and
    whether that state reads [listening], whatever the case. *)
Definition has_state (p : Port) : bool :=
  match state p with
  | Some s => negb (String.eqb s "")
  | None => true
  end.

Definition listens (p : Port) : bool :=
  match state p with
  | Some s => String.eqb (lower s) "listening"
  | None => false
  end.

End ToolUtilsMore.

(** ** [src/tools/utils.py]: [ToolUtils] *)

Module ToolUtils2.
Import PyStr.

(** [s.startswith(prefix)] and, when it holds, what follows the prefix. *)
Fixpoint strip_prefix (prefix s : string) : option string :=
  match prefix, s with
  | EmptyString, _ => Some s
  | String a p, String b r => if Ascii.eqb a b then strip_prefix p r else None
  | String _ _, EmptyString => None
  end.

(** [re.fullmatch(r'\d{3}', s)] *)
Definition fullmatch_3_digits (s : string) : bool :=
  match s with
  | String a (String b (String c EmptyString)) =>
      isdecimal a && isdecimal b && isdecimal c
  | _ => false
  end.

(** [ToolUtils.format_agent_id] of [utils.py] on a [str] argument. *)
Definition format_agent_id (agent_id : string) : string * option string :=
  if String.eqb agent_id "" then ("", Some "Agent ID cannot be empty.")
  else
    let agent_id :=
      match strip_prefix "agent/" agent_id with
      | Some rest => rest
      | None => agent_id
      end in
    if fullmatch_3_digits agent_id then (agent_id, None)
    else
      match py_int agent_id with
      | Some int_id =>
          if (0 <=? int_id) && (int_id <=? 999) then (format_03d int_id, None)
          else ("", Some "Agent ID must be between 0 and 999 for automatic formatting.")
      | None =>
          ("", Some ("Invalid agent ID format: '" ++ agent_id
                     ++ "'. Expected '001' or an integer."))
      end.

(** [ToolUtils.truncate_text] of [utils.py] *)
Definition truncate_text (text : string) (max_length : Z) : string :=
  if String.eqb text "" || (Z.of_nat (String.length text) <=? max_length) then text
  else ToolUtilsMore.slice_to text (max_length - 3) ++ "...".

End ToolUtils2.

(** The information separators U+001C..U+001F: white space for
    [str.strip], but not for [int]. *)

Module Separators.
Import PyStr.

Definition is_separator (c : ascii) : bool :=
  let n := code c in (28 <=? n) && (n <=? 31).

Fixpoint has_separator (s : string) : bool :=
  match s with
  | EmptyString => false
  | String c r => is_separator c || has_separator r
  end.

End Separators.

(** Three ports: one listening, one established, one with an empty
    state. *)

Module SamplePorts.
Import ToolUtilsMore.

Definition port_in (s : option string) (n : Z) : Port :=
  {| local_ip := Some "0.0.0.0"; local_port := Some n;
     remote_ip := None; remote_port := None;
     protocol := Some "tcp"; state := s; pid := None; process := None |}.

Definition ports : list Port :=
  [port_in (Some "LISTENING") 22; port_in (Some "established") 443;
   port_in (Some "") 53; port_in None 68].

End SamplePorts.

(** ** [wazuh_client.py]: [ClusterClient.get_cluster_status] *)

Module WazuhMore.
Import PyStr Json Wazuh.

(** The dataclass [ClusterStatus]; its fields hold what the response
    holds. *)
Record ClusterStatus : Type := {
  enabled : json;
  running : json
}.

(** [v.get(k, default)] on any value: only a dict has [get]. *)
Definition py_get_default (v : json) (k : string) (default : json) : exn + json :=
  match v with
  | JDict d => inr (get_default d k default)
  | _ => inl (PyException ("'" ++ type_name v ++ "' object has no attribute 'get'"))
  end.

(** [v[0]] *)
Definition first_item (v : json) : exn + json :=
  match v with
  | JList (x :: _) => inr x
  | JList [] => inl (PyException "list index out of range")
  | JStr (String c _) => inr (JStr (String c EmptyString))
  | JStr EmptyString => inl (PyException "string index out of range")
  | JDict _ => inl (PyException "0")                       (* KeyError(0) *)
  | _ => inl (PyException ("'" ++ type_name v ++ "' object is not subscriptable"))
  end.

(** What [get_cluster_status] makes of the response. *)
Definition cluster_status_of (response : json) : exn + ClusterStatus :=
  match py_get_default response "data" (JDict []) with
  | inl e => inl e
  | inr container =>
      match py_get_default container "affected_items" (JList [JDict []]) with
      | inl e => inl e
      | inr items =>
          match first_item items with
          | inl e => inl e
          | inr data =>
              match py_get_default data "enabled" (JStr "no") with
              | inl e => inl e
              | inr enabled =>
                  match py_get_default data "running" (JStr "no") with
                  | inl e => inl e
                  | inr running => inr {| enabled := enabled; running := running |}
                  end
              end
          end
      end
  end.

Section Client.

Variable remote : Type.
Variable post :
  remote -> string -> string -> string -> headers_t -> (exn + Response) * remote.
Variable request :
  remote -> string -> string -> headers_t -> json -> json -> (exn + Response) * remote.
Variable loads : string -> exn + json.
Variable py_repr : json -> string.
Variable urljoin : string -> string -> string.

(** [ClusterClient.get_cluster_status] *)
Definition get_cluster_status : M remote ClusterStatus :=
  bind (_make_request remote post request loads py_repr urljoin
                      "GET" "/cluster/status" JNull JNull)
       (fun response => lift (cluster_status_of response)).

End Client.

End WazuhMore.

(** ** [mcp_protocol.py]: [ServerCapabilities.builder] *)

Module Builders.
Import Json Mcp.

(** [ServerCapabilities._Builder] *)
Record CapabilitiesBuilder : Type := {
  _tools_flag : bool;
  _prompts_flag : bool;
  _resources_flag : bool
}.

(** [ServerCapabilities.builder()] *)
Definition builder : CapabilitiesBuilder :=
  {| _tools_flag := false; _prompts_flag := false; _resources_flag := false |}.

Definition enable_tools (b : CapabilitiesBuilder) : CapabilitiesBuilder :=
  {| _tools_flag := true; _prompts_flag := _prompts_flag b;
     _resources_flag := _resources_flag b |}.

Definition enable_prompts (b : CapabilitiesBuilder) : CapabilitiesBuilder :=
  {| _tools_flag := _tools_flag b; _prompts_flag := true;
     _resources_flag := _resources_flag b |}.

Definition enable_resources (b : CapabilitiesBuilder) : CapabilitiesBuilder :=
  {| _tools_flag := _tools_flag b; _prompts_flag := _prompts_flag b;
     _resources_flag := true |}.

Definition build (b : CapabilitiesBuilder) : ServerCapabilities :=
  {| cap_tools := _tools_flag b; cap_prompts := _prompts_flag b;
     cap_resources := _resources_flag b |}.

(** [ServerCapabilities()], with the defaults of the dataclass. *)
Definition default_capabilities : ServerCapabilities :=
  {| cap_tools := true; cap_prompts := false; cap_resources := false |}.

(** A chain of calls on a builder. *)
Inductive enable_call : Type := Tools | Prompts | Resources.

Definition apply_call (b : CapabilitiesBuilder) (c : enable_call)
  : CapabilitiesBuilder :=
  match c with
  | Tools => enable_tools b
  | Prompts => enable_prompts b
  | Resources => enable_resources b
  end.

Definition chain (calls : list enable_call) : CapabilitiesBuilder :=
  fold_left apply_call calls builder.

Definition is_call (c d : enable_call) : bool :=
  match c, d with
  | Tools, Tools | Prompts, Prompts | Resources, Resources => true
  | _, _ => false
  end.

End Builders.

(** ** More scripted remotes *)

Module SampleRemoteMore.
Import PyStr Json Wazuh SampleRemote.

(** A token is held and the request is answered 200. *)
Definition token_held : state remote :=
  initial (JStr "t0") [answers 200 "{}"].

(** The client outside [async with]: no session. *)
Definition outside_session : state remote :=
  {| self := {| base_url := "https://localhost:55000"; username := "wazuh";
                password := "wazuh"; token := JNull; _session := false |};
     net := [answers 200 "{}"];
     calls := [] |}.

(** No token at first, and the credentials are refused. *)
Definition login_refused : state remote :=
  initial JNull [answers 403 "Forbidden"; answers 200 "{}"].

(** A token is held; the answer is 200 with a body that is not JSON. *)
Definition not_json : state remote :=
  initial (JStr "t0") [answers 200 "oops"].

(** The same body, on the retry after a 401. *)
Definition not_json_on_retry : state remote :=
  initial (JStr "t0") [answers 401 "Unauthorized"; grants "t1"; answers 200 "oops"].

(** A token is held; the answer is 204. *)
Definition no_content : state remote :=
  initial (JStr "t0") [answers 204 ""].

Definition cluster_status_with (t : string) : remote_call :=
  ResourceCall "GET" "https://localhost:55000/cluster/status"
               [("Authorization", "Bearer " ++ t); ("Content-Type", "application/json")]
               JNull JNull.

End SampleRemoteMore.

(** ** [src/tools/__init__.py]: [ToolUtils.format_timestamp] *)

Module Timestamp.
Import PyStr.




End Timestamp.

(* ===================================================================== *)
(** * Part II: properties                                                 *)
(* ===================================================================== *)

(** ** Strings *)

Module PyStrFacts.
Import PyStr.

Lemma isdecimal_not_space (c : ascii) : isdecimal c = true -> isspace c = false.
Proof.
  unfold isdecimal, isspace. cbv zeta. generalize (code c). intros n H.
  apply andb_true_iff in H. destruct H as [H1 H2].
  apply Z.leb_le in H1. apply Z.leb_le in H2.
  repeat rewrite orb_false_iff. repeat split.
  - apply andb_false_iff. right. apply Z.leb_gt. lia.
  - apply andb_false_iff. right. apply Z.leb_gt. lia.
  - apply Z.eqb_neq. lia.
  - apply Z.eqb_neq. lia.
Qed.

Lemma rstrip_idempotent (s : string) : rstrip (rstrip s) = rstrip s.
Proof.
  induction s as [|c r IH]; simpl; [reflexivity|].
  destruct (rstrip r) as [|c' r'] eqn:E.
  - destruct (isspace c) eqn:Ec; simpl; [reflexivity|]. now rewrite Ec.
  - change (rstrip (String c (String c' r'))) with
      (match rstrip (String c' r') with
       | EmptyString => if isspace c then EmptyString else String c EmptyString
       | r0 => String c r0
       end).
    rewrite IH. reflexivity.
Qed.

Lemma strip_fixed (s : string) : rstrip (strip s) = strip s.
Proof. unfold strip. apply rstrip_idempotent. Qed.

Lemma rstrip_length (s : string) : (String.length (rstrip s) <= String.length s)%nat.
Proof.
  induction s as [|c r IH]; simpl; [lia|].
  destruct (rstrip r) as [|c' r'].
  - destruct (isspace c); simpl; lia.
  - simpl in *. lia.
Qed.

Lemma rstrip_trailing_space (x : string) (c : ascii) :
  isspace c = true -> rstrip (x ++ String c "") = rstrip x.
Proof.
  intros Hc. induction x as [|a r IH]; simpl.
  - now rewrite Hc.
  - rewrite IH. reflexivity.
Qed.

Lemma length_append (x y : string) :
  String.length (x ++ y) = (String.length x + String.length y)%nat.
Proof. induction x; simpl; congruence. Qed.

(** A string that [rstrip] leaves alone does not end in white space. *)
Lemma rstrip_fixed_no_trailing_space (x : string) (c : ascii) :
  isspace c = true -> rstrip (x ++ String c "") <> x ++ String c "".
Proof.
  intros Hc E. rewrite (rstrip_trailing_space x c Hc) in E.
  pose proof (rstrip_length x) as L. rewrite E in L.
  rewrite length_append in L. simpl in L. lia.
Qed.

End PyStrFacts.

(** ** [ToolUtils.format_agent_id] *)

Module ToolUtilsFacts.
Import PyStr PyStrFacts ToolUtils AgentIdSpec.

Lemma take_digits_all (n : nat) (s : string) :
  all_digits s = true -> (String.length s <= n)%nat -> take_digits n s = (s, "").
Proof.
  revert s. induction n as [|n IH]; intros [|c r] Hd Hl; simpl in *;
    try reflexivity; try lia.
  apply andb_true_iff in Hd. destruct Hd as [Hc Hr]. rewrite Hc.
  rewrite IH by (auto; lia). reflexivity.
Qed.

Lemma take_digits_split (n : nat) (s ds rest : string) :
  take_digits n s = (ds, rest) ->
  s = ds ++ rest /\ all_digits ds = true /\ (String.length ds <= n)%nat.
Proof.
  revert s ds rest. induction n as [|n IH]; intros s ds rest H.
  - destruct s; simpl in H; inversion H; subst; simpl; auto.
  - destruct s as [|c r]; simpl in H.
    + inversion H; subst; simpl; auto with arith.
    + destruct (isdecimal c) eqn:Ec.
      * destruct (take_digits n r) as [ds' rest'] eqn:E.
        inversion H; subst. destruct (IH _ _ _ E) as (E1 & E2 & E3).
        simpl. rewrite Ec, E2. repeat split; [congruence | lia].
      * inversion H; subst; simpl; auto with arith.
Qed.

Lemma append_empty_r (s : string) : s ++ "" = s.
Proof. induction s; simpl; congruence. Qed.

Lemma isspace_newline : isspace (chr 10) = true.
Proof. reflexivity. Qed.

(** On a numeric string the pattern matches. *)
Lemma numeric_matches (t : string) :
  is_numeric_1_3 t = true -> re_match_1_3_digits t = true.
Proof.
  unfold is_numeric_1_3, re_match_1_3_digits. intros H.
  apply andb_true_iff in H. destruct H as [H H3].
  apply andb_true_iff in H. destruct H as [Hd H1].
  apply Nat.leb_le in H1, H3.
  rewrite (take_digits_all 3 t Hd H3).
  destruct t; simpl in *; [lia | reflexivity].
Qed.

(** On a string without trailing white space the pattern matches numeric
    strings only: the final newline [$] tolerates cannot be there. *)
Lemma matches_numeric (t : string) :
  rstrip t = t -> re_match_1_3_digits t = true -> is_numeric_1_3 t = true.
Proof.
  unfold re_match_1_3_digits. intros Hfix H.
  destruct (take_digits 3 t) as [ds rest] eqn:E.
  destruct (take_digits_split _ _ _ _ E) as (E1 & E2 & E3).
  apply andb_true_iff in H. destruct H as [Hne Hrest].
  apply orb_true_iff in Hrest. destruct Hrest as [Hr | Hr]; apply String.eqb_eq in Hr.
  - subst rest. rewrite append_empty_r in E1. subst ds.
    unfold is_numeric_1_3. rewrite E2.
    apply andb_true_iff. split; [|apply Nat.leb_le; exact E3].
    destruct t; [discriminate | reflexivity].
  - subst rest t. exfalso.
    exact (rstrip_fixed_no_trailing_space ds (chr 10) isspace_newline Hfix).
Qed.

Lemma match_stripped (s : string) :
  re_match_1_3_digits (strip s) = is_numeric_1_3 (strip s).
Proof.
  destruct (is_numeric_1_3 (strip s)) eqn:E.
  - now apply numeric_matches.
  - destruct (re_match_1_3_digits (strip s)) eqn:M; [|reflexivity].
    rewrite (matches_numeric _ (strip_fixed s) M) in E. discriminate.
Qed.

Lemma rstrip_digits (t : string) : all_digits t = true -> rstrip t = t.
Proof.
  induction t as [|c r IH]; simpl; [reflexivity|]. intros H.
  apply andb_true_iff in H. destruct H as [Hc Hr].
  rewrite (IH Hr). destruct r; [|reflexivity].
  now rewrite (isdecimal_not_space c Hc).
Qed.

Lemma strip_digits (t : string) : all_digits t = true -> strip t = t.
Proof.
  intros H. unfold strip. destruct t as [|c r]; [reflexivity|].
  simpl in H. apply andb_true_iff in H. destruct H as [Hc Hr].
  simpl lstrip. rewrite (isdecimal_not_space c Hc).
  apply rstrip_digits. simpl. now rewrite Hc, Hr.
Qed.

Lemma int_digits_value (t : string) (acc : Z) (after_digit : bool) :
  all_digits t = true -> (after_digit = true \/ t <> "") ->
  int_digits acc after_digit t = Some (decimal_acc acc t).
Proof.
  revert acc after_digit. induction t as [|c r IH]; intros acc b Hd Hb; simpl.
  - destruct Hb as [-> | Hb]; [reflexivity | congruence].
  - simpl in Hd. apply andb_true_iff in Hd. destruct Hd as [Hc Hr].
    rewrite Hc. apply IH; auto.
Qed.

Lemma isdecimal_not_int_space (c : ascii) : isdecimal c = true -> int_isspace c = false.
Proof.
  unfold isdecimal, int_isspace. cbv zeta. generalize (code c). intros n H.
  apply andb_true_iff in H. destruct H as [H1 H2].
  apply Z.leb_le in H1, H2.
  repeat match goal with
         | |- context [(?a <=? ?b)] => destruct (Z.leb_spec a b)
         | |- context [(?a =? ?b)] => destruct (Z.eqb_spec a b)
         end; simpl; try reflexivity; lia.
Qed.

Lemma int_rstrip_digits (t : string) : all_digits t = true -> int_rstrip t = t.
Proof.
  induction t as [|c r IH]; simpl; [reflexivity|]. intros H.
  apply andb_true_iff in H. destruct H as [Hc Hr].
  rewrite (IH Hr). destruct r; [|reflexivity].
  now rewrite (isdecimal_not_int_space c Hc).
Qed.

Lemma int_strip_digits (t : string) :
  all_digits t = true -> int_rstrip (int_lstrip t) = t.
Proof.
  intros H. destruct t as [|c r]; [reflexivity|].
  simpl in H. apply andb_true_iff in H. destruct H as [Hc Hr].
  simpl int_lstrip. rewrite (isdecimal_not_int_space c Hc).
  apply int_rstrip_digits. simpl. now rewrite Hc, Hr.
Qed.

Lemma count_digits_le (t : string) : (count_digits t <= String.length t)%nat.
Proof.
  induction t as [|c r IH]; simpl; [lia|]. destruct (isdecimal c); lia.
Qed.

(** [int] on a non-empty string of digits, no more of them than it
    converts, gives the number it denotes. *)
Lemma py_int_digits (t : string) :
  all_digits t = true -> t <> "" -> (String.length t <= 4300)%nat ->
  py_int t = Some (decimal_value t).
Proof.
  intros Hd Hne Hlen. unfold py_int. rewrite (int_strip_digits t Hd). cbv zeta.
  pose proof (count_digits_le t) as Hcount.
  destruct (Nat.ltb_spec int_max_str_digits (count_digits t)) as [Hover | _];
    [unfold int_max_str_digits in Hover; lia|].
  destruct t as [|c r]; [congruence|].
  pose proof Hd as Hd'. simpl in Hd'. apply andb_true_iff in Hd'.
  destruct Hd' as [Hc _].
  transitivity (int_digits 0 false (String c r)).
  - destruct c as [[] [] [] [] [] [] [] []]; try reflexivity;
      vm_compute in Hc; discriminate.
  - apply int_digits_value; auto.
Qed.

Lemma decimal_acc_bounds (t : string) (acc : Z) :
  all_digits t = true -> 0 <= acc ->
  10 ^ Z.of_nat (String.length t) * acc <= decimal_acc acc t
  < 10 ^ Z.of_nat (String.length t) * (acc + 1).
Proof.
  revert acc. induction t as [|c r IH]; intros acc Hd Ha.
  - cbn [String.length decimal_acc]. change (Z.of_nat 0) with 0.
    rewrite Z.pow_0_r. lia.
  - simpl in Hd. apply andb_true_iff in Hd. destruct Hd as [Hc Hr].
    assert (Hv : 0 <= digit_value c <= 9).
    { unfold isdecimal, digit_value in *. cbv zeta in Hc.
      apply andb_true_iff in Hc. destruct Hc as [H1 H2].
      apply Z.leb_le in H1, H2. lia. }
    specialize (IH (10 * acc + digit_value c) Hr ltac:(lia)).
    cbn [String.length decimal_acc].
    rewrite Nat2Z.inj_succ, Z.pow_succ_r by lia.
    set (p := 10 ^ Z.of_nat (String.length r)) in *.
    assert (0 < p) by (apply Z.pow_pos_nonneg; lia).
    nia.
Qed.

Lemma numeric_value_range (t : string) :
  is_numeric_1_3 t = true -> 0 <= decimal_value t <= 999.
Proof.
  unfold is_numeric_1_3. intros H.
  apply andb_true_iff in H. destruct H as [H H3].
  apply andb_true_iff in H. destruct H as [Hd _].
  apply Nat.leb_le in H3.
  pose proof (decimal_acc_bounds t 0 Hd ltac:(lia)) as B.
  unfold decimal_value.
  assert (10 ^ Z.of_nat (String.length t) <= 10 ^ 3)
    by (apply Z.pow_le_mono_r; lia).
  change (10 ^ 3) with 1000 in *. lia.
Qed.

Lemma format_03d_table :
  forallb (fun k => String.eqb (format_03d (Z.of_nat k)) (three_digits (Z.of_nat k)))
          (seq 0 1000) = true.
Proof. vm_compute. reflexivity. Qed.

(** [f"{n:03d}"] writes a number from 0 to 999 with exactly three digits. *)
Lemma format_03d_three_digits (n : Z) :
  0 <= n <= 999 -> format_03d n = three_digits n.
Proof.
  intros H. pose proof format_03d_table as T.
  rewrite forallb_forall in T.
  specialize (T (Z.to_nat n)). rewrite Z2Nat.id in T by lia.
  apply String.eqb_eq, T, in_seq. lia.
Qed.

(** C10.  For every string, [format_agent_id] does one of two things.  When
    the input, stripped of surrounding white space, is a string of one to
    three decimal digits, the number it denotes lies between 0 and 999 and
    the result is that number written with exactly three digits (padded
    with zeros), with no error message.  In every other case the formatted
    id is the empty string and an error message is given. *)
Theorem format_agent_id_cases (agent_id : string) :
  let t := strip agent_id in
  if is_numeric_1_3 t
  then 0 <= decimal_value t <= 999
       /\ format_agent_id agent_id = (three_digits (decimal_value t), None)
       /\ String.length (fst (format_agent_id agent_id)) = 3%nat
  else fst (format_agent_id agent_id) = ""
       /\ snd (format_agent_id agent_id) <> None.
Proof.
  intros t. unfold format_agent_id. cbv zeta. fold t.
  pose proof (match_stripped agent_id) as M. fold t in M. rewrite M.
  destruct (is_numeric_1_3 t) eqn:E.
  - pose proof (numeric_value_range t E) as R.
    assert (Hd : all_digits t = true /\ t <> "" /\ (String.length t <= 4300)%nat).
    { unfold is_numeric_1_3 in E.
      apply andb_true_iff in E. destruct E as [E H3].
      apply andb_true_iff in E. destruct E as [Hd H1].
      apply Nat.leb_le in H3.
      split; [exact Hd|]. split; [intros ->; discriminate | lia]. }
    destruct Hd as (Hd & Hne & Hlen).
    rewrite (py_int_digits t Hd Hne Hlen).
    replace ((0 <=? decimal_value t) && (decimal_value t <=? 999)) with true
      by (symmetry; apply andb_true_iff; split; apply Z.leb_le; lia).
    rewrite (format_03d_three_digits _ R). repeat split; try lia; reflexivity.
  - split; [reflexivity | discriminate].
Qed.

(** The examples of the docstring; for an invalid id the code gives the
    empty string where the docstring shows [None]. *)
Example format_agent_id_examples :
  format_agent_id "0" = ("000", None)
  /\ format_agent_id "1" = ("001", None)
  /\ format_agent_id "12" = ("012", None)
  /\ format_agent_id "123" = ("123", None)
  /\ format_agent_id "invalid"
     = ("", Some "Invalid agent ID format: invalid. Expected numeric string.")
  /\ format_agent_id "1234"
     = ("", Some "Invalid agent ID format: 1234. Expected numeric string.").
Proof. repeat split. Qed.

End ToolUtilsFacts.

(** ** Schema derivation *)

Module SchemaFacts.
Import Json Schema.









(** The schema derived for [get_wazuh_vulnerability_summary]. *)
Example vulnerability_summary_schema :
  _tool_input_schema (tool None "" vulnerability_summary)
  = JDict [("$schema", JStr "http://json-schema.org/draft-07/schema#");
           ("type", JStr "object");
           ("properties",
            JDict [("agent_id", JDict [("type", JStr "string")]);
                   ("limit", JDict [("type", JStr "integer")]);
                   ("severity", JDict [("type", JStr "string")]);
                   ("cve", JDict [("type", JStr "string")])]);
           ("required", JList [JStr "agent_id"]);
           ("title", JStr "get_wazuh_vulnerability_summary_params")].
Proof. reflexivity. Qed.

End SchemaFacts.

(** ** The dispatcher *)

Module McpFacts.
Import PyStr Json Mcp Mcp.ErrorCodes.

Section Dispatch.

Variable world : Type.
Variable loads : string -> decoded.
Variable float_repr : float -> string.
Variable py_repr : json -> string.

Abbreviation McpServer := (McpServer world).
Abbreviation handle_message := (handle_message world loads float_repr py_repr).
Abbreviation _handle_tools_call := (_handle_tools_call world py_repr).
Abbreviation is_request := (is_request loads).
Abbreviation success := (_create_success_response float_repr).
Abbreviation failure := (_create_error_response float_repr).

Lemma truthy_nonempty (s : string) : s <> "" -> truthy (JStr s) = true.
Proof.
  intros H. simpl. destruct (String.eqb_spec s ""); [contradiction | reflexivity].
Qed.

(** What [_handle_tools_call] returns once the tool is resolved. *)
Lemma tools_call_resolved (self : McpServer) (w : world)
      (fields : list (string * json)) (m : tool_method world) (arguments : json) :
  resolves_tool self fields m arguments ->
  _handle_tools_call self w (get_default fields "params" (JDict []))
  = match invoke m w arguments with
    | (Returns result, w') =>
        (inr (JDict [("content", JList (map asdict (content result)));
                     ("isError", JBool (is_error result))]), w')
    | (ReturnsOther str_result, w') => (inr (text_result str_result false), w')
    | (Raises e, w') =>
        (inr (text_result ("Error calling tool: " ++ str_exn e) true), w')
    end.
Proof.
  intros (p & name & ts & info & Hp & Hn & Hne & Hts & Hl & Hm & Ha).
  rewrite Hp. unfold Mcp._handle_tools_call.
  rewrite Hn, (truthy_nonempty name Hne), Hts, Hl, Hm, <- Ha.
  reflexivity.
Qed.

(** [handle_message] on a [tools/call] request, in terms of
    [_handle_tools_call]. *)
Lemma handle_tools_call_request (self : McpServer) (w : world)
      (message : string) (fields : list (string * json)) :
  is_request message fields "tools/call" ->
  handle_message self w message
  = match _handle_tools_call self w (get_default fields "params" (JDict [])) with
    | (inl e, w') =>
        (inr (Some (failure (get fields "id") INTERNAL_ERROR (str_exn e) JNull)),
         self, w')
    | (inr response, w') =>
        (inr (Some (success (get fields "id") response)), self, w')
    end.
Proof.
  intros (Hl & Ht & Hm). unfold Mcp.handle_message. rewrite Hl, Ht, Hm.
  cbn [eq_str String.eqb Ascii.eqb Bool.eqb negb truthy].
  destruct (_handle_tools_call self w (get_default fields "params" (JDict [])))
    as [[e | response] w']; reflexivity.
Qed.

(** C1.  A [tools/call] request that resolves to a tool whose invocation
    raises is answered with a success envelope: the line written is the
    serialization of an object with the keys [jsonrpc], [id] and [result]
    and no [error], the id is the request's, and the result has
    [isError = true] and, as its content, one text item that describes the
    failure. *)
Theorem tool_failure_is_contained (self : McpServer) (w w' : world)
        (message : string) (fields : list (string * json))
        (m : tool_method world) (arguments : json) (e : exn)
        (Hreq : is_request message fields "tools/call")
        (Hres : resolves_tool self fields m arguments)
        (Hraise : invoke m w arguments = (Raises e, w')) :
  handle_message self w message
  = (inr (Some (dumps float_repr
                  (JDict [("jsonrpc", JStr "2.0");
                          ("id", get fields "id");
                          ("result",
                           JDict [("content",
                                   JList [JDict [("type", JStr "text");
                                                 ("text", JStr ("Error calling tool: "
                                                                ++ str_exn e))]]);
                                  ("isError", JBool true)])]))),
     self, w').
Proof.
  rewrite (handle_tools_call_request self w message fields Hreq).
  rewrite (tools_call_resolved self w fields m arguments Hres), Hraise.
  reflexivity.
Qed.

(** C9.  A [tools/call] request that resolves to a tool whose method
    returns a value that is not a [CallToolResult] is answered with a
    success envelope whose result holds the string form of that value as
    its single text item, with [isError = false]. *)
Theorem other_result_is_wrapped (self : McpServer) (w w' : world)
        (message : string) (fields : list (string * json))
        (m : tool_method world) (arguments : json) (str_result : string)
        (Hreq : is_request message fields "tools/call")
        (Hres : resolves_tool self fields m arguments)
        (Hret : invoke m w arguments = (ReturnsOther str_result, w')) :
  handle_message self w message
  = (inr (Some (dumps float_repr
                  (JDict [("jsonrpc", JStr "2.0");
                          ("id", get fields "id");
                          ("result",
                           JDict [("content",
                                   JList [JDict [("type", JStr "text");
                                                 ("text", JStr str_result)]]);
                                  ("isError", JBool false)])]))),
     self, w').
Proof.
  rewrite (handle_tools_call_request self w message fields Hreq).
  rewrite (tools_call_resolved self w fields m arguments Hres), Hret.
  reflexivity.
Qed.

(** Every response line is the serialization of a success or of an error
    envelope. *)
Lemma handle_message_envelope (self : McpServer) (w : world) (message : string) :
  match fst (fst (handle_message self w message)) with
  | inr (Some text) =>
      (exists id result, text = success id result)
      \/ (exists id code msg, text = failure id code msg JNull)
  | _ => True
  end.
Proof.
  unfold Mcp.handle_message.
  destruct (loads message) as [request| |]; [|right; eauto|exact I].
  destruct request as [| | | | | |fields]; try (right; eauto).
  destruct (dict_get fields "jsonrpc") as [tag|]; [|right; eauto].
  destruct (negb (eq_str tag "2.0")); [right; eauto|].
  destruct (negb (truthy (get fields "method"))); [right; eauto|].
  destruct (eq_str (get fields "method") "initialize").
  { destruct (_handle_initialize world self w _); [right | left]; eauto. }
  destruct (eq_str (get fields "method") "notifications/initialized"); [exact I|].
  destruct (eq_str (get fields "method") "tools/list"); [left; eauto|].
  destruct (eq_str (get fields "method") "tools/call"); [|right; eauto].
  destruct (_handle_tools_call self w _) as [[e | response] w']; [right | left]; eauto.
Qed.

Lemma success_nonempty (id result : json) : success id result <> "".
Proof. unfold _create_success_response. simpl. discriminate. Qed.

Lemma failure_nonempty (id : json) (code : Z) (msg : string) (data : json) :
  failure id code msg data <> "".
Proof. unfold _create_error_response. simpl. discriminate. Qed.

(** A response line is never the empty string, so the transport's test
    [if response:] only tells [None] from a line. *)
Lemma response_nonempty (self self' : McpServer) (w w' : world) (message text : string) :
  handle_message self w message = (inr (Some text), self', w') -> text <> "".
Proof.
  intros H. pose proof (handle_message_envelope self w message) as E.
  rewrite H in E. simpl in E.
  destruct E as [(id & result & ->) | (id & code & msg & ->)].
  - apply success_nonempty.
  - apply failure_nonempty.
Qed.

(** [tools/call] without a usable name: the [JsonRpcError] raised with
    [INVALID_PARAMS] reaches [except Exception] and is reported as
    [INTERNAL_ERROR]. *)
Lemma tools_call_missing_name (self : McpServer) (w : world) (message : string)
      (fields p : list (string * json)) :
  is_request message fields "tools/call" ->
  get_default fields "params" (JDict []) = JDict p ->
  truthy (get p "name") = false ->
  handle_message self w message
  = (inr (Some (failure (get fields "id") INTERNAL_ERROR
                        "JSON-RPC Error -32602: Missing tool name" JNull)), self, w).
Proof.
  intros Hreq Hp Hn. rewrite (handle_tools_call_request self w message fields Hreq).
  rewrite Hp. unfold Mcp._handle_tools_call. rewrite Hn. reflexivity.
Qed.

(** [tools/call] naming a tool that is not registered: the [JsonRpcError]
    raised with [METHOD_NOT_FOUND] is reported as [INTERNAL_ERROR] too. *)
Lemma tools_call_unknown_name (self : McpServer) (w : world) (message : string)
      (fields p : list (string * json)) (name : string) (ts : list (string * tool_info world)) :
  is_request message fields "tools/call" ->
  get_default fields "params" (JDict []) = JDict p ->
  get p "name" = JStr name -> name <> "" ->
  _tools (handler self) = Some ts -> lookup_tool ts name = None ->
  handle_message self w message
  = (inr (Some (failure (get fields "id") INTERNAL_ERROR
                        ("JSON-RPC Error -32601: Tool not found: " ++ name) JNull)),
     self, w).
Proof.
  intros Hreq Hp Hn Hne Hts Hl.
  rewrite (handle_tools_call_request self w message fields Hreq).
  rewrite Hp. unfold Mcp._handle_tools_call.
  rewrite Hn, (truthy_nonempty name Hne), Hts, Hl. reflexivity.
Qed.



(** Close a goal that asks for the response line of a branch that
    answers with a success, or with an error envelope. *)
Ltac answered_with_result :=
  cbv beta iota; eexists;
  split; [reflexivity|];
  split; [apply success_nonempty|];
  left; eexists; reflexivity.

Ltac answered_with_error :=
  cbv beta iota; eexists;
  split; [reflexivity|];
  split; [apply failure_nonempty|];
  right; do 2 eexists; reflexivity.

(** C4 (amended).  Silence goes by the method, not by the id.  A
    well-formed request whose method is [notifications/initialized] gets no
    response, with or without an id: [handle_message] returns [None] and
    marks the server initialized, and the transport writes nothing for that
    line.  Every other well-formed request is answered with a line, the
    serialization of an envelope that carries the request's id, which is
    null when the request has none. *)
Theorem silence_is_by_method (self : McpServer) (w : world) (message : string)
        (fields : list (string * json)) (method_name : string)
        (Hreq : is_request message fields method_name) :
  (method_name = "notifications/initialized" ->
   handle_message self w message = (inr None, mark_initialized self, w)
   /\ forall line rest,
        line <> "" -> strip line = message -> message <> "" ->
        start world loads float_repr py_repr self w (line :: rest)
        = start world loads float_repr py_repr (mark_initialized self) w rest)
  /\ (method_name <> "notifications/initialized" ->
      exists text,
        fst (fst (handle_message self w message)) = inr (Some text)
        /\ text <> ""
        /\ ((exists result, text = success (get fields "id") result)
            \/ (exists code msg, text = failure (get fields "id") code msg JNull))).
Proof.
  destruct Hreq as (Hl & Ht & Hm). split.
  - intros ->.
    assert (H : handle_message self w message = (inr None, mark_initialized self, w)).
    { unfold Mcp.handle_message. rewrite Hl, Ht, Hm. reflexivity. }
    split; [exact H|]. intros line rest Hline Hstrip Hmsg.
    cbn [start].
    destruct (String.eqb_spec line ""); [contradiction|].
    rewrite Hstrip. destruct (String.eqb_spec message ""); [contradiction|].
    rewrite H. destruct (start world loads float_repr py_repr (mark_initialized self) w rest)
      as [[out s] w'']. reflexivity.
  - intros Hother. unfold Mcp.handle_message. rewrite Hl, Ht, Hm.
    cbn [eq_str String.eqb Ascii.eqb Bool.eqb negb].
    destruct (truthy (JStr method_name)); cbn [negb]; [|answered_with_error].
    destruct (method_name =? "initialize")%string.
    { destruct (_handle_initialize world self w _);
        [answered_with_error | answered_with_result]. }
    destruct (String.eqb_spec method_name "notifications/initialized");
      [contradiction|].
    destruct (method_name =? "tools/list")%string; [answered_with_result|].
    destruct (method_name =? "tools/call")%string; [|answered_with_error].
    destruct (_handle_tools_call self w _) as [[e | r] w''];
      [answered_with_error | answered_with_result].
Qed.

(** C7.  The read loop.  On an empty input, and at end of input in
    general, it returns, having written nothing more.  A line that is
    empty once stripped is skipped: the dispatcher does not see it and
    the server and the world are untouched.  For any other line the
    stripped text goes to the dispatcher; a response line is written,
    newline-terminated, and followed by a flush before the next line is
    read, and when the dispatcher returns [None] nothing is written. *)
Theorem transport_loop (server : McpServer) (w : world) :
  start world loads float_repr py_repr server w [] = ([], server, w)
  /\ (forall rest,
        start world loads float_repr py_repr server w ("" :: rest) = ([], server, w))
  /\ (forall line rest,
        line <> "" -> strip line = "" ->
        start world loads float_repr py_repr server w (line :: rest)
        = start world loads float_repr py_repr server w rest)
  /\ (forall line rest text server' w',
        line <> "" -> strip line <> "" ->
        handle_message server w (strip line) = (inr (Some text), server', w') ->
        let run := start world loads float_repr py_repr server w (line :: rest) in
        let after := start world loads float_repr py_repr server' w' rest in
        output world run = (Write (text ++ newline) :: Flush :: output world after)%list
        /\ snd (fst run) = snd (fst after) /\ snd run = snd after)
  /\ (forall line rest server' w',
        line <> "" -> strip line <> "" ->
        handle_message server w (strip line) = (inr None, server', w') ->
        start world loads float_repr py_repr server w (line :: rest)
        = start world loads float_repr py_repr server' w' rest).
Proof.
  assert (Hstep : forall line rest response server' w',
             line <> "" -> strip line <> "" ->
             handle_message server w (strip line) = (inr response, server', w') ->
             start world loads float_repr py_repr server w (line :: rest)
             = (let '(out, s, w'') :=
                  start world loads float_repr py_repr server' w' rest in
                ((match response with
                  | Some text => print_flush text
                  | None => []
                  end ++ out)%list, s, w''))).
  { intros line rest response server' w' Hline Hstrip Hresp. cbn [start].
    destruct (String.eqb_spec line ""); [contradiction|].
    destruct (String.eqb_spec (strip line) ""); [contradiction|].
    rewrite Hresp. destruct response as [text|]; [|reflexivity].
    pose proof (response_nonempty _ _ _ _ _ _ Hresp) as Hne.
    destruct (String.eqb_spec text ""); [contradiction | reflexivity]. }
  split; [reflexivity|]. split; [reflexivity|]. split; [|split].
  - intros line rest Hline Hblank. cbn [start].
    destruct (String.eqb_spec line ""); [contradiction|].
    rewrite Hblank. reflexivity.
  - intros line rest text server' w' Hline Hstrip Hresp run after. subst run.
    rewrite (Hstep line rest _ _ _ Hline Hstrip Hresp). fold after.
    destruct after as [[out s] w'']. unfold output. auto.
  - intros line rest server' w' Hline Hstrip Hresp.
    rewrite (Hstep line rest _ _ _ Hline Hstrip Hresp).
    destruct (start world loads float_repr py_repr server' w' rest) as [[out s] w''].
    reflexivity.
Qed.

End Dispatch.

(** *** The sample server at work *)

Import Sample.

Lemma boom_is_a_request :
  Mcp.is_request sample_loads line_call_boom (call_request 1 "boom") "tools/call".
Proof. repeat split. Qed.

Lemma boom_resolves :
  resolves_tool sample_server (call_request 1 "boom") boom_method (JDict []).
Proof.
  exists [("name", JStr "boom"); ("arguments", JDict [])], "boom".
  eexists. eexists. repeat split. discriminate.
Qed.

Lemma tool_failure_is_contained_witness :
  Mcp.is_request sample_loads line_call_boom (call_request 1 "boom") "tools/call"
  /\ resolves_tool sample_server (call_request 1 "boom") boom_method (JDict [])
  /\ invoke boom_method 0%nat (JDict []) = (Raises (PyException "boom"), 1%nat)
  /\ sample_handle sample_server 0%nat line_call_boom
     = (inr (Some (dq "{'jsonrpc': '2.0', 'id': 1, 'result': {'content': [{'type': 'text', 'text': 'Error calling tool: boom'}], 'isError': true}}")),
        sample_server, 1%nat).
Proof.
  split; [exact boom_is_a_request|].
  split; [exact boom_resolves|].
  split; [reflexivity|].
  unfold sample_handle.
  rewrite (tool_failure_is_contained world sample_loads no_float no_repr
             sample_server 0%nat 1%nat line_call_boom (call_request 1 "boom")
             boom_method (JDict []) (PyException "boom")
             boom_is_a_request boom_resolves eq_refl).
  vm_compute. reflexivity.
Defined.

Lemma count_is_a_request :
  Mcp.is_request sample_loads line_call_count (call_request 2 "count") "tools/call".
Proof. repeat split. Qed.

Lemma count_resolves :
  resolves_tool sample_server (call_request 2 "count") count_method (JDict []).
Proof.
  exists [("name", JStr "count"); ("arguments", JDict [])], "count".
  eexists. eexists. repeat split. discriminate.
Qed.

Lemma other_result_is_wrapped_witness :
  Mcp.is_request sample_loads line_call_count (call_request 2 "count") "tools/call"
  /\ resolves_tool sample_server (call_request 2 "count") count_method (JDict [])
  /\ invoke count_method 0%nat (JDict []) = (ReturnsOther "42", 1%nat)
  /\ sample_handle sample_server 0%nat line_call_count
     = (inr (Some (dq "{'jsonrpc': '2.0', 'id': 2, 'result': {'content': [{'type': 'text', 'text': '42'}], 'isError': false}}")),
        sample_server, 1%nat).
Proof.
  split; [exact count_is_a_request|].
  split; [exact count_resolves|].
  split; [reflexivity|].
  unfold sample_handle.
  rewrite (other_result_is_wrapped world sample_loads no_float no_repr
             sample_server 0%nat 1%nat line_call_count (call_request 2 "count")
             count_method (JDict []) "42"
             count_is_a_request count_resolves eq_refl).
  vm_compute. reflexivity.
Defined.

(** C3, at the failing inputs.  A [tools/call] request without a name and
    one that names an unregistered tool are both answered with an error
    envelope whose code is [INTERNAL_ERROR] (-32603); the codes raised for
    them, -32602 and -32601, only show inside the message text. *)
Example lookup_failures_answered_with_internal_error :
  fst (fst (sample_handle sample_server 0%nat line_call_no_name))
  = inr (Some (dq "{'jsonrpc': '2.0', 'id': 3, 'error': {'code': -32603, 'message': 'JSON-RPC Error -32602: Missing tool name'}}"))
  /\ fst (fst (sample_handle sample_server 0%nat line_call_unknown))
     = inr (Some (dq "{'jsonrpc': '2.0', 'id': 4, 'error': {'code': -32603, 'message': 'JSON-RPC Error -32601: Tool not found: nope'}}")).
Proof. split; vm_compute; reflexivity. Qed.

(** A request without an id whose method is [tools/list]: the dispatcher
    answers it, with id null, and the transport writes the answer. *)
Lemma request_without_id_is_answered :
  Mcp.is_request sample_loads line_list_no_id fields_list_no_id "tools/list"
  /\ dict_get fields_list_no_id "id" = None
  /\ fst (fst (sample_handle sample_server 0%nat line_list_no_id))
     = inr (Some (_create_success_response no_float JNull
                    (_handle_tools_list world sample_server (JDict []))))
  /\ List.length (output world (sample_start sample_server 0%nat
                                  [line_list_no_id ++ newline])) = 2%nat.
Proof.
  split; [repeat split|]. split; [reflexivity|]. split.
  - reflexivity.
  - vm_compute. reflexivity.
Qed.

Lemma initialized_is_a_request :
  Mcp.is_request sample_loads line_initialized fields_initialized
                 "notifications/initialized".
Proof. repeat split. Qed.

Lemma silence_is_by_method_witness :
  Mcp.is_request sample_loads line_initialized fields_initialized
                 "notifications/initialized"
  /\ sample_handle sample_server 0%nat line_initialized
     = (inr None, mark_initialized sample_server, 0%nat)
  /\ output world (sample_start sample_server 0%nat [line_initialized ++ newline]) = [].
Proof.
  split; [exact initialized_is_a_request|].
  destruct (silence_is_by_method world sample_loads no_float no_repr
              sample_server 0%nat line_initialized fields_initialized
              "notifications/initialized" initialized_is_a_request)
    as [Hquiet _].
  destruct (Hquiet eq_refl) as [Hnone Hline].
  split; [exact Hnone|].
  unfold sample_start.
  rewrite (Hline (line_initialized ++ newline) []); try reflexivity; discriminate.
Defined.



Lemma transport_loop_witness :
  sample_start sample_server 0%nat [] = ([], sample_server, 0%nat)
  /\ sample_start sample_server 0%nat
       ["  " ++ newline; line_initialized ++ newline; line_frobnicate ++ newline]
     = ([Write (dq "{'jsonrpc': '2.0', 'id': 10, 'error': {'code': -32601, 'message': 'Method not found: frobnicate'}}" ++ newline);
         Flush],
        mark_initialized sample_server, 0%nat).
Proof.
  unfold sample_start.
  destruct (transport_loop world sample_loads no_float no_repr sample_server 0%nat)
    as (Hempty & _ & Hblank & _ & Hnone).
  split; [exact Hempty|].
  rewrite (Hblank ("  " ++ newline)) by (try discriminate; reflexivity).
  rewrite (Hnone (line_initialized ++ newline) _ (mark_initialized sample_server) 0%nat)
    by (try discriminate; reflexivity).
  destruct (transport_loop world sample_loads no_float no_repr
              (mark_initialized sample_server) 0%nat)
    as (_ & _ & _ & Hsome & _).
  assert (Hline : line_frobnicate ++ newline <> "") by discriminate.
  assert (Hstrip : strip (line_frobnicate ++ newline) <> "") by discriminate.
  assert (Hresp : handle_message world sample_loads no_float no_repr
                    (mark_initialized sample_server) 0%nat
                    (strip (line_frobnicate ++ newline))
                  = (inr (Some (dq "{'jsonrpc': '2.0', 'id': 10, 'error': {'code': -32601, 'message': 'Method not found: frobnicate'}}")),
                     mark_initialized sample_server, 0%nat))
    by (vm_compute; reflexivity).
  destruct (Hsome (line_frobnicate ++ newline) [] _ _ _ Hline Hstrip Hresp)
    as (Hout & Hsrv & Hw).
  destruct (start world sample_loads no_float no_repr (mark_initialized sample_server)
              0%nat [line_frobnicate ++ newline]) as [[out s] w].
  unfold output in Hout. simpl in Hout, Hsrv, Hw. subst. reflexivity.
Defined.

End McpFacts.

(** ** The authenticated client *)

Module WazuhFacts.
Import PyStr Json Wazuh.

Section ClientFacts.

Variable remote : Type.
Variable post :
  remote -> string -> string -> string -> headers_t -> (exn + Response) * remote.
Variable request :
  remote -> string -> string -> headers_t -> json -> json -> (exn + Response) * remote.
Variable loads : string -> exn + json.
Variable py_repr : json -> string.
Variable urljoin : string -> string -> string.

Abbreviation state := (Wazuh.state remote).
Abbreviation authenticate := (Wazuh.authenticate remote post urljoin).
Abbreviation ensure_token := (Wazuh.ensure_token remote post urljoin).
Abbreviation attempt := (Wazuh.attempt remote post request loads py_repr urljoin).
Abbreviation _make_request :=
  (Wazuh._make_request remote post request loads py_repr urljoin).
Abbreviation auth_call := (Wazuh.auth_call urljoin).
Abbreviation bearer := (Wazuh.bearer py_repr).
Abbreviation request_headers := (Wazuh.request_headers py_repr).

(** How [authenticate] ends when a session is held: one call to the
    remote, after which either an exception that is not a [ClientError]
    is raised, or the token is stored and returned. *)
Lemma authenticate_outcome (st : state) :
  _session (self st) = true ->
  exists net1,
    (exists e, authenticate st = (inl e, record_call st net1 (auth_call (self st)))
               /\ forall text, e <> ClientError text)
    \/ (exists tok, authenticate st
                    = (inr tok, store_token (record_call st net1 (auth_call (self st))) tok)).
Proof.
  intros Hs. unfold Wazuh.authenticate, bind, get_self. rewrite Hs. cbn [negb].
  unfold except_client_error, bind, do_post.
  destruct (post (net st) (urljoin (base_url (self st)) "/security/user/authenticate")
                 (username (self st)) (password (self st))
                 [("Content-Type", "application/json")]) as [[e | response] net1].
  { exists net1. left. destruct e; eexists; (split; [reflexivity | discriminate]). }
  exists net1. destruct (status response =? 200).
  - unfold lift. destruct (json_body response) as [e | data].
    { left. unfold raise. destruct e; eexists; (split; [reflexivity | discriminate]). }
    unfold ret.
    destruct data as [| | | | | |d];
      try (left; eexists; split; [reflexivity | discriminate]).
    destruct (get_default d "data" (JDict [])) as [| | | | | |inner];
      try (left; eexists; split; [reflexivity | discriminate]).
    right. exists (get inner "token"). reflexivity.
  - left. unfold lift. destruct (text response) as [e | error_text].
    + unfold raise. destruct e; eexists; (split; [reflexivity | discriminate]).
    + eexists. split; [reflexivity | discriminate].
Qed.

Lemma authenticate_calls (st st' : state) (r : exn + json) :
  _session (self st) = true ->
  authenticate st = (r, st') ->
  calls st' = (calls st ++ [auth_call (self st)])%list
  /\ _session (self st') = true
  /\ (forall tok, r = inr tok -> token (self st') = tok)
  /\ (forall text, r <> inl (ClientError text))
  /\ (forall e, r = inl e -> token (self st') = token (self st)).
Proof.
  intros Hs H. destruct (authenticate_outcome st Hs) as [net1 [(e & He & Hne) | (tok & Htok)]].
  - rewrite He in H. inversion H; subst. repeat split; try assumption.
    + discriminate.
    + intros text E. inversion E. now apply (Hne text).
  - rewrite Htok in H. inversion H; subst. repeat split; try assumption.
    + intros tok' E. now inversion E.
    + discriminate.
    + discriminate.
Qed.

(** The first two statements of [_make_request] succeed only with a
    session, and make one call to the remote exactly when no token is
    held. *)
Lemma ensure_token_calls (st st' : state) (r : exn + unit) :
  ensure_token st = (r, st') ->
  calls st'
  = (calls st ++ if _session (self st) && negb (truthy (token (self st)))
                 then [auth_call (self st)] else [])%list
  /\ (r = inr tt -> _session (self st') = true).
Proof.
  unfold Wazuh.ensure_token, bind, get_self.
  destruct (_session (self st)) eqn:Hs; cbn [negb andb].
  - destruct (truthy (token (self st))); cbn [negb].
    + unfold ret. intros H. inversion H; subst. rewrite app_nil_r. auto.
    + destruct (authenticate st) as [[e | tok] st1] eqn:Ha;
        destruct (authenticate_calls st st1 _ Hs Ha) as (Hc & Hs1 & _);
        unfold ret; intros H; inversion H; subst; split; auto; discriminate.
  - unfold raise. intros H. inversion H; subst. rewrite app_nil_r.
    split; [reflexivity | discriminate].
Qed.

Lemma make_request_after_prologue (st st1 : state)
      (method endpoint : string) (params json_data : json) :
  ensure_token st = (inr tt, st1) ->
  _make_request method endpoint params json_data st
  = attempt method (urljoin (base_url (self st1)) endpoint)
            (request_headers (self st1)) params json_data st1.
Proof.
  intros H. unfold Wazuh._make_request. unfold bind at 1. rewrite H. reflexivity.
Qed.

Lemma make_request_prologue_fails (st st1 : state) (e : exn)
      (method endpoint : string) (params json_data : json) :
  ensure_token st = (inl e, st1) ->
  _make_request method endpoint params json_data st = (inl e, st1).
Proof.
  intros H. unfold Wazuh._make_request. unfold bind at 1. rewrite H. reflexivity.
Qed.

Section Attempt.

Variables (method url : string) (headers : headers_t) (params json_data : json).
Variable st1 : state.

Abbreviation first_call := (ResourceCall method url headers params json_data).

(** A connection failure on the first request. *)
Lemma attempt_client_error (msg : string) (net1 : remote) :
  request (net st1) method url headers params json_data = (inl (ClientError msg), net1) ->
  attempt method url headers params json_data st1
  = (inl (WazuhApiError ("Connection error: " ++ msg) (Some 503)),
     record_call st1 net1 first_call).
Proof.
  intros H. unfold Wazuh.attempt, except_client_error, bind at 1, do_request.
  rewrite H. reflexivity.
Qed.

(** A connection failure while the body of the first response is read. *)
Lemma attempt_body_client_error (resp : Response) (msg : string) (net1 : remote) :
  request (net st1) method url headers params json_data = (inr resp, net1) ->
  text resp = inl (ClientError msg) ->
  attempt method url headers params json_data st1
  = (inl (WazuhApiError ("Connection error: " ++ msg) (Some 503)),
     record_call st1 net1 first_call).
Proof.
  intros H Ht. unfold Wazuh.attempt, except_client_error, bind, do_request, lift.
  rewrite H, Ht. reflexivity.
Qed.

(** A first response that is neither 200 nor 401. *)
Lemma attempt_status_error (resp : Response) (body : string) (net1 : remote) :
  request (net st1) method url headers params json_data = (inr resp, net1) ->
  text resp = inr body ->
  status resp <> 200 -> status resp <> 401 ->
  attempt method url headers params json_data st1
  = (inl (WazuhApiError ("API request failed: " ++ str_of_int (status resp)
                         ++ " - " ++ body) (Some (status resp))),
     record_call st1 net1 first_call).
Proof.
  intros H Ht H200 H401.
  unfold Wazuh.attempt, except_client_error, bind, do_request, lift.
  rewrite H, Ht. unfold ret.
  destruct (Z.eqb_spec (status resp) 200); [contradiction|].
  destruct (Z.eqb_spec (status resp) 401); [contradiction|].
  reflexivity.
Qed.

Section Unauthorized.

Variables (resp : Response) (body : string) (net1 : remote).
Hypothesis Hfirst :
  request (net st1) method url headers params json_data = (inr resp, net1).
Hypothesis Hbody : text resp = inr body.
Hypothesis H401 : status resp = 401.

(** The state in which re-authentication starts: the first call is on
    record and the token is gone. *)
Abbreviation st2 := (store_token (record_call st1 net1 first_call) JNull).

(** Re-authentication fails: its exception is what [attempt] raises. *)
Lemma attempt_reauth_fails (e : exn) (st3 : state) :
  _session (self st1) = true ->
  authenticate st2 = (inl e, st3) ->
  attempt method url headers params json_data st1 = (inl e, st3).
Proof.
  intros Hs Ha.
  destruct (authenticate_calls st2 st3 _ Hs Ha) as (_ & _ & _ & Hne & _).
  unfold Wazuh.attempt, except_client_error, bind, do_request, lift.
  rewrite Hfirst, Hbody, H401. unfold ret, set_token. cbn [Z.eqb Pos.eqb].
  rewrite Ha.
  destruct e; try reflexivity. exfalso. exact (Hne _ eq_refl).
Qed.

Section Retry.

Variables (tok : json) (st3 : state).
Hypothesis Hs : _session (self st1) = true.
Hypothesis Hauth : authenticate st2 = (inr tok, st3).

Abbreviation retry_headers := (set_header headers "Authorization" (bearer tok)).
Abbreviation retry_call := (ResourceCall method url retry_headers params json_data).

Lemma token_after_reauth : token (self st3) = tok.
Proof.
  destruct (authenticate_calls st2 st3 _ Hs Hauth) as (_ & _ & Htok & _).
  now apply Htok.
Qed.

(** What [attempt] comes down to once re-authentication has succeeded:
    the retry and the reading of its response. *)
Lemma attempt_retry :
  attempt method url headers params json_data st1
  = match request (net st3) method url retry_headers params json_data with
    | (inl (ClientError msg), net4) =>
        (inl (WazuhApiError ("Connection error: " ++ msg) (Some 503)),
         record_call st3 net4 retry_call)
    | (inl e, net4) => (inl e, record_call st3 net4 retry_call)
    | (inr r, net4) =>
        match text r with
        | inl (ClientError msg) =>
            (inl (WazuhApiError ("Connection error: " ++ msg) (Some 503)),
             record_call st3 net4 retry_call)
        | inl e => (inl e, record_call st3 net4 retry_call)
        | inr retry_text =>
            if status r =? 200 then
              match loads retry_text with
              | inr v => (inr v, record_call st3 net4 retry_call)
              | inl (ClientError msg) =>
                  (inl (WazuhApiError ("Connection error: " ++ msg) (Some 503)),
                   record_call st3 net4 retry_call)
              | inl e => (inl e, record_call st3 net4 retry_call)
              end
            else
              (inl (WazuhApiError
                      ("API request failed after re-auth: "
                       ++ str_of_int (status r) ++ " - " ++ retry_text)
                      (Some (status r))),
               record_call st3 net4 retry_call)
        end
    end.
Proof.
  unfold Wazuh.attempt, except_client_error, bind, do_request, lift.
  rewrite Hfirst, Hbody, H401. unfold ret, set_token, get_self. cbn [Z.eqb Pos.eqb].
  rewrite Hauth. rewrite token_after_reauth.
  destruct (request (net st3) method url retry_headers params json_data)
    as [[e | r] net4].
  { destruct e; reflexivity. }
  destruct (text r) as [e | retry_text].
  { unfold raise. destruct e; reflexivity. }
  destruct (status r =? 200).
  - destruct (loads retry_text) as [e | v]; [destruct e|]; reflexivity.
  - reflexivity.
Qed.

End Retry.

End Unauthorized.

End Attempt.

(** The calls [attempt] makes: the request; on 401 one authentication;
    and, when that succeeds, the request once more. *)
Lemma attempt_calls (method url : string) (headers : headers_t)
      (params json_data : json) (st1 : state) :
  _session (self st1) = true ->
  let first := ResourceCall method url headers params json_data in
  let cs_of st' cs := calls st' = (calls st1 ++ cs)%list in
  let st' := snd (attempt method url headers params json_data st1) in
  cs_of st' [first]
  \/ cs_of st' [first; auth_call (self st1)]
  \/ exists headers',
       cs_of st' [first; auth_call (self st1);
                  ResourceCall method url headers' params json_data].
Proof.
  intros Hs first cs_of st'. subst st' cs_of. cbv beta.
  destruct (request (net st1) method url headers params json_data)
    as [[e | resp] net1] eqn:Hreq.
  { left. unfold Wazuh.attempt, except_client_error, bind at 1, do_request.
    rewrite Hreq. destruct e; reflexivity. }
  destruct (text resp) as [e | body] eqn:Hbody.
  { left. unfold Wazuh.attempt, except_client_error, bind, do_request, lift.
    rewrite Hreq, Hbody. unfold raise. destruct e; reflexivity. }
  destruct (Z.eq_dec (status resp) 200) as [H200 | H200].
  { left. unfold Wazuh.attempt, except_client_error, bind, do_request, lift.
    rewrite Hreq, Hbody, H200. unfold ret. cbn [Z.eqb Pos.eqb].
    destruct (loads body) as [e | v]; [destruct e|]; reflexivity. }
  destruct (Z.eq_dec (status resp) 401) as [H401 | H401].
  - destruct (authenticate (store_token (record_call st1 net1 first) JNull))
      as [[e | tok] st3] eqn:Ha.
    + right. left.
      rewrite (attempt_reauth_fails method url headers params json_data st1
                 resp body net1 Hreq Hbody H401 e st3 Hs Ha).
      destruct (authenticate_calls (store_token (record_call st1 net1 first) JNull) _ _ Hs Ha) as (Hc & _). cbn [snd].
      rewrite Hc. cbn [calls store_token record_call]. now rewrite <- app_assoc.
    + right. right. exists (set_header headers "Authorization" (bearer tok)).
      rewrite (attempt_retry method url headers params json_data st1
                 resp body net1 Hreq Hbody H401 tok st3 Hs Ha).
      destruct (authenticate_calls (store_token (record_call st1 net1 first) JNull) _ _ Hs Ha) as (Hc & _).
      assert (Hrec : forall net4 c,
                 calls (record_call st3 net4 c)
                 = (calls st1 ++ [first; auth_call (self st1); c])%list).
      { intros net4 c. cbn [calls record_call]. rewrite Hc.
        cbn [calls store_token record_call]. now rewrite <- !app_assoc. }
      destruct (request (net st3) method url _ params json_data) as [[e | r] net4].
      { destruct e; apply Hrec. }
      destruct (text r) as [e | retry_text].
      { destruct e; apply Hrec. }
      destruct (status r =? 200);
        [destruct (loads retry_text) as [e | v]; [destruct e|]|]; apply Hrec.
  - left.
    now rewrite (attempt_status_error method url headers params json_data st1
                   resp body net1 Hreq Hbody H200 H401).
Qed.

(** At most two authentications and two requests per [_make_request]. *)
Lemma make_request_bound (st : state) (method endpoint : string)
      (params json_data : json) :
  exists cs,
    calls (snd (_make_request method endpoint params json_data st))
    = (calls st ++ cs)%list
    /\ (count_auth cs <= 2)%nat /\ (count_resource cs <= 2)%nat.
Proof.
  destruct (ensure_token st) as [[e | []] st1] eqn:He;
    destruct (ensure_token_calls st st1 _ He) as (Hc & Hs).
  - rewrite (make_request_prologue_fails st st1 e method endpoint params json_data He).
    cbn [snd]. eexists. split; [exact Hc|].
    destruct (_session (self st) && negb (truthy (token (self st))));
      cbv; split; lia.
  - rewrite (make_request_after_prologue st st1 method endpoint params json_data He).
    specialize (Hs eq_refl).
    pose proof (attempt_calls method (urljoin (base_url (self st1)) endpoint)
                  (request_headers (self st1)) params json_data st1 Hs) as Ha.
    cbv zeta beta in Ha.
    destruct Ha as [Ha | [Ha | [headers' Ha]]]; rewrite Ha, Hc, <- app_assoc;
      eexists; (split; [reflexivity|]);
      destruct (_session (self st) && negb (truthy (token (self st))));
      cbv; split; lia.
Qed.

(** C2.  One call of [_make_request] makes at most two authentications
    and at most two requests.  When the first request is answered with
    401, the held token is dropped and one authentication follows.  If it
    fails, its error is what the caller gets, the request is not sent
    again and no token is held.  If it succeeds, the same request (method, url, parameters and
    body) is sent once more, with the new token as its bearer, and nothing
    is sent after it: a retry answered with a status other than 200 ends
    in a [WazuhApiError] with that status, a connection failure of the
    retry in a [WazuhApiError] with status 503, and a retry answered with
    200 and a decodable body in that body's value. *)
Theorem reauthentication_is_bounded (st : state) (method endpoint : string)
        (params json_data : json) :
  let run := _make_request method endpoint params json_data st in
  (exists cs,
      calls (snd run) = (calls st ++ cs)%list
      /\ (count_auth cs <= 2)%nat /\ (count_resource cs <= 2)%nat)
  /\ (forall st1 resp body net1,
        ensure_token st = (inr tt, st1) ->
        let url := urljoin (base_url (self st1)) endpoint in
        let headers := request_headers (self st1) in
        let first := ResourceCall method url headers params json_data in
        request (net st1) method url headers params json_data = (inr resp, net1) ->
        text resp = inr body ->
        status resp = 401 ->
        let st2 := store_token (record_call st1 net1 first) JNull in
        token (self st2) = JNull
        /\ calls st1
           = (calls st ++ if negb (truthy (token (self st)))
                          then [auth_call (self st)] else [])%list
        /\ (forall e st3,
              authenticate st2 = (inl e, st3) ->
              run = (inl e, st3)
              /\ calls st3 = (calls st1 ++ [first; auth_call (self st1)])%list
              /\ token (self st3) = JNull)
        /\ (forall tok st3,
              authenticate st2 = (inr tok, st3) ->
              let headers' := set_header headers "Authorization" (bearer tok) in
              let retry := ResourceCall method url headers' params json_data in
              token (self st3) = tok
              /\ calls (snd run)
                 = (calls st1 ++ [first; auth_call (self st1); retry])%list
              /\ (forall r retry_text net4,
                    request (net st3) method url headers' params json_data
                    = (inr r, net4) ->
                    text r = inr retry_text ->
                    status r <> 200 ->
                    fst run
                    = inl (WazuhApiError
                             ("API request failed after re-auth: "
                              ++ str_of_int (status r) ++ " - " ++ retry_text)
                             (Some (status r))))
              /\ (forall msg net4,
                    request (net st3) method url headers' params json_data
                    = (inl (ClientError msg), net4) ->
                    fst run
                    = inl (WazuhApiError ("Connection error: " ++ msg) (Some 503)))
              /\ (forall r retry_text v net4,
                    request (net st3) method url headers' params json_data
                    = (inr r, net4) ->
                    text r = inr retry_text ->
                    status r = 200 ->
                    loads retry_text = inr v ->
                    fst run = inr v))).
Proof.
  intros run. split; [apply make_request_bound|].
  intros st1 resp body net1 He url headers first Hreq Hbody H401 st2.
  destruct (ensure_token_calls st st1 _ He) as (Hc & Hs). specialize (Hs eq_refl).
  assert (Hsess : _session (self st) = true).
  { destruct (_session (self st)) eqn:E; [reflexivity|].
    unfold Wazuh.ensure_token, bind, get_self in He. rewrite E in He.
    discriminate He. }
  rewrite Hsess in Hc. cbn [andb] in Hc.
  split; [reflexivity|]. split; [exact Hc|].
  assert (Hrun : run = attempt method url headers params json_data st1)
    by (apply make_request_after_prologue; exact He).
  split.
  - intros e st3 Ha. rewrite Hrun.
    destruct (authenticate_calls st2 _ _ Hs Ha) as (Hc3 & _ & _ & _ & Hkeep).
    split; [|split].
    + exact (attempt_reauth_fails method url headers params json_data st1
               resp body net1 Hreq Hbody H401 e st3 Hs Ha).
    + rewrite Hc3. unfold st2. cbn [calls store_token record_call].
      now rewrite <- app_assoc.
    + now rewrite (Hkeep e eq_refl).
  - intros tok st3 Ha headers' retry.
    pose proof (attempt_retry method url headers params json_data st1
                  resp body net1 Hreq Hbody H401 tok st3 Hs Ha) as Hretry.
    fold headers' in Hretry. fold retry in Hretry. rewrite <- Hrun in Hretry.
    destruct (authenticate_calls st2 _ _ Hs Ha) as (Hc3 & _ & Htok & _).
    assert (Hrec : forall net4,
               calls (record_call st3 net4 retry)
               = (calls st1 ++ [first; auth_call (self st1); retry])%list).
    { intros net4. cbn [calls record_call]. rewrite Hc3.
      unfold st2. cbn [calls store_token record_call]. now rewrite <- !app_assoc. }
    split; [now apply Htok|]. split; [|split; [|split]].
    + rewrite Hretry.
      destruct (request (net st3) method url headers' params json_data)
        as [[e | r] net4].
      { destruct e; apply Hrec. }
      destruct (text r) as [e | retry_text].
      { destruct e; apply Hrec. }
      destruct (status r =? 200);
        [destruct (loads retry_text) as [e | v]; [destruct e|]|]; apply Hrec.
    + intros r retry_text net4 Hr Ht Hst. rewrite Hretry, Hr, Ht.
      destruct (Z.eqb_spec (status r) 200); [contradiction | reflexivity].
    + intros msg net4 Hr. rewrite Hretry, Hr. reflexivity.
    + intros r retry_text v net4 Hr Ht Hst Hv. rewrite Hretry, Hr, Ht, Hst, Hv.
      reflexivity.
Qed.

(** C8.  Once [_make_request] has a session and a token and sends the
    request: a response whose status is not 2xx and not 401 ends in a
    [WazuhApiError] that carries the status and, in its message, the
    status and the body text; so does, after re-authentication, a retry
    whose status is not 2xx; and a connection failure, of the request,
    of reading its body or of the retry, ends in a [WazuhApiError] with
    status 503. *)
Theorem failures_become_domain_errors (st st1 : state) (method endpoint : string)
        (params json_data : json)
        (Hprologue : ensure_token st = (inr tt, st1)) :
  let run := _make_request method endpoint params json_data st in
  let url := urljoin (base_url (self st1)) endpoint in
  let headers := request_headers (self st1) in
  let first := ResourceCall method url headers params json_data in
  (forall resp body net1,
      request (net st1) method url headers params json_data = (inr resp, net1) ->
      text resp = inr body ->
      ~ (200 <= status resp <= 299) -> status resp <> 401 ->
      run = (inl (WazuhApiError
                    ("API request failed: " ++ str_of_int (status resp)
                     ++ " - " ++ body) (Some (status resp))),
             record_call st1 net1 first))
  /\ (forall msg net1,
        request (net st1) method url headers params json_data
        = (inl (ClientError msg), net1) ->
        run = (inl (WazuhApiError ("Connection error: " ++ msg) (Some 503)),
               record_call st1 net1 first))
  /\ (forall resp msg net1,
        request (net st1) method url headers params json_data = (inr resp, net1) ->
        text resp = inl (ClientError msg) ->
        run = (inl (WazuhApiError ("Connection error: " ++ msg) (Some 503)),
               record_call st1 net1 first))
  /\ (forall resp body net1 tok st3,
        request (net st1) method url headers params json_data = (inr resp, net1) ->
        text resp = inr body ->
        status resp = 401 ->
        authenticate (store_token (record_call st1 net1 first) JNull) = (inr tok, st3) ->
        let headers' := set_header headers "Authorization" (bearer tok) in
        (forall r retry_text net4,
            request (net st3) method url headers' params json_data = (inr r, net4) ->
            text r = inr retry_text ->
            ~ (200 <= status r <= 299) ->
            fst run
            = inl (WazuhApiError
                     ("API request failed after re-auth: "
                      ++ str_of_int (status r) ++ " - " ++ retry_text)
                     (Some (status r))))
        /\ (forall msg net4,
              request (net st3) method url headers' params json_data
              = (inl (ClientError msg), net4) ->
              fst run
              = inl (WazuhApiError ("Connection error: " ++ msg) (Some 503)))).
Proof.
  intros run url headers first.
  assert (Hrun : run = attempt method url headers params json_data st1)
    by (apply make_request_after_prologue; exact Hprologue).
  destruct (ensure_token_calls st st1 _ Hprologue) as (_ & Hs). specialize (Hs eq_refl).
  rewrite Hrun. split; [|split; [|split]].
  - intros resp body net1 Hreq Hbody H2xx H401.
    apply attempt_status_error; auto. lia.
  - intros msg net1 Hreq. now apply attempt_client_error.
  - intros resp msg net1 Hreq Hbody. now apply (attempt_body_client_error _ _ _ _ _ _ resp).
  - intros resp body net1 tok st3 Hreq Hbody H401 Ha headers'.
    rewrite (attempt_retry method url headers params json_data st1
               resp body net1 Hreq Hbody H401 tok st3 Hs Ha).
    fold headers'. split.
    + intros r retry_text net4 Hr Ht Hst. rewrite Hr, Ht.
      destruct (Z.eqb_spec (status r) 200); [lia | reflexivity].
    + intros msg net4 Hr. rewrite Hr. reflexivity.
Qed.

End ClientFacts.

(** *** The scripted remote at work *)

Import SampleRemote.

Lemma reauthentication_is_bounded_witness :
  fst (get_agents twice_unauthorized)
  = inl (WazuhApiError "API request failed after re-auth: 401 - Unauthorized" (Some 401))
  /\ calls (snd (get_agents twice_unauthorized))
     = [login; agents_with "t1"; login; agents_with "t2"].
Proof.
  destruct (reauthentication_is_bounded remote post request loads no_repr urljoin
              twice_unauthorized "GET" "/agents" JNull JNull) as [_ H401].
  cbv zeta in H401.
  edestruct H401 as (_ & Hprefix & _ & Hretry);
    [vm_compute; reflexivity | vm_compute; reflexivity | reflexivity | reflexivity |].
  edestruct Hretry as (_ & Hcalls & Hstatus & _); [vm_compute; reflexivity|].
  split.
  - unfold get_agents. etransitivity.
    + eapply Hstatus; [vm_compute; reflexivity | reflexivity | discriminate].
    + vm_compute. reflexivity.
  - unfold get_agents. rewrite Hcalls, Hprefix. vm_compute. reflexivity.
Defined.

Lemma failures_become_domain_errors_witness :
  Wazuh.ensure_token remote post urljoin server_error = (inr tt, server_error)
  /\ get_agents server_error
     = (inl (WazuhApiError "API request failed: 500 - boom" (Some 500)),
        record_call server_error [] (agents_with "t0")).
Proof.
  assert (Hp : Wazuh.ensure_token remote post urljoin server_error
               = (inr tt, server_error)) by reflexivity.
  split; [exact Hp|].
  destruct (failures_become_domain_errors remote post request loads no_repr urljoin
              server_error server_error "GET" "/agents" JNull JNull Hp)
    as (Hstatus & _).
  unfold get_agents. etransitivity.
  - eapply Hstatus; [vm_compute; reflexivity | reflexivity | simpl; lia | discriminate].
  - vm_compute. reflexivity.
Defined.

End WazuhFacts.

(* ===================================================================== *)
(** * Part III: further properties                                        *)
(* ===================================================================== *)

(** ** The response line is one line *)

Module DumpsFacts.
Import PyStr Json Printable.

Lemma all_printable_append (a b : string) :
  all_printable (a ++ b) = all_printable a && all_printable b.
Proof.
  induction a as [|c r IH]; simpl; [reflexivity|].
  now rewrite IH, andb_assoc.
Qed.

Lemma string_of_uint_printable (d : Decimal.uint) :
  all_printable (NilEmpty.string_of_uint d) = true.
Proof. induction d; simpl; auto. Qed.

Lemma str_of_int_printable (n : Z) : all_printable (str_of_int n) = true.
Proof.
  unfold str_of_int. destruct (Z.to_int n); simpl;
    apply string_of_uint_printable.
Qed.

Lemma escape_char_printable (c : ascii) : all_printable (escape_char c) = true.
Proof. destruct c as [[] [] [] [] [] [] [] []]; vm_compute; reflexivity. Qed.

Lemma escape_printable (s : string) : all_printable (escape s) = true.
Proof.
  induction s as [|c r IH]; simpl; [reflexivity|].
  now rewrite all_printable_append, escape_char_printable, IH.
Qed.

Lemma quote_printable (s : string) : all_printable (quote s) = true.
Proof.
  unfold quote. cbn [all_printable].
  rewrite all_printable_append, escape_printable. reflexivity.
Qed.

(** Induction on a JSON value, with the hypothesis for every member of a
    list and every value of an object. *)
Lemma json_induction (P : json -> Prop) :
  P JNull ->
  (forall b, P (JBool b)) ->
  (forall n, P (JInt n)) ->
  (forall x, P (JFloat x)) ->
  (forall s, P (JStr s)) ->
  (forall items, Forall P items -> P (JList items)) ->
  (forall fields, Forall (fun kv => P (snd kv)) fields -> P (JDict fields)) ->
  forall v, P v.
Proof.
  intros Hnull Hbool Hint Hfloat Hstr Hlist Hdict.
  fix IH 1. intros [| b | n | x | s | items | fields].
  - exact Hnull.
  - apply Hbool.
  - apply Hint.
  - apply Hfloat.
  - apply Hstr.
  - apply Hlist. induction items as [|v rest IHrest]; constructor.
    + apply IH.
    + exact IHrest.
  - apply Hdict. induction fields as [|[k v] rest IHrest]; constructor.
    + apply IH.
    + exact IHrest.
Qed.

Section Dumps.

Variable float_repr : float -> string.
Hypothesis float_repr_printable : forall x, all_printable (float_repr x) = true.

Lemma dumps_printable (v : json) : all_printable (dumps float_repr v) = true.
Proof.
  induction v using json_induction; try reflexivity.
  - destruct b; reflexivity.
  - apply str_of_int_printable.
  - apply float_repr_printable.
  - apply quote_printable.
  - cbn [dumps]. rewrite !all_printable_append.
    match goal with
    | |- context [all_printable (?join items)] =>
        assert (HJ : all_printable (join items) = true)
    end.
    { induction H as [|x rest Hx Hrest IH]; [reflexivity|].
      destruct rest as [|y rest']; [exact Hx|].
      rewrite !all_printable_append, Hx, IH. reflexivity. }
    rewrite HJ. reflexivity.
  - cbn [dumps]. rewrite !all_printable_append.
    match goal with
    | |- context [all_printable (?join fields)] =>
        assert (HJ : all_printable (join fields) = true)
    end.
    { induction H as [|[k x] rest Hx Hrest IH]; [reflexivity|].
      cbn [snd] in Hx. destruct rest as [|[k' y] rest'].
      - now rewrite !all_printable_append, quote_printable, Hx.
      - rewrite !all_printable_append, quote_printable, Hx, IH. reflexivity. }
    rewrite HJ. reflexivity.
Qed.

End Dumps.

End DumpsFacts.

(** ** More on the dispatcher and the transport *)

Module McpMore.
Import PyStr Json Mcp Mcp.ErrorCodes McpFacts Printable DumpsFacts.

Section Dispatch.

Variable world : Type.
Variable loads : string -> decoded.
Variable float_repr : float -> string.
Variable py_repr : json -> string.

Abbreviation McpServer := (McpServer world).
Abbreviation handle_message := (handle_message world loads float_repr py_repr).
Abbreviation _handle_tools_call := (_handle_tools_call world py_repr).
Abbreviation is_request := (is_request loads).
Abbreviation success := (_create_success_response float_repr).
Abbreviation failure := (_create_error_response float_repr).
Abbreviation start := (start world loads float_repr py_repr).

(** X1.  A [tools/call] request that resolves to a tool whose method
    returns a [CallToolResult] is answered with a success envelope whose
    result holds the content items of that result, in order, each as a
    [type]/[text] object, and its [is_error] flag as [isError]: an error
    result built by the tool itself is passed on as it is. *)
Theorem call_tool_result_is_passed_on (self : McpServer) (w w' : world)
        (message : string) (fields : list (string * json))
        (m : tool_method world) (arguments : json) (result : CallToolResult)
        (Hreq : is_request message fields "tools/call")
        (Hres : resolves_tool self fields m arguments)
        (Hret : invoke m w arguments = (Returns result, w')) :
  handle_message self w message
  = (inr (Some (dumps float_repr
                  (JDict [("jsonrpc", JStr "2.0");
                          ("id", get fields "id");
                          ("result",
                           JDict [("content",
                                   JList (map (fun c =>
                                                 JDict [("type", JStr (content_type c));
                                                        ("text", JStr (content_text c))])
                                              (content result)));
                                  ("isError", JBool (is_error result))])]))),
     self, w').
Proof.
  rewrite (handle_tools_call_request world loads float_repr py_repr
             self w message fields Hreq).
  rewrite (tools_call_resolved world py_repr self w fields m arguments Hres), Hret.
  reflexivity.
Qed.

(** X2.  When the [arguments] of a [tools/call] request are not an
    object, the resolved method is not called: the world stays as it was
    and the answer is a success envelope with [isError = true] whose text
    names the function, as the interpreter does by its module and
    qualified name, and the type that was sent. *)
Theorem arguments_must_be_a_mapping (self : McpServer) (w : world)
        (message : string) (fields : list (string * json))
        (m : tool_method world) (arguments : json)
        (Hreq : is_request message fields "tools/call")
        (Hres : resolves_tool self fields m arguments)
        (Hnot : forall kwargs, arguments <> JDict kwargs) :
  handle_message self w message
  = (inr (Some (success (get fields "id")
                  (text_result
                     ("Error calling tool: " ++ func_str m
                      ++ " argument after ** must be a mapping, not "
                      ++ type_name arguments) true))),
     self, w).
Proof.
  rewrite (handle_tools_call_request world loads float_repr py_repr
             self w message fields Hreq).
  rewrite (tools_call_resolved world py_repr self w fields m arguments Hres).
  destruct arguments; try reflexivity. exfalso. now apply (Hnot fields0).
Qed.


Lemma tools_call_world (self : McpServer) (w : world) (params : json) :
  snd (_handle_tools_call self w params) = w
  \/ exists p name ts info m,
       params = JDict p
       /\ get p "name" = JStr name /\ name <> ""
       /\ _tools (handler self) = Some ts
       /\ lookup_tool ts name = Some info
       /\ method info = Some m
       /\ snd (_handle_tools_call self w params)
          = snd (invoke m w (get_default p "arguments" (JDict []))).
Proof.
  unfold Mcp._handle_tools_call.
  destruct params as [| | | | | |p]; try (left; reflexivity).
  destruct (truthy (get p "name")) eqn:Ht; cbn [negb]; [|left; reflexivity].
  destruct (_tools (handler self)) as [ts|] eqn:Hts; [|left; reflexivity].
  destruct (get p "name") as [| | | |name| |] eqn:Hn; try (left; reflexivity).
  destruct (lookup_tool ts name) as [info|] eqn:Hl; [|left; reflexivity].
  destruct (method info) as [m|] eqn:Hm; [|left; reflexivity].
  right. exists p, name, ts, info, m. repeat split; try assumption.
  - intros ->. discriminate Ht.
  - destruct (invoke m w (get_default p "arguments" (JDict []))) as [[r | s | e] w'];
      reflexivity.
Qed.

(** X4.  The world changes only through the invocation of a tool: after
    any message it is as before, unless the message is a [tools/call]
    request that resolves to a registered method, and then it is the world
    that invocation leaves. *)
Theorem world_changes_only_through_tools (self : McpServer) (w : world)
        (message : string) :
  snd (handle_message self w message) = w
  \/ exists fields m arguments,
       is_request message fields "tools/call"
       /\ resolves_tool self fields m arguments
       /\ snd (handle_message self w message) = snd (invoke m w arguments).
Proof.
  unfold Mcp.handle_message.
  destruct (loads message) as [request| |] eqn:Hl; [|left; reflexivity..].
  destruct request as [| | | | | |fields]; try (left; reflexivity).
  destruct (dict_get fields "jsonrpc") as [tag|] eqn:Ht; [|left; reflexivity].
  destruct (eq_str tag "2.0") eqn:Htag; cbn [negb]; [|left; reflexivity].
  destruct (negb (truthy (get fields "method"))); [left; reflexivity|].
  destruct (eq_str (get fields "method") "initialize").
  { left. destruct (_handle_initialize world self w _); reflexivity. }
  destruct (eq_str (get fields "method") "notifications/initialized");
    [left; reflexivity|].
  destruct (eq_str (get fields "method") "tools/list"); [left; reflexivity|].
  destruct (eq_str (get fields "method") "tools/call") eqn:Hm; [|left; reflexivity].
  destruct (tools_call_world self w (get_default fields "params" (JDict [])))
    as [Hw | (p & name & ts & info & m & Hp & Hn & Hne & Hts & Hlk & Hmeth & Hw)].
  - left. destruct (_handle_tools_call self w _) as [[e | r] w']; exact Hw.
  - right. exists fields, m, (get_default p "arguments" (JDict [])).
    split; [|split].
    + repeat split; try assumption.
      * destruct tag; try discriminate Htag. simpl in Htag.
        apply String.eqb_eq in Htag. now subst.
      * destruct (get fields "method"); try discriminate Hm. simpl in Hm.
        apply String.eqb_eq in Hm. now subst.
    + exists p, name, ts, info. repeat split; assumption.
    + destruct (_handle_tools_call self w _) as [[e | r] w']; exact Hw.
Qed.

(** X5.  Every response line is the serialization of a success envelope
    or of an error envelope whose error object has a code and a message
    and no [data]; the code is [PARSE_ERROR], [INVALID_REQUEST],
    [METHOD_NOT_FOUND] or [INTERNAL_ERROR]. *)
Theorem error_codes_sent (self : McpServer) (w : world) (message : string) :
  match fst (fst (handle_message self w message)) with
  | inr (Some text) =>
      (exists id result,
          text = dumps float_repr
                   (JDict [("jsonrpc", JStr "2.0"); ("id", id); ("result", result)]))
      \/ (exists id code msg,
             text = dumps float_repr
                      (JDict [("jsonrpc", JStr "2.0"); ("id", id);
                              ("error", JDict [("code", JInt code);
                                               ("message", JStr msg)])])
             /\ In code [PARSE_ERROR; INVALID_REQUEST; METHOD_NOT_FOUND;
                         INTERNAL_ERROR])
  | _ => True
  end.
Proof.
  assert (E : forall id code msg,
             In code [PARSE_ERROR; INVALID_REQUEST; METHOD_NOT_FOUND; INTERNAL_ERROR] ->
             exists id' code' msg',
               failure id code msg JNull
               = dumps float_repr
                   (JDict [("jsonrpc", JStr "2.0"); ("id", id');
                           ("error", JDict [("code", JInt code');
                                            ("message", JStr msg')])])
               /\ In code' [PARSE_ERROR; INVALID_REQUEST; METHOD_NOT_FOUND;
                            INTERNAL_ERROR]).
  { intros id code msg Hin. exists id, code, msg. split; [reflexivity | exact Hin]. }
  unfold Mcp.handle_message.
  destruct (loads message) as [request| |];
    [|right; apply E; simpl; tauto|exact I].
  destruct request as [| | | | | |fields]; try (right; apply E; simpl; tauto).
  destruct (dict_get fields "jsonrpc") as [tag|]; [|right; apply E; simpl; tauto].
  destruct (negb (eq_str tag "2.0")); [right; apply E; simpl; tauto|].
  destruct (negb (truthy (get fields "method"))); [right; apply E; simpl; tauto|].
  destruct (eq_str (get fields "method") "initialize").
  { destruct (_handle_initialize world self w _);
      [right; apply E; simpl; tauto | left; do 2 eexists; reflexivity]. }
  destruct (eq_str (get fields "method") "notifications/initialized"); [exact I|].
  destruct (eq_str (get fields "method") "tools/list");
    [left; do 2 eexists; reflexivity|].
  destruct (eq_str (get fields "method") "tools/call");
    [|right; apply E; simpl; tauto].
  destruct (_handle_tools_call self w _) as [[e | response] w'];
    [right; apply E; simpl; tauto | left; do 2 eexists; reflexivity].
Qed.

(** X6.  A [tools/list] request is answered with one entry per registered
    tool, in registration order, under the request's id; the server and
    the world are left as they were, and the answer depends on the handler
    and the message only, so that asking again, whatever happened in
    between, gives the same line. *)
Theorem tools_list_is_stable (self : McpServer) (w : world) (message : string)
        (fields : list (string * json))
        (Hreq : is_request message fields "tools/list") :
  exists entries,
    handle_message self w message
    = (inr (Some (success (get fields "id") (JDict [("tools", JList entries)]))),
       self, w)
    /\ List.length entries
       = List.length (match _tools (handler self) with Some ts => ts | None => [] end)
    /\ map (fun entry => match entry with
                         | JDict e => get e "name"
                         | _ => JNull
                         end) entries
       = map (fun t => JStr (fst t))
             (match _tools (handler self) with Some ts => ts | None => [] end)
    /\ forall (other : McpServer) (w2 : world),
         handler other = handler self ->
         fst (fst (handle_message other w2 message))
         = fst (fst (handle_message self w message)).
Proof.
  destruct Hreq as (Hl & Ht & Hm).
  assert (H : forall (s : McpServer) (w0 : world),
             handle_message s w0 message
             = (inr (Some (success (get fields "id")
                             (_handle_tools_list world s
                                (get_default fields "params" (JDict []))))), s, w0)).
  { intros s w0. unfold Mcp.handle_message. rewrite Hl, Ht, Hm. reflexivity. }
  unfold _handle_tools_list in H.
  eexists. split; [apply H|]. split; [|split].
  - destruct (_tools (handler self)); [apply length_map | reflexivity].
  - destruct (_tools (handler self)) as [ts|]; [|reflexivity].
    rewrite map_map. apply map_ext. intros [k v]. reflexivity.
  - intros other w2 Hh. rewrite !H. cbn [fst]. now rewrite Hh.
Qed.

(** An exception leaves [handle_message] exactly when the decoder raises
    something other than [JSONDecodeError]. *)
Lemma handle_message_raises (self : McpServer) (w : world) (message : string) :
  loads message = OtherError ->
  handle_message self w message = (inl unbound_request, self, w).
Proof. intros H. unfold Mcp.handle_message. now rewrite H. Qed.

Lemma handle_message_returns (self : McpServer) (w : world) (message : string) :
  loads message <> OtherError ->
  exists response self' w',
    handle_message self w message = (inr response, self', w').
Proof.
  intros H. unfold Mcp.handle_message.
  destruct (loads message) as [request| |]; [|do 3 eexists; reflexivity|congruence].
  destruct request as [| | | | | |fields]; try (do 3 eexists; reflexivity).
  destruct (dict_get fields "jsonrpc") as [tag|]; [|do 3 eexists; reflexivity].
  destruct (negb (eq_str tag "2.0")); [do 3 eexists; reflexivity|].
  destruct (negb (truthy (get fields "method"))); [do 3 eexists; reflexivity|].
  destruct (eq_str (get fields "method") "initialize").
  { destruct (_handle_initialize world self w _); do 3 eexists; reflexivity. }
  destruct (eq_str (get fields "method") "notifications/initialized");
    [do 3 eexists; reflexivity|].
  destruct (eq_str (get fields "method") "tools/list"); [do 3 eexists; reflexivity|].
  destruct (eq_str (get fields "method") "tools/call"); [|do 3 eexists; reflexivity].
  destruct (_handle_tools_call self w _) as [[e | response] w'];
    do 3 eexists; reflexivity.
Qed.

(** One turn of the read loop on a line that is dispatched and answered,
    or not answered. *)
Lemma start_step (server server' : McpServer) (w w' : world)
      (line : string) (rest : list string) (response : option string) :
  line <> "" -> strip line <> "" ->
  handle_message server w (strip line) = (inr response, server', w') ->
  start server w (line :: rest)
  = (let '(out, s, w'') := start server' w' rest in
     ((match response with
       | Some text => print_flush text
       | None => []
       end ++ out)%list, s, w'')).
Proof.
  intros Hline Hstrip Hresp. cbn [Mcp.start].
  destruct (String.eqb_spec line ""); [contradiction|].
  destruct (String.eqb_spec (strip line) ""); [contradiction|].
  rewrite Hresp. destruct response as [text|]; [|reflexivity].
  pose proof (response_nonempty world loads float_repr py_repr _ _ _ _ _ _ Hresp) as Hne.
  destruct (String.eqb_spec text ""); [contradiction | reflexivity].
Qed.

(** The turn on which an exception leaves the dispatcher is the last. *)
Lemma start_stops (server server' : McpServer) (w w' : world)
      (line : string) (rest : list string) (e : exn) :
  line <> "" -> strip line <> "" ->
  handle_message server w (strip line) = (inl e, server', w') ->
  start server w (line :: rest) = ([], server', w').
Proof.
  intros Hline Hstrip Hresp. cbn [Mcp.start].
  destruct (String.eqb_spec line ""); [contradiction|].
  destruct (String.eqb_spec (strip line) ""); [contradiction|].
  now rewrite Hresp.
Qed.

(** X8.  The loop works through its input in order, one line at a time.
    As long as the first part of the input holds no end-of-input mark and
    no line on which the decoder raises something other than
    [JSONDecodeError], running over the whole input is running over the
    first part and then, from the server and the world this leaves, over
    the rest, and the output is the one followed by the other.  What
    follows an end-of-input mark is never read; and neither is what
    follows a line on which the decoder raises such an exception: the
    loop ends there, that line unanswered. *)
Theorem transport_in_order (server : McpServer) (w : world) (l1 l2 : list string)
        (Hlines : forall line, In line l1 -> line <> "")
        (Hdecoder : forall line,
            In line l1 -> strip line <> "" -> loads (strip line) <> OtherError) :
  (let '(out1, s1, w1) := start server w l1 in
   let '(out2, s2, w2) := start s1 w1 l2 in
   start server w (l1 ++ l2) = ((out1 ++ out2)%list, s2, w2))
  /\ start server w (l1 ++ "" :: l2) = start server w l1
  /\ (forall line,
        line <> "" -> strip line <> "" -> loads (strip line) = OtherError ->
        start server w (l1 ++ line :: l2) = start server w l1).
Proof.
  assert (Happ : forall l3 (srv : McpServer) (w0 : world),
             (forall line, In line l1 -> line <> "") ->
             (forall line,
                 In line l1 -> strip line <> "" -> loads (strip line) <> OtherError) ->
             let '(out1, s1, w1) := start srv w0 l1 in
             let '(out2, s2, w2) := start s1 w1 l3 in
             start srv w0 (l1 ++ l3) = ((out1 ++ out2)%list, s2, w2)).
  { clear Hlines Hdecoder. intros l3.
    induction l1 as [|line rest IH]; intros srv w0 Hl Hd.
    - cbn [Mcp.start app]. destruct (start srv w0 l3) as [[out2 s2] w2]. reflexivity.
    - assert (Hline : line <> "") by (apply Hl; now left).
      assert (Hrest : forall l, In l rest -> l <> "") by (intros l Hin; apply Hl; now right).
      assert (Hdrest : forall l, In l rest -> strip l <> "" ->
                                 loads (strip l) <> OtherError)
        by (intros l Hin; apply Hd; now right).
      cbn [app]. destruct (String.eqb_spec (strip line) "") as [Hblank | Hstrip].
      + assert (Hskip : forall tail, start srv w0 (line :: tail) = start srv w0 tail).
        { intros tail. cbn [Mcp.start].
          destruct (String.eqb_spec line ""); [contradiction|].
          rewrite Hblank. reflexivity. }
        rewrite !Hskip. apply IH; assumption.
      + destruct (handle_message_returns srv w0 (strip line))
          as (response & srv' & w0' & Hresp); [apply Hd; [now left | exact Hstrip]|].
        rewrite !(start_step srv srv' w0 w0' line _ response Hline Hstrip Hresp).
        specialize (IH srv' w0' Hrest Hdrest).
        destruct (start srv' w0' rest) as [[out1 s1] w1].
        destruct (start s1 w1 l3) as [[out2 s2] w2].
        rewrite IH. now rewrite app_assoc. }
  split; [|split].
  - apply Happ; assumption.
  - specialize (Happ ("" :: l2) server w Hlines Hdecoder).
    destruct (start server w l1) as [[out1 s1] w1].
    cbn [Mcp.start String.eqb] in Happ. rewrite Happ. now rewrite app_nil_r.
  - intros line Hline Hstrip Hraise.
    specialize (Happ (line :: l2) server w Hlines Hdecoder).
    destruct (start server w l1) as [[out1 s1] w1].
    rewrite (start_stops s1 s1 w1 w1 line l2 unbound_request Hline Hstrip
               (handle_message_raises s1 w1 (strip line) Hraise)) in Happ.
    rewrite Happ. now rewrite app_nil_r.
Qed.

(** X9.  What the loop writes is a sequence of response lines, each
    non-empty, newline-terminated and followed at once by a flush; there
    are at most as many as lines were read. *)
Theorem output_is_flushed_lines (server : McpServer) (w : world)
        (stdin : list string) :
  exists texts,
    output world (start server w stdin)
    = List.concat (map (fun text => [Write (text ++ newline); Flush]) texts)
    /\ (List.length texts <= List.length stdin)%nat
    /\ Forall (fun text => text <> "") texts.
Proof.
  revert server w. induction stdin as [|line rest IH]; intros server w.
  - exists []. repeat split; [cbn; lia | constructor].
  - destruct (String.eqb_spec line "") as [-> | Hline].
    { exists []. repeat split; [cbn; lia | constructor]. }
    destruct (String.eqb_spec (strip line) "") as [Hblank | Hstrip].
    { assert (Hskip : start server w (line :: rest) = start server w rest).
      { cbn [Mcp.start]. destruct (String.eqb_spec line ""); [contradiction|].
        rewrite Hblank. reflexivity. }
      rewrite Hskip. destruct (IH server w) as (texts & Hout & Hlen & Hne).
      exists texts. repeat split; [exact Hout | cbn; lia | exact Hne]. }
    destruct (handle_message server w (strip line))
      as [[[e | response] server'] w'] eqn:Hresp.
    { rewrite (start_stops server server' w w' line rest e Hline Hstrip Hresp).
      exists []. repeat split; [cbn; lia | constructor]. }
    rewrite (start_step server server' w w' line rest response Hline Hstrip Hresp).
    destruct (IH server' w') as (texts & Hout & Hlen & Hne).
    destruct (start server' w' rest) as [[out s] w'']. unfold output in *.
    cbn [fst] in *. destruct response as [text|].
    + exists (text :: texts). split; [|split].
      * cbn [map List.concat]. rewrite Hout. reflexivity.
      * cbn [List.length]. lia.
      * constructor; [|exact Hne].
        exact (response_nonempty world loads float_repr py_repr _ _ _ _ _ _ Hresp).
    + exists texts. split; [exact Hout | split; [cbn [List.length]; lia | exact Hne]].
Qed.

(** X10.  A response line is made of printable ASCII characters only,
    provided the text written for a float is: whatever strings the request
    or a tool put into it, the line holds no line break, so that on the
    transport one response is one line. *)
Theorem response_is_one_line (self self' : McpServer) (w w' : world)
        (message text : string)
        (Hfloat : forall x, all_printable (float_repr x) = true)
        (Hresp : handle_message self w message = (inr (Some text), self', w')) :
  all_printable text = true
  /\ forall before after, text <> before ++ newline ++ after.
Proof.
  assert (Hp : all_printable text = true).
  { pose proof (handle_message_envelope world loads float_repr py_repr
                  self w message) as E.
    rewrite Hresp in E. cbn [fst] in E.
    destruct E as [(id & result & ->) | (id & code & msg & ->)];
      apply dumps_printable; exact Hfloat. }
  split; [exact Hp|]. intros before after ->.
  rewrite all_printable_append in Hp. cbn in Hp.
  rewrite andb_false_r in Hp. discriminate Hp.
Qed.

End Dispatch.

(** *** The sample server at work *)

Import Sample SampleMore.

Lemma status_is_a_request :
  Mcp.is_request more_loads line_call_status (call_request 11 "status") "tools/call".
Proof. repeat split. Qed.

Lemma status_resolves :
  resolves_tool sample_server (call_request 11 "status") status_method (JDict []).
Proof.
  exists [("name", JStr "status"); ("arguments", JDict [])], "status".
  eexists. eexists. repeat split. discriminate.
Qed.

Lemma call_tool_result_is_passed_on_witness :
  Mcp.is_request more_loads line_call_status (call_request 11 "status") "tools/call"
  /\ resolves_tool sample_server (call_request 11 "status") status_method (JDict [])
  /\ more_handle sample_server 0%nat line_call_status
     = (inr (Some (dq "{'jsonrpc': '2.0', 'id': 11, 'result': {'content': [{'type': 'text', 'text': 'ok'}], 'isError': false}}")),
        sample_server, 1%nat).
Proof.
  split; [exact status_is_a_request|]. split; [exact status_resolves|].
  unfold more_handle.
  rewrite (call_tool_result_is_passed_on world more_loads no_float no_repr
             sample_server 0%nat 1%nat line_call_status (call_request 11 "status")
             status_method (JDict [])
             {| content := [{| content_type := "text"; content_text := "ok" |}];
                is_error := false |}
             status_is_a_request status_resolves eq_refl).
  vm_compute. reflexivity.
Defined.

Lemma list_arguments_is_a_request :
  Mcp.is_request more_loads line_call_list_arguments fields_call_list_arguments
                 "tools/call".
Proof. repeat split. Qed.

Lemma list_arguments_resolves :
  resolves_tool sample_server fields_call_list_arguments status_method (JList [JInt 1]).
Proof.
  exists [("name", JStr "status"); ("arguments", JList [JInt 1])], "status".
  eexists. eexists. repeat split. discriminate.
Qed.

Lemma arguments_must_be_a_mapping_witness :
  Mcp.is_request more_loads line_call_list_arguments fields_call_list_arguments
                 "tools/call"
  /\ resolves_tool sample_server fields_call_list_arguments status_method
                   (JList [JInt 1])
  /\ more_handle sample_server 0%nat line_call_list_arguments
     = (inr (Some (dq "{'jsonrpc': '2.0', 'id': 12, 'result': {'content': [{'type': 'text', 'text': 'Error calling tool: sample.SampleHandler.status() argument after ** must be a mapping, not list'}], 'isError': true}}")),
        sample_server, 0%nat).
Proof.
  split; [exact list_arguments_is_a_request|].
  split; [exact list_arguments_resolves|].
  unfold more_handle.
  rewrite (arguments_must_be_a_mapping world more_loads no_float no_repr
             sample_server 0%nat line_call_list_arguments fields_call_list_arguments
             status_method (JList [JInt 1])
             list_arguments_is_a_request list_arguments_resolves).
  - vm_compute. reflexivity.
  - discriminate.
Defined.

Lemma list_is_a_request :
  Mcp.is_request more_loads line_list fields_list "tools/list".
Proof. repeat split. Qed.

Lemma tools_list_is_stable_witness :
  Mcp.is_request more_loads line_list fields_list "tools/list"
  /\ exists entries,
       more_handle sample_server 0%nat line_list
       = (inr (Some (_create_success_response no_float (JInt 13)
                       (JDict [("tools", JList entries)]))), sample_server, 0%nat)
       /\ List.length entries = 3%nat
       /\ fst (fst (more_handle (mark_initialized sample_server) 5%nat line_list))
          = fst (fst (more_handle sample_server 0%nat line_list)).
Proof.
  split; [exact list_is_a_request|].
  destruct (tools_list_is_stable world more_loads no_float no_repr
              sample_server 0%nat line_list fields_list list_is_a_request)
    as (entries & Hanswer & Hlen & _ & Hsame).
  exists entries. split; [exact Hanswer|]. split; [exact Hlen|].
  apply Hsame. reflexivity.
Defined.

Lemma transport_in_order_witness :
  (forall line, In line stdin_first -> line <> "")
  /\ (forall line, In line stdin_first -> strip line <> "" ->
        more_loads (strip line) <> OtherError)
  /\ more_start sample_server 0%nat (stdin_first ++ stdin_second)%list
     = ((output world (more_start sample_server 0%nat stdin_first)
           ++ output world (more_start (mark_initialized sample_server) 1%nat
                              stdin_second))%list,
        mark_initialized sample_server, 1%nat)
  /\ more_start sample_server 0%nat (stdin_first ++ stdin_long_number :: stdin_second)%list
     = more_start sample_server 0%nat stdin_first.
Proof.
  assert (Hlines : forall line, In line stdin_first -> line <> "").
  { intros line [<- | [<- | []]]; discriminate. }
  assert (Hdecoder : forall line, In line stdin_first -> strip line <> "" ->
                                  more_loads (strip line) <> OtherError).
  { intros line [<- | [<- | []]] _; vm_compute; discriminate. }
  split; [exact Hlines|]. split; [exact Hdecoder|].
  destruct (transport_in_order world more_loads no_float no_repr
              sample_server 0%nat stdin_first stdin_second Hlines Hdecoder)
    as (Happ & _ & Hstop).
  split.
  - unfold more_start, output.
    destruct (start world more_loads no_float no_repr sample_server 0%nat stdin_first)
      as [[out1 s1] w1] eqn:E1.
    assert (Hs : s1 = mark_initialized sample_server /\ w1 = 1%nat).
    { pose proof (f_equal (fun r => (snd (fst r), snd r)) E1) as Hsw.
      vm_compute in Hsw. inversion Hsw. split; reflexivity. }
    destruct Hs as [-> ->].
    destruct (start world more_loads no_float no_repr (mark_initialized sample_server)
                1%nat stdin_second) as [[out2 s2] w2] eqn:E2.
    assert (Hs : s2 = mark_initialized sample_server /\ w2 = 1%nat).
    { pose proof (f_equal (fun r => (snd (fst r), snd r)) E2) as Hsw.
      vm_compute in Hsw. inversion Hsw. split; reflexivity. }
    destruct Hs as [-> ->]. exact Happ.
  - unfold more_start. apply Hstop.
    + discriminate.
    + vm_compute. discriminate.
    + vm_compute. reflexivity.
Defined.

Lemma response_is_one_line_witness :
  (forall x, all_printable (no_float x) = true)
  /\ all_printable
       (dq "{'jsonrpc': '2.0', 'id': 10, 'error': {'code': -32601, 'message': 'Method not found: frobnicate'}}")
     = true.
Proof.
  assert (Hfloat : forall x, all_printable (no_float x) = true) by reflexivity.
  split; [exact Hfloat|].
  refine (proj1 (response_is_one_line world sample_loads no_float no_repr
                   sample_server sample_server 0%nat 0%nat line_frobnicate _
                   Hfloat _)).
  vm_compute. reflexivity.
Defined.

End McpMore.

(** ** [ServerCapabilities.builder] *)

Module BuildersFacts.
Import Mcp Builders.

Lemma fold_enable (calls : list enable_call) (b : CapabilitiesBuilder) :
  build (fold_left apply_call calls b)
  = {| cap_tools := _tools_flag b || existsb (is_call Tools) calls;
       cap_prompts := _prompts_flag b || existsb (is_call Prompts) calls;
       cap_resources := _resources_flag b || existsb (is_call Resources) calls |}.
Proof.
  revert b. induction calls as [|c calls IH]; intros b.
  - cbn. now rewrite !orb_false_r.
  - cbn [fold_left existsb]. rewrite IH.
    destruct c, b as [t p r]; cbn; rewrite ?orb_true_r, ?orb_false_r; reflexivity.
Qed.

(** X7.  What a chain of [enable_*] calls on a fresh builder builds: a
    capability is on exactly when its call occurs in the chain, whatever
    the order and however often.  In particular a builder on which
    nothing was enabled gives a value without tools, which is not what
    [ServerCapabilities()] gives. *)
Theorem builder_enables_what_was_called (calls : list enable_call) :
  build (chain calls)
  = {| cap_tools := existsb (is_call Tools) calls;
       cap_prompts := existsb (is_call Prompts) calls;
       cap_resources := existsb (is_call Resources) calls |}
  /\ (build (chain calls) = default_capabilities
      <-> (In Tools calls /\ ~ In Prompts calls /\ ~ In Resources calls)).
Proof.
  assert (Hin : forall c, existsb (is_call c) calls = true <-> In c calls).
  { intros c. rewrite existsb_exists. split.
    - intros (d & Hd & E). destruct c, d; try discriminate E; exact Hd.
    - intros H. exists c. split; [exact H | now destruct c]. }
  unfold chain. rewrite fold_enable. cbn [builder _tools_flag _prompts_flag
                                           _resources_flag orb].
  split; [reflexivity|].
  unfold default_capabilities. rewrite <- !Hin.
  destruct (existsb (is_call Tools) calls), (existsb (is_call Prompts) calls),
    (existsb (is_call Resources) calls); split;
    try discriminate; try (intros (A & B & C); congruence);
    try (intros _; repeat split; congruence).
Qed.

End BuildersFacts.

(** ** The registry and the schema *)

Module RegistryFacts.
Import PyStr Json Schema SchemaSpec SchemaFacts Mcp Registry.

Section Tools.

Variable world : Type.

Abbreviation tools_t := (list (string * tool_info world)).

Lemma lookup_set_tool (ts : tools_t) (k k' : string) (v : tool_info world) :
  lookup_tool (set_tool ts k v) k'
  = if String.eqb k k' then Some v else lookup_tool ts k'.
Proof.
  induction ts as [|[k0 v0] rest IH]; simpl.
  - reflexivity.
  - destruct (String.eqb_spec k0 k) as [-> | Hk]; simpl.
    + destruct (String.eqb_spec k k'); reflexivity.
    + rewrite IH. destruct (String.eqb_spec k0 k') as [-> | Hk'];
        [|reflexivity].
      destruct (String.eqb_spec k k'); [congruence | reflexivity].
Qed.

Lemma set_tool_keys (ts : tools_t) (k : string) (v : tool_info world) :
  map fst (set_tool ts k v)
  = if existsb (String.eqb k) (map fst ts) then map fst ts
    else (map fst ts ++ [k])%list.
Proof.
  induction ts as [|[k0 v0] rest IH]; simpl; [reflexivity|].
  destruct (String.eqb_spec k0 k) as [-> | Hk]; simpl.
  - now rewrite String.eqb_refl.
  - rewrite IH. destruct (String.eqb_spec k k0); [congruence|]. simpl.
    destruct (existsb (String.eqb k) (map fst rest)); reflexivity.
Qed.

Lemma existsb_eqb_In (k : string) (l : list string) :
  existsb (String.eqb k) l = true <-> In k l.
Proof.
  rewrite existsb_exists. split.
  - intros (x & Hx & E). apply String.eqb_eq in E. now subst.
  - intros H. exists k. split; [exact H | apply String.eqb_refl].
Qed.

Lemma set_tool_NoDup (ts : tools_t) (k : string) (v : tool_info world) :
  NoDup (map fst ts) -> NoDup (map fst (set_tool ts k v)).
Proof.
  intros H. rewrite set_tool_keys.
  destruct (existsb (String.eqb k) (map fst ts)) eqn:E; [exact H|].
  apply NoDup_app; [exact H | repeat constructor; simpl; tauto |].
  intros x Hx [<- | []].
  apply existsb_eqb_In in Hx. congruence.
Qed.

(** X11.  Registering a tool and looking tools up: the name registered
    resolves to the new entry, every other name resolves as before, the
    names of the registry stay distinct, and registering under a name that
    is there already replaces the entry in place, the number of entries
    and their order staying as they were (the last registration wins). *)
Theorem register_then_lookup (tools : tools_t) (name description : string)
        (input_schema : json) (method : tool_method world) :
  let tools' := register_tool tools name description input_schema method in
  lookup_tool tools' name
  = Some {| tool_name := name; description := description;
            input_schema := input_schema; method := Some method |}
  /\ (forall other, other <> name -> lookup_tool tools' other = lookup_tool tools other)
  /\ (NoDup (map fst tools) -> NoDup (map fst tools'))
  /\ (In name (map fst tools) -> map fst tools' = map fst tools)
  /\ (~ In name (map fst tools) -> map fst tools' = (map fst tools ++ [name])%list).
Proof.
  intros tools'. subst tools'. unfold register_tool. split; [|split; [|split; [|split]]].
  - rewrite lookup_set_tool, String.eqb_refl. reflexivity.
  - intros other Hne. rewrite lookup_set_tool.
    destruct (String.eqb_spec name other); [congruence | reflexivity].
  - apply set_tool_NoDup.
  - intros Hin. rewrite set_tool_keys.
    apply existsb_eqb_In in Hin. now rewrite Hin.
  - intros Hnot. rewrite set_tool_keys.
    destruct (existsb (String.eqb name) (map fst tools)) eqn:E; [|reflexivity].
    apply existsb_eqb_In in E. contradiction.
Qed.

Lemma collect_tools_lookup (members : list (string * member world)) :
  forall (tools : tools_t) (n : string),
    lookup_tool (collect_tools members tools) n
    = match last_decorated members n with
      | Some (meta, m) => Some (entry_of meta m)
      | None => lookup_tool tools n
      end.
Proof.
  induction members as [|[attr mem] rest IH]; intros tools n; simpl.
  - reflexivity.
  - destruct mem as [meta m|].
    + rewrite IH. destruct (last_decorated rest n) as [[meta' m']|]; [reflexivity|].
      rewrite lookup_set_tool. destruct (String.eqb (_tool_name meta) n); reflexivity.
    + rewrite IH. destruct (last_decorated rest n) as [[meta' m']|]; reflexivity.
Qed.

Lemma collect_tools_NoDup (members : list (string * member world)) :
  forall tools : tools_t,
    NoDup (map fst tools) -> NoDup (map fst (collect_tools members tools)).
Proof.
  induction members as [|[attr mem] rest IH]; intros tools H; simpl.
  - exact H.
  - destruct mem as [meta m|]; apply IH; [apply set_tool_NoDup|]; exact H.
Qed.

Lemma last_decorated_name (members : list (string * member world)) (n : string)
      (meta : tool_metadata) (m : tool_method world) :
  last_decorated members n = Some (meta, m) ->
  _tool_name meta = n /\ exists attr, In (attr, Decorated meta m) members.
Proof.
  induction members as [|[attr mem] rest IH]; simpl; [discriminate|].
  destruct (last_decorated rest n) as [found|].
  - intros H. inversion H; subst. destruct (IH eq_refl) as (Hn & attr' & Hin).
    split; [exact Hn|]. exists attr'. now right.
  - destruct mem as [meta' m'|]; [|discriminate].
    destruct (String.eqb_spec (_tool_name meta') n); [|discriminate].
    intros H. inversion H; subst. split; [reflexivity|]. exists attr. now left.
Qed.

(** X12.  The [_tools] that [tool_box] stores: a tool name resolves
    exactly when some member of the class is a decorated method of that
    name, and then to the entry made from the last such member; the entry
    is filed under the tool name it carries; and no name is listed
    twice. *)
Theorem tool_box_lookup (members : list (string * member world)) (n : string) :
  lookup_tool (tool_box members) n
  = match last_decorated members n with
    | Some (meta, m) => Some (entry_of meta m)
    | None => None
    end
  /\ (forall info, lookup_tool (tool_box members) n = Some info ->
        tool_name info = n
        /\ exists attr meta m,
             In (attr, Decorated meta m) members /\ info = entry_of meta m)
  /\ NoDup (map fst (tool_box members)).
Proof.
  assert (H : lookup_tool (tool_box members) n
              = match last_decorated members n with
                | Some (meta, m) => Some (entry_of meta m)
                | None => None
                end).
  { unfold tool_box. now rewrite collect_tools_lookup. }
  split; [exact H|]. split.
  - intros info Hinfo. rewrite H in Hinfo.
    destruct (last_decorated members n) as [[meta m]|] eqn:E; [|discriminate].
    inversion Hinfo; subst.
    destruct (last_decorated_name members n meta m E) as (Hn & attr & Hin).
    split; [exact Hn|]. exists attr, meta, m. split; [exact Hin | reflexivity].
  - unfold tool_box. apply collect_tools_NoDup. constructor.
Qed.

End Tools.

(** Induction on an annotation, with the hypothesis for the members of a
    union. *)
Lemma py_type_induction (P : py_type -> Prop) :
  P TyStr -> P TyInt -> P TyFloat -> P TyBool -> P TyList -> P TyDict -> P TyNone ->
  (forall origin args, P (TyGeneric origin args)) ->
  (forall args, Forall P args -> P (TyUnion args)) ->
  (forall name, P (TyOther name)) ->
  forall t, P t.
Proof.
  intros H1 H2 H3 H4 H5 H6 H7 Hg Hu Ho. fix IH 1. intros t.
  destruct t as [| | | | | | |origin args|args|name];
    [exact H1 | exact H2 | exact H3 | exact H4 | exact H5 | exact H6 | exact H7
    | apply Hg | | apply Ho].
  apply Hu. induction args as [|a rest IHrest]; constructor.
  - apply IH.
  - exact IHrest.
Qed.

(** X13.  Whatever the annotation, [python_type_to_json_type] gives one
    of the seven JSON Schema type names. *)
Theorem json_type_is_a_schema_type (t : py_type) :
  In (python_type_to_json_type t) json_type_names.
Proof.
  induction t as [| | | | | | |origin args|args H|name] using py_type_induction;
    try (simpl; tauto).
  - destruct origin; simpl; tauto.
  - cbn [python_type_to_json_type].
    assert (Hall : Forall (fun a => In (snd a) json_type_names)
                     (filter (fun a : bool * string => negb (fst a))
                        (map (fun a => (is_none_type a, python_type_to_json_type a))
                           args))).
    { induction H as [|a rest Ha Hrest IH]; simpl; [constructor|].
      destruct (is_none_type a); simpl; [exact IH|]. constructor; [exact Ha | exact IH]. }
    destruct (filter _ _) as [|[b name] [|second rest]]; try (simpl; tauto).
    inversion Hall; subst. assumption.
Qed.

Lemma non_none_members (args : list py_type) :
  filter (fun a : bool * string => negb (fst a))
         (map (fun a => (is_none_type a, python_type_to_json_type a)) args)
  = map (fun a => (false, python_type_to_json_type a))
        (filter (fun a => negb (is_none_type a)) args).
Proof.
  induction args as [|a rest IH]; simpl; [reflexivity|].
  destruct (is_none_type a) eqn:E; simpl; [exact IH|]. now rewrite IH.
Qed.

(** X14.  A union is mapped through its members other than [type(None)]:
    when there is exactly one, the union maps as that member does, however
    many times and wherever [type(None)] occurs beside it, so that
    [Optional[T]] maps as [T]; with none or with several, it maps to
    ["object"]. *)
Theorem union_maps_as_its_member (args : list py_type) :
  match filter (fun a => negb (is_none_type a)) args with
  | [t] => python_type_to_json_type (TyUnion args) = python_type_to_json_type t
  | _ => python_type_to_json_type (TyUnion args) = "object"
  end.
Proof.
  cbn [python_type_to_json_type]. rewrite non_none_members.
  destruct (filter (fun a => negb (is_none_type a)) args) as [|t [|second rest]];
    reflexivity.
Qed.





End RegistryFacts.

(** ** More of the tool utilities *)

Module ToolUtilsMoreFacts.
Import PyStr PyStrFacts ToolUtils AgentIdSpec ToolUtilsFacts ToolUtilsMore Separators.

Lemma three_digits_table :
  forallb (fun k => all_digits (three_digits (Z.of_nat k))) (seq 0 1000) = true.
Proof. vm_compute. reflexivity. Qed.

Lemma three_digits_are_digits (n : Z) :
  0 <= n <= 999 -> all_digits (three_digits n) = true.
Proof.
  intros H. pose proof three_digits_table as T. rewrite forallb_forall in T.
  specialize (T (Z.to_nat n)). rewrite Z2Nat.id in T by lia.
  apply T, in_seq. lia.
Qed.

Lemma isdecimal_digit_char (c : ascii) :
  isdecimal c = true -> c = digit_char (digit_value c) /\ 0 <= digit_value c <= 9.
Proof.
  destruct c as [[] [] [] [] [] [] [] []]; intros H;
    try (vm_compute in H; discriminate H);
    (split; [reflexivity | vm_compute; split; discriminate]).
Qed.

(** Three digits are the three-digit writing of the number they denote. *)
Lemma three_digits_of_digits (a b c : ascii) :
  isdecimal a = true -> isdecimal b = true -> isdecimal c = true ->
  three_digits (decimal_value (String a (String b (String c ""))))
  = String a (String b (String c "")).
Proof.
  intros Ha Hb Hc.
  destruct (isdecimal_digit_char a Ha) as [Ea Ra].
  destruct (isdecimal_digit_char b Hb) as [Eb Rb].
  destruct (isdecimal_digit_char c Hc) as [Ec Rc].
  unfold decimal_value. cbn [decimal_acc].
  set (x := digit_value a) in *. set (y := digit_value b) in *.
  set (z := digit_value c) in *.
  unfold three_digits.
  replace ((10 * (10 * (10 * 0 + x) + y) + z) / 100) with x
    by (apply (Z.div_unique _ 100 x (10 * y + z)); lia).
  replace ((10 * (10 * (10 * 0 + x) + y) + z) / 10) with (10 * x + y)
    by (apply (Z.div_unique _ 10 (10 * x + y) z); lia).
  replace ((10 * x + y) mod 10) with y
    by (apply (Z.mod_unique _ 10 x y); lia).
  replace ((10 * (10 * (10 * 0 + x) + y) + z) mod 10) with z
    by (apply (Z.mod_unique _ 10 (10 * x + y) z); lia).
  now rewrite <- Ea, <- Eb, <- Ec.
Qed.

(** [str.strip] and [int] skip the same characters, the separators
    apart. *)
Lemma isspace_split (c : ascii) : isspace c = int_isspace c || is_separator c.
Proof.
  destruct c as [[] [] [] [] [] [] [] []]; reflexivity.
Qed.

Lemma int_space_not_separator (c : ascii) :
  int_isspace c = true -> is_separator c = false.
Proof.
  destruct c as [[] [] [] [] [] [] [] []]; intros H; try reflexivity;
    vm_compute in H; discriminate H.
Qed.

Lemma isdecimal_not_separator (c : ascii) :
  isdecimal c = true -> is_separator c = false.
Proof.
  destruct c as [[] [] [] [] [] [] [] []]; intros H; try reflexivity;
    vm_compute in H; discriminate H.
Qed.

Lemma digits_have_no_separator (s : string) :
  all_digits s = true -> has_separator s = false.
Proof.
  induction s as [|c r IH]; [reflexivity|]. cbn [all_digits has_separator].
  intros H. apply andb_true_iff in H. destruct H as [Hc Hr].
  now rewrite (isdecimal_not_separator c Hc), (IH Hr).
Qed.

Lemma int_lstrip_no_separator (s : string) :
  has_separator s = false ->
  int_lstrip s = lstrip s /\ has_separator (lstrip s) = false.
Proof.
  induction s as [|c r IH]; [split; reflexivity|].
  cbn [has_separator int_lstrip lstrip]. intros H.
  apply orb_false_iff in H. destruct H as [Hc Hr].
  rewrite isspace_split, Hc, orb_false_r.
  destruct (int_isspace c); [now apply IH|].
  split; [reflexivity|]. cbn [has_separator]. now rewrite Hc, Hr.
Qed.

Lemma int_rstrip_no_separator (s : string) :
  has_separator s = false -> int_rstrip s = rstrip s.
Proof.
  induction s as [|c r IH]; [reflexivity|].
  cbn [has_separator int_rstrip rstrip]. intros H.
  apply orb_false_iff in H. destruct H as [Hc Hr].
  rewrite (IH Hr), isspace_split, Hc, orb_false_r. reflexivity.
Qed.

Lemma int_strip_no_separator (s : string) :
  has_separator s = false -> int_rstrip (int_lstrip s) = strip s.
Proof.
  intros H. destruct (int_lstrip_no_separator s H) as [-> Hl].
  now apply int_rstrip_no_separator.
Qed.

Lemma has_separator_int_lstrip (s : string) :
  has_separator (int_lstrip s) = has_separator s.
Proof.
  induction s as [|c r IH]; [reflexivity|]. cbn [int_lstrip].
  destruct (int_isspace c) eqn:Hc; [|reflexivity].
  cbn [has_separator]. now rewrite (int_space_not_separator c Hc), IH.
Qed.

Lemma has_separator_int_rstrip (s : string) :
  has_separator (int_rstrip s) = has_separator s.
Proof.
  induction s as [|c r IH]; [reflexivity|]. cbn [int_rstrip has_separator].
  rewrite <- IH. destruct (int_rstrip r) as [|c' r'].
  - destruct (int_isspace c) eqn:Hc.
    + now rewrite (int_space_not_separator c Hc).
    + reflexivity.
  - reflexivity.
Qed.

(** [int] skips the white space around a string of digits as [str.strip]
    does, when there is no separator in it. *)
Lemma py_int_stripped_digits (s : string) :
  has_separator s = false ->
  all_digits (strip s) = true -> strip s <> "" ->
  (String.length (strip s) <= 4300)%nat ->
  py_int s = Some (decimal_value (strip s)).
Proof.
  intros Hsep Hd Hne Hlen. unfold py_int. rewrite (int_strip_no_separator s Hsep).
  cbv zeta. pose proof (count_digits_le (strip s)) as Hcount.
  destruct (Nat.ltb_spec int_max_str_digits (count_digits (strip s))) as [Hover | _];
    [unfold int_max_str_digits in Hover; lia|].
  destruct (strip s) as [|c r]; [congruence|].
  pose proof Hd as Hd'. simpl in Hd'. apply andb_true_iff in Hd'.
  destruct Hd' as [Hc _].
  transitivity (int_digits 0 false (String c r)).
  - destruct c as [[] [] [] [] [] [] [] []]; try reflexivity;
      vm_compute in Hc; discriminate.
  - apply int_digits_value; [exact Hd | right; discriminate].
Qed.

(** A separator is nothing [int] reads. *)
Lemma int_digits_separator (t : string) (acc : Z) (after_digit : bool) :
  has_separator t = true -> int_digits acc after_digit t = None.
Proof.
  revert acc after_digit. induction t as [|c r IH]; intros acc b H; [discriminate H|].
  cbn [has_separator] in H. cbn [int_digits].
  destruct (isdecimal c) eqn:Hc.
  { rewrite (isdecimal_not_separator c Hc) in H. now apply IH. }
  destruct (Ascii.eqb_spec c "_") as [-> | Hu]; [|reflexivity].
  destruct b; [|reflexivity]. cbn [andb]. now apply IH.
Qed.

Lemma py_int_separator (s : string) : has_separator s = true -> py_int s = None.
Proof.
  intros H. unfold py_int. cbv zeta.
  destruct (int_max_str_digits <? count_digits (int_rstrip (int_lstrip s)))%nat;
    [reflexivity|].
  assert (Ht : has_separator (int_rstrip (int_lstrip s)) = true)
    by now rewrite has_separator_int_rstrip, has_separator_int_lstrip.
  destruct (int_rstrip (int_lstrip s)) as [|c r]; [discriminate Ht|].
  pose proof (int_digits_separator _ 0 false Ht) as Hall.
  assert (Hrest : is_separator c = false -> int_digits 0 false r = None).
  { intros Hc. cbn [has_separator] in Ht. rewrite Hc in Ht.
    now apply int_digits_separator. }
  destruct c as [[] [] [] [] [] [] [] []]; try exact Hall;
    rewrite (Hrest eq_refl); reflexivity.
Qed.

Lemma numeric_parts (t : string) :
  is_numeric_1_3 t = true ->
  all_digits t = true /\ t <> "" /\ (String.length t <= 3)%nat.
Proof.
  unfold is_numeric_1_3. intros E.
  apply andb_true_iff in E. destruct E as [E H3].
  apply andb_true_iff in E. destruct E as [Hd H1].
  apply Nat.leb_le in H3. repeat split; try assumption.
  intros ->. discriminate H1.
Qed.

(** [format_agent_id] of [__init__.py] on the two kinds of input. *)
Lemma format_agent_id_numeric (s : string) :
  is_numeric_1_3 (strip s) = true ->
  ToolUtils.format_agent_id s = (three_digits (decimal_value (strip s)), None).
Proof.
  intros E. unfold ToolUtils.format_agent_id. cbv zeta.
  rewrite match_stripped, E.
  destruct (numeric_parts _ E) as (Hd & Hne & Hlen).
  rewrite (py_int_digits _ Hd Hne ltac:(lia)).
  pose proof (numeric_value_range _ E) as R.
  replace ((0 <=? decimal_value (strip s)) && (decimal_value (strip s) <=? 999))
    with true by (symmetry; apply andb_true_iff; split; apply Z.leb_le; lia).
  now rewrite (format_03d_three_digits _ R).
Qed.

Lemma format_agent_id_not_numeric (s : string) :
  is_numeric_1_3 (strip s) = false ->
  exists msg, ToolUtils.format_agent_id s = ("", Some msg).
Proof.
  intros E. unfold ToolUtils.format_agent_id. cbv zeta.
  rewrite match_stripped, E. eexists. reflexivity.
Qed.

Lemma strip_keeps_first (c : ascii) (r : string) :
  isspace c = false -> exists r', strip (String c r) = String c r'.
Proof.
  intros Hc. unfold strip. cbn [lstrip]. rewrite Hc. cbn [rstrip].
  destruct (rstrip r) as [|c' r'].
  - rewrite Hc. now exists "".
  - now exists (String c' r').
Qed.

Lemma numeric_has_no_prefix (s : string) :
  is_numeric_1_3 (strip s) = true -> ToolUtils2.strip_prefix "agent/" s = None.
Proof.
  intros E. destruct (numeric_parts _ E) as (Hd & _ & _).
  destruct s as [|c r]; [reflexivity|].
  cbn [ToolUtils2.strip_prefix]. destruct (Ascii.eqb_spec "a" c) as [<- | Hc];
    [|reflexivity].
  destruct (strip_keeps_first "a" r eq_refl) as [r' Hr'].
  rewrite Hr' in Hd. discriminate Hd.
Qed.

(** X16.  [format_agent_id] of [utils.py] either gives an id of exactly
    three decimal digits and no message, or the empty string and a
    message. *)
Theorem utils_format_agent_id_cases (agent_id : string) :
  match snd (ToolUtils2.format_agent_id agent_id) with
  | None =>
      all_digits (fst (ToolUtils2.format_agent_id agent_id)) = true
      /\ String.length (fst (ToolUtils2.format_agent_id agent_id)) = 3%nat
  | Some _ => fst (ToolUtils2.format_agent_id agent_id) = ""
  end.
Proof.
  unfold ToolUtils2.format_agent_id.
  destruct (String.eqb agent_id ""); [reflexivity|]. cbv zeta.
  set (id := match ToolUtils2.strip_prefix "agent/" agent_id with
             | Some rest => rest
             | None => agent_id
             end).
  destruct (ToolUtils2.fullmatch_3_digits id) eqn:Hm.
  - cbn [fst snd].
    destruct id as [|a [|b [|c [|d r]]]]; try discriminate Hm.
    cbn [ToolUtils2.fullmatch_3_digits] in Hm.
    apply andb_true_iff in Hm. destruct Hm as [Hm Hc].
    apply andb_true_iff in Hm. destruct Hm as [Ha Hb].
    cbn [all_digits]. now rewrite Ha, Hb, Hc.
  - destruct (py_int id) as [n|]; [|reflexivity].
    destruct ((0 <=? n) && (n <=? 999)) eqn:R; [|reflexivity].
    apply andb_true_iff in R. destruct R as [R1 R2].
    apply Z.leb_le in R1, R2. cbn [fst snd].
    rewrite (format_03d_three_digits n) by lia.
    split; [apply three_digits_are_digits; lia | reflexivity].
Qed.

(** X17.  Where the [format_agent_id] of [__init__.py] accepts its
    input, the one of [utils.py] formats it to the same id, unless the
    input holds one of the separators U+001C..U+001F.  These are white
    space for the [strip] of the first and nothing [int] reads in the
    second, which rejects the input as badly formatted. *)
Theorem format_agent_id_variants_agree (agent_id : string)
        (Hok : snd (ToolUtils.format_agent_id agent_id) = None) :
  (has_separator agent_id = false ->
   ToolUtils2.format_agent_id agent_id = ToolUtils.format_agent_id agent_id)
  /\ (has_separator agent_id = true ->
      ToolUtils2.format_agent_id agent_id
      = ("", Some ("Invalid agent ID format: '" ++ agent_id
                   ++ "'. Expected '001' or an integer."))).
Proof.
  destruct (is_numeric_1_3 (strip agent_id)) eqn:E.
  2:{ destruct (format_agent_id_not_numeric _ E) as [msg Hmsg].
      rewrite Hmsg in Hok. discriminate Hok. }
  rewrite (format_agent_id_numeric _ E).
  destruct (numeric_parts _ E) as (Hd & Hne & Hlen).
  unfold ToolUtils2.format_agent_id.
  destruct (String.eqb_spec agent_id "") as [-> | _]; [now elim Hne|].
  rewrite (numeric_has_no_prefix _ E). cbv zeta.
  destruct (ToolUtils2.fullmatch_3_digits agent_id) eqn:Hm.
  - destruct agent_id as [|a [|b [|c [|d r]]]]; try discriminate Hm.
    cbn [ToolUtils2.fullmatch_3_digits] in Hm.
    apply andb_true_iff in Hm. destruct Hm as [Hm Hc].
    apply andb_true_iff in Hm. destruct Hm as [Ha Hb].
    assert (Hall : all_digits (String a (String b (String c ""))) = true)
      by (cbn [all_digits]; now rewrite Ha, Hb, Hc).
    split.
    + intros _. rewrite (strip_digits _ Hall). now rewrite three_digits_of_digits.
    + intros Hsep. rewrite (digits_have_no_separator _ Hall) in Hsep.
      discriminate Hsep.
  - split.
    + intros Hsep. rewrite (py_int_stripped_digits _ Hsep Hd Hne ltac:(lia)).
      pose proof (numeric_value_range _ E) as R.
      replace ((0 <=? decimal_value (strip agent_id))
               && (decimal_value (strip agent_id) <=? 999))
        with true by (symmetry; apply andb_true_iff; split; apply Z.leb_le; lia).
      now rewrite (format_03d_three_digits _ R).
    + intros Hsep. now rewrite (py_int_separator _ Hsep).
Qed.

Lemma format_agent_id_variants_agree_witness :
  (snd (ToolUtils.format_agent_id " 7 ") = None
   /\ ToolUtils2.format_agent_id " 7 " = ("007", None))
  /\ (ToolUtils.format_agent_id (String (chr 28) "5") = ("005", None)
      /\ ToolUtils2.format_agent_id (String (chr 28) "5")
         = ("", Some ("Invalid agent ID format: '" ++ String (chr 28) "5"
                      ++ "'. Expected '001' or an integer."))).
Proof.
  split.
  - assert (Hok : snd (ToolUtils.format_agent_id " 7 ") = None) by reflexivity.
    split; [exact Hok|].
    destruct (format_agent_id_variants_agree " 7 " Hok) as [Hsame _].
    rewrite (Hsame eq_refl). reflexivity.
  - assert (Hok : snd (ToolUtils.format_agent_id (String (chr 28) "5")) = None)
      by reflexivity.
    split; [reflexivity|].
    destruct (format_agent_id_variants_agree (String (chr 28) "5") Hok) as [_ Hdiffer].
    exact (Hdiffer eq_refl).
Defined.

Lemma take_length (n : nat) (s : string) :
  String.length (take n s) = Nat.min n (String.length s).
Proof.
  revert s. induction n as [|n IH]; intros [|c r]; simpl; try reflexivity.
  now rewrite IH.
Qed.

(** X18.  [truncate_text] gives the text itself when it is not longer
    than [max_length].  A longer text is cut to its first
    [max_length - 3] characters followed by three dots, which makes
    exactly [max_length] characters, as long as [max_length] is at least
    3; below 3 the result is longer than [max_length].  The variant of
    [utils.py] gives the same result, except on the empty text with a
    negative [max_length], which it returns as it is. *)
Theorem truncate_text_length (text : string) (max_length : Z) :
  let len := Z.of_nat (String.length text) in
  let result := truncate_text text max_length in
  (len <= max_length -> result = text)
  /\ (max_length < len -> 3 <= max_length ->
      result = take (Z.to_nat (max_length - 3)) text ++ "..."
      /\ Z.of_nat (String.length result) = max_length)
  /\ (max_length < len -> max_length < 3 ->
      max_length < Z.of_nat (String.length result))
  /\ (text <> "" \/ 0 <= max_length ->
      ToolUtils2.truncate_text text max_length = result)
  /\ (max_length < 0 ->
      truncate_text "" max_length = "..."
      /\ ToolUtils2.truncate_text "" max_length = "").
Proof.
  intros len result. subst len result. unfold truncate_text.
  split; [|split; [|split; [|split]]].
  - intros H. apply Z.leb_le in H. now rewrite H.
  - intros Hlong Hmax.
    destruct (Z.leb_spec (Z.of_nat (String.length text)) max_length); [lia|].
    unfold slice_to. destruct (Z.leb_spec 0 (max_length - 3)); [|lia].
    split; [reflexivity|].
    rewrite length_append, take_length. cbn [String.length]. lia.
  - intros Hlong Hmax.
    destruct (Z.leb_spec (Z.of_nat (String.length text)) max_length); [lia|].
    rewrite length_append. cbn [String.length]. lia.
  - intros H. unfold ToolUtils2.truncate_text.
    destruct (String.eqb_spec text "") as [-> | Hne]; [|reflexivity].
    destruct H as [H | H]; [congruence|]. cbn [String.length orb].
    destruct (Z.leb_spec (Z.of_nat 0) max_length); [reflexivity | lia].
  - intros H. unfold ToolUtils2.truncate_text. cbn [String.length String.eqb orb].
    destruct (Z.leb_spec (Z.of_nat 0) max_length); [lia|].
    unfold slice_to. destruct (Z.leb_spec 0 (max_length - 3)); [lia|].
    cbn [String.length]. split; [|reflexivity].
    destruct (Z.to_nat (Z.of_nat 0 + (max_length - 3))); reflexivity.
Qed.

Lemma filter_loop_closed (fl : string) (ports acc : list Port) :
  filter_loop fl ports acc
  = (acc ++ filter (fun p => has_state p
                             && (if String.eqb fl "listening" then listens p
                                 else negb (listens p))) ports)%list.
Proof.
  revert acc. induction ports as [|p rest IH]; intros acc.
  - cbn. now rewrite app_nil_r.
  - cbn [filter_loop filter]. unfold has_state, listens.
    destruct (state p) as [[|c s]|].
    + cbn. apply IH.
    + cbn [String.eqb negb andb is_listening is_not_listening orb].
      destruct (String.eqb fl "listening");
        destruct (String.eqb (lower (String c s)) "listening"); cbn [negb];
        rewrite IH; try reflexivity; now rewrite <- app_assoc.
    + cbn [negb andb is_listening is_not_listening].
      destruct (String.eqb fl "listening"); cbn [negb];
        rewrite IH; try reflexivity; now rewrite <- app_assoc.
Qed.

(** X19.  [filter_ports_by_state] with a non-empty filter keeps, in their
    order, the ports whose state is not the empty string and which are
    listening, when the filter reads [listening] in any case, or not
    listening, for every other filter: the filter's value matters no
    further, two filters that do not read [listening] select the same
    ports, and a port whose state is not empty is selected by the filter
    [LISTENING] exactly when it is not selected by the other filters.
    With the empty filter the ports come back as they are. *)
Theorem ports_are_split_by_listening (ports : list Port) (state_filter : string)
        (Hfilter : state_filter <> "") :
  filter_ports_by_state ports "" = ports
  /\ filter_ports_by_state ports state_filter
     = filter (fun p => has_state p
                        && (if String.eqb (lower state_filter) "listening"
                            then listens p else negb (listens p))) ports
  /\ (forall p, In p (filter_ports_by_state ports state_filter) ->
        In p ports /\ state p <> Some "")
  /\ (lower state_filter <> "listening" ->
      (forall other, other <> "" -> lower other <> "listening" ->
         filter_ports_by_state ports other = filter_ports_by_state ports state_filter)
      /\ forall p, In p ports -> state p <> Some "" ->
           (In p (filter_ports_by_state ports "LISTENING")
            <-> ~ In p (filter_ports_by_state ports state_filter))).
Proof.
  assert (Hclosed : forall f, f <> "" ->
             filter_ports_by_state ports f
             = filter (fun p => has_state p
                                && (if String.eqb (lower f) "listening"
                                    then listens p else negb (listens p))) ports).
  { intros f Hf. unfold filter_ports_by_state.
    destruct (String.eqb_spec f ""); [contradiction|].
    now rewrite filter_loop_closed. }
  assert (Hstate : forall p, state p <> Some "" <-> has_state p = true).
  { intros p. unfold has_state. destruct (state p) as [[|c s]|]; cbn;
      split; intros H; congruence. }
  split; [reflexivity|]. split; [apply Hclosed; exact Hfilter|]. split.
  - intros p Hin. rewrite (Hclosed _ Hfilter) in Hin. apply filter_In in Hin.
    destruct Hin as [Hin Hk]. split; [exact Hin|].
    apply Hstate. apply andb_true_iff in Hk. tauto.
  - intros Hnot.
    assert (Hf : String.eqb (lower state_filter) "listening" = false)
      by (now apply String.eqb_neq).
    split.
    + intros other Hother Hl. rewrite (Hclosed _ Hother), (Hclosed _ Hfilter), Hf.
      apply String.eqb_neq in Hl. now rewrite Hl.
    + intros p Hin Hs. apply Hstate in Hs.
      rewrite (Hclosed "LISTENING") by discriminate.
      rewrite (Hclosed _ Hfilter), Hf. rewrite !filter_In, Hs.
      change (String.eqb (lower "LISTENING") "listening") with true. cbn [andb].
      destruct (listens p); cbn [negb]; intuition congruence.
Qed.

Lemma ports_are_split_by_listening_witness :
  "ESTABLISHED" <> ""
  /\ filter_ports_by_state SamplePorts.ports "ESTABLISHED"
     = [SamplePorts.port_in (Some "established") 443; SamplePorts.port_in None 68]
  /\ filter_ports_by_state SamplePorts.ports "closed"
     = filter_ports_by_state SamplePorts.ports "ESTABLISHED".
Proof.
  assert (Hf : "ESTABLISHED" <> "") by discriminate.
  split; [exact Hf|].
  destruct (ports_are_split_by_listening SamplePorts.ports "ESTABLISHED" Hf)
    as (_ & Hclosed & _ & Hother).
  split.
  - rewrite Hclosed. reflexivity.
  - destruct Hother as [Hsame _]; [discriminate|].
    apply Hsame; discriminate.
Defined.

End ToolUtilsMoreFacts.

(** ** The Wazuh client: authentication and the reading of answers *)

Module WazuhMoreFacts.
Import PyStr Json Wazuh WazuhMore WazuhFacts.

Lemma get_default_some (d : list (string * json)) (k : string) (default v : json) :
  dict_get d k = Some v -> get_default d k default = v.
Proof. intros H. unfold get_default. now rewrite H. Qed.

Lemma get_default_none (d : list (string * json)) (k : string) (default : json) :
  dict_get d k = None -> get_default d k default = default.
Proof. intros H. unfold get_default. now rewrite H. Qed.

Section ClientMore.

Variable remote : Type.
Variable post :
  remote -> string -> string -> string -> headers_t -> (exn + Response) * remote.
Variable request :
  remote -> string -> string -> headers_t -> json -> json -> (exn + Response) * remote.
Variable loads : string -> exn + json.
Variable py_repr : json -> string.
Variable urljoin : string -> string -> string.

Abbreviation state := (Wazuh.state remote).
Abbreviation authenticate := (Wazuh.authenticate remote post urljoin).
Abbreviation ensure_token := (Wazuh.ensure_token remote post urljoin).
Abbreviation attempt := (Wazuh.attempt remote post request loads py_repr urljoin).
Abbreviation _make_request :=
  (Wazuh._make_request remote post request loads py_repr urljoin).
Abbreviation auth_call := (Wazuh.auth_call urljoin).
Abbreviation bearer := (Wazuh.bearer py_repr).
Abbreviation request_headers := (Wazuh.request_headers py_repr).
Abbreviation get_cluster_status :=
  (WazuhMore.get_cluster_status remote post request loads py_repr urljoin).

(** X20.  [authenticate] with a session makes one POST with the
    credentials and reads the answer as follows.  A connection failure
    is a [WazuhApiError] with status 503; a status other than 200 is a
    [WazuhApiError] with that status and, in its message, the status and
    the body; a 200 whose body is an object stores and returns what is
    under [data.token], and [None] when there is no [data] or no [token]
    in it, without an error. *)
Theorem authenticate_contract (st : state) (answer : exn + Response) (net1 : remote)
        (Hs : _session (self st) = true)
        (Hpost : post (net st) (urljoin (base_url (self st)) "/security/user/authenticate")
                      (username (self st)) (password (self st))
                      [("Content-Type", "application/json")] = (answer, net1)) :
  let st1 := record_call st net1 (auth_call (self st)) in
  (forall msg,
      answer = inl (ClientError msg) ->
      authenticate st
      = (inl (WazuhApiError ("Connection error during authentication: " ++ msg)
                            (Some 503)), st1))
  /\ (forall resp body,
        answer = inr resp -> status resp <> 200 -> text resp = inr body ->
        authenticate st
        = (inl (WazuhApiError ("Authentication failed: " ++ str_of_int (status resp)
                               ++ " - " ++ body) (Some (status resp))), st1))
  /\ (forall resp d inner,
        answer = inr resp -> status resp = 200 -> json_body resp = inr (JDict d) ->
        dict_get d "data" = Some (JDict inner) ->
        authenticate st
        = (inr (get inner "token"), store_token st1 (get inner "token")))
  /\ (forall resp d,
        answer = inr resp -> status resp = 200 -> json_body resp = inr (JDict d) ->
        dict_get d "data" = None ->
        authenticate st = (inr JNull, store_token st1 JNull)).
Proof.
  intros st1.
  assert (Hrun : forall resp, answer = inr resp ->
            authenticate st
            = except_client_error
                (bind (fun s => (inr resp, s))
                      (fun response =>
                         if status response =? 200 then
                           bind (lift (json_body response))
                                (fun data =>
                                   match data with
                                   | JDict d =>
                                       match get_default d "data" (JDict []) with
                                       | JDict inner =>
                                           bind (set_token (get inner "token"))
                                                (fun _ => ret (get inner "token"))
                                       | other => raise (attribute_error other)
                                       end
                                   | _ => raise (attribute_error data)
                                   end)
                         else
                           bind (lift (text response))
                                (fun error_text =>
                                   raise (WazuhApiError
                                            ("Authentication failed: "
                                             ++ str_of_int (status response)
                                             ++ " - " ++ error_text)
                                            (Some (status response))))))
                (fun text =>
                   WazuhApiError ("Connection error during authentication: " ++ text)
                                 (Some 503)) st1).
  { intros resp ->. unfold Wazuh.authenticate, bind at 1, get_self. rewrite Hs.
    cbn [negb]. unfold except_client_error, bind at 1, do_post. rewrite Hpost.
    unfold bind at 3. reflexivity. }
  split; [|split; [|split]].
  - intros msg ->. unfold Wazuh.authenticate, bind at 1, get_self. rewrite Hs.
    cbn [negb]. unfold except_client_error, bind at 1, do_post. rewrite Hpost.
    reflexivity.
  - intros resp body E H200 Hbody. rewrite (Hrun resp E).
    unfold except_client_error, bind, lift, raise, ret. rewrite Hbody.
    destruct (Z.eqb_spec (status resp) 200); [contradiction | reflexivity].
  - intros resp d inner E H200 Hjson Hdata. rewrite (Hrun resp E).
    unfold except_client_error, bind, lift, raise, ret, set_token.
    rewrite H200, Hjson. cbn [Z.eqb Pos.eqb].
    unfold get_default. rewrite Hdata. reflexivity.
  - intros resp d E H200 Hjson Hdata. rewrite (Hrun resp E).
    unfold except_client_error, bind, lift, raise, ret, set_token.
    rewrite H200, Hjson. cbn [Z.eqb Pos.eqb].
    unfold get_default. rewrite Hdata. reflexivity.
Qed.

(** X21.  Without a session nothing is sent: [authenticate] and
    [_make_request] both raise the same [WazuhApiError] without a status
    and leave the client, the remote and the record of calls as they
    were. *)
Theorem no_session_no_call (st : state) (method endpoint : string)
        (params json_data : json)
        (Hs : _session (self st) = false) :
  authenticate st = (inl no_session, st)
  /\ _make_request method endpoint params json_data st = (inl no_session, st).
Proof.
  split.
  - unfold Wazuh.authenticate, bind, get_self. rewrite Hs. reflexivity.
  - apply make_request_prologue_fails.
    unfold Wazuh.ensure_token, bind, get_self. rewrite Hs. reflexivity.
Qed.

Lemma ensure_token_held (st : state) :
  _session (self st) = true -> truthy (token (self st)) = true ->
  ensure_token st = (inr tt, st).
Proof.
  intros Hs Ht. unfold Wazuh.ensure_token, bind, get_self. rewrite Hs, Ht.
  reflexivity.
Qed.

Lemma attempt_ok (method url : string) (headers : headers_t) (params json_data : json)
      (st1 : state) (resp : Response) (body : string) (net1 : remote) (v : json) :
  request (net st1) method url headers params json_data = (inr resp, net1) ->
  text resp = inr body -> status resp = 200 -> loads body = inr v ->
  attempt method url headers params json_data st1
  = (inr v, record_call st1 net1 (ResourceCall method url headers params json_data)).
Proof.
  intros H Ht H200 Hv.
  unfold Wazuh.attempt, except_client_error, bind, do_request, lift.
  rewrite H, Ht. unfold ret. rewrite H200. cbn [Z.eqb Pos.eqb]. rewrite Hv.
  reflexivity.
Qed.

Lemma attempt_not_json (method url : string) (headers : headers_t)
      (params json_data : json)
      (st1 : state) (resp : Response) (body : string) (net1 : remote) :
  request (net st1) method url headers params json_data = (inr resp, net1) ->
  text resp = inr body -> status resp = 200 -> loads body = inl JSONDecodeError ->
  attempt method url headers params json_data st1
  = (inl (WazuhApiError ("Invalid JSON response: " ++ body) None),
     record_call st1 net1 (ResourceCall method url headers params json_data)).
Proof.
  intros H Ht H200 Hv.
  unfold Wazuh.attempt, except_client_error, bind, do_request, lift.
  rewrite H, Ht. unfold ret. rewrite H200. cbn [Z.eqb Pos.eqb]. rewrite Hv.
  reflexivity.
Qed.

(** X22.  A held token is used as it is: with a session and a token, a
    request answered 200 with a decodable body is the only call made (no
    authentication), it carries the held token as its bearer, the token
    stays, and the decoded body is returned. *)
Theorem held_token_is_reused (st : state) (method endpoint : string)
        (params json_data : json) (resp : Response) (body : string)
        (net1 : remote) (v : json)
        (Hs : _session (self st) = true)
        (Htoken : truthy (token (self st)) = true)
        (Hreq : request (net st) method (urljoin (base_url (self st)) endpoint)
                        [("Authorization", bearer (token (self st)));
                         ("Content-Type", "application/json")]
                        params json_data = (inr resp, net1))
        (Hbody : text resp = inr body)
        (H200 : status resp = 200)
        (Hv : loads body = inr v) :
  let run := _make_request method endpoint params json_data st in
  fst run = inr v
  /\ calls (snd run)
     = (calls st
        ++ [ResourceCall method (urljoin (base_url (self st)) endpoint)
              [("Authorization", bearer (token (self st)));
               ("Content-Type", "application/json")]
              params json_data])%list
  /\ self (snd run) = self st.
Proof.
  intros run. subst run.
  rewrite (make_request_after_prologue remote post request loads py_repr urljoin
             st st method endpoint params json_data (ensure_token_held st Hs Htoken)).
  unfold Wazuh.request_headers.
  rewrite (attempt_ok method _ _ params json_data st resp body net1 v Hreq Hbody H200 Hv).
  repeat split.
Qed.

(** X23.  The first use authenticates: with a session and no token,
    [_make_request] starts with one authentication.  If it fails, its
    error is what the caller gets and the request itself is never sent;
    if it succeeds, the request goes out with the fresh token as its
    bearer. *)
Theorem first_use_authenticates (st : state) (method endpoint : string)
        (params json_data : json)
        (Hs : _session (self st) = true)
        (Htoken : truthy (token (self st)) = false) :
  let run := _make_request method endpoint params json_data st in
  (forall e st1,
      authenticate st = (inl e, st1) ->
      run = (inl e, st1)
      /\ calls st1 = (calls st ++ [auth_call (self st)])%list)
  /\ (forall tok st1,
        authenticate st = (inr tok, st1) ->
        run = attempt method (urljoin (base_url (self st)) endpoint)
                      [("Authorization", bearer tok);
                       ("Content-Type", "application/json")]
                      params json_data st1
        /\ calls st1 = (calls st ++ [auth_call (self st)])%list).
Proof.
  intros run. subst run. split.
  - intros e st1 Ha.
    destruct (authenticate_calls remote post urljoin st st1 _ Hs Ha) as (Hc & _).
    split; [|exact Hc].
    apply make_request_prologue_fails.
    unfold Wazuh.ensure_token, bind at 1, get_self. rewrite Hs, Htoken. cbn [negb].
    unfold bind. rewrite Ha. reflexivity.
  - intros tok st1 Ha.
    destruct (authenticate_calls remote post urljoin st st1 _ Hs Ha)
      as (Hc & _ & Htok & _).
    split; [|exact Hc].
    rewrite (make_request_after_prologue remote post request loads py_repr urljoin
               st st1 method endpoint params json_data).
    + unfold Wazuh.request_headers. rewrite (Htok tok eq_refl).
      destruct (authenticate_outcome remote post urljoin st Hs)
        as [net1 [(e & He & _) | (tok' & Hok)]].
      * rewrite He in Ha. discriminate Ha.
      * rewrite Hok in Ha. inversion Ha; subst. reflexivity.
    + unfold Wazuh.ensure_token, bind at 1, get_self. rewrite Hs, Htoken. cbn [negb].
      unfold bind. rewrite Ha. reflexivity.
Qed.

(** X24.  A 200 answer whose body is not JSON is reported in two ways.
    On the first request it is a [WazuhApiError] without a status whose
    message holds the body; on the retry after a 401 the decoder's own
    [JSONDecodeError] reaches the caller. *)
Theorem undecodable_body (st st1 : state) (method endpoint : string)
        (params json_data : json)
        (Hprologue : ensure_token st = (inr tt, st1)) :
  let run := _make_request method endpoint params json_data st in
  let url := urljoin (base_url (self st1)) endpoint in
  let headers := request_headers (self st1) in
  let first := ResourceCall method url headers params json_data in
  (forall resp body net1,
      request (net st1) method url headers params json_data = (inr resp, net1) ->
      text resp = inr body -> status resp = 200 -> loads body = inl JSONDecodeError ->
      run = (inl (WazuhApiError ("Invalid JSON response: " ++ body) None),
             record_call st1 net1 first))
  /\ (forall resp body net1 tok st3 r retry_text net4,
        request (net st1) method url headers params json_data = (inr resp, net1) ->
        text resp = inr body -> status resp = 401 ->
        authenticate (store_token (record_call st1 net1 first) JNull) = (inr tok, st3) ->
        request (net st3) method url (set_header headers "Authorization" (bearer tok))
                params json_data = (inr r, net4) ->
        text r = inr retry_text -> status r = 200 -> loads retry_text = inl JSONDecodeError ->
        fst run = inl JSONDecodeError).
Proof.
  intros run url headers first.
  assert (Hrun : run = attempt method url headers params json_data st1)
    by (apply make_request_after_prologue; exact Hprologue).
  destruct (ensure_token_calls remote post urljoin st st1 _ Hprologue) as (_ & Hs).
  specialize (Hs eq_refl).
  rewrite Hrun. split.
  - intros resp body net1 Hreq Hbody H200 Hv. now apply (attempt_not_json _ _ _ _ _ _ resp).
  - intros resp body net1 tok st3 r retry_text net4 Hreq Hbody H401 Ha Hr Ht H200 Hv.
    rewrite (attempt_retry remote post request loads py_repr urljoin
               method url headers params json_data st1
               resp body net1 Hreq Hbody H401 tok st3 Hs Ha).
    rewrite Hr, Ht, H200, Hv. reflexivity.
Qed.

Lemma ensure_token_base_url (st st1 : state) (r : exn + unit) :
  ensure_token st = (r, st1) -> base_url (self st1) = base_url (self st).
Proof.
  unfold Wazuh.ensure_token, bind at 1, get_self.
  destruct (_session (self st)) eqn:Hs; cbn [negb].
  - destruct (truthy (token (self st))); cbn [negb].
    + unfold ret. intros H. now inversion H.
    + unfold bind, ret.
      destruct (authenticate_outcome remote post urljoin st Hs)
        as [net1 [(e & He & _) | (tok & Hok)]].
      * rewrite He. intros H. now inversion H.
      * rewrite Hok. intros H. now inversion H.
  - unfold raise. intros H. now inversion H.
Qed.

(** The requests that can give [attempt] its value. *)
Lemma attempt_value (method url : string) (headers : headers_t)
      (params json_data : json) (st1 : state) (v : json) :
  _session (self st1) = true ->
  fst (attempt method url headers params json_data st1) = inr v ->
  exists st' headers' resp net' body,
    request (net st') method url headers' params json_data = (inr resp, net')
    /\ status resp = 200 /\ text resp = inr body /\ loads body = inr v
    /\ snd (attempt method url headers params json_data st1)
       = record_call st' net' (ResourceCall method url headers' params json_data).
Proof.
  intros Hs.
  destruct (request (net st1) method url headers params json_data)
    as [[e | resp] net1] eqn:Hreq.
  { unfold Wazuh.attempt, except_client_error, bind at 1, do_request.
    rewrite Hreq. destruct e; discriminate. }
  destruct (text resp) as [e | body] eqn:Hbody.
  { unfold Wazuh.attempt, except_client_error, bind, do_request, lift.
    rewrite Hreq, Hbody. destruct e; discriminate. }
  destruct (Z.eq_dec (status resp) 200) as [H200 | H200].
  { destruct (loads body) as [e | v'] eqn:Hv.
    - unfold Wazuh.attempt, except_client_error, bind, do_request, lift.
      rewrite Hreq, Hbody. unfold ret. rewrite H200. cbn [Z.eqb Pos.eqb].
      rewrite Hv. destruct e; discriminate.
    - rewrite (attempt_ok method url headers params json_data st1 resp body net1 v'
                 Hreq Hbody H200 Hv).
      cbn [fst snd]. intros E. inversion E; subst.
      exists st1, headers, resp, net1, body. auto. }
  destruct (Z.eq_dec (status resp) 401) as [H401 | H401].
  2:{ rewrite (attempt_status_error remote post request loads py_repr urljoin
                 method url headers params json_data st1 resp body net1
                 Hreq Hbody H200 H401).
      discriminate. }
  destruct (authenticate (store_token
                            (record_call st1 net1
                               (ResourceCall method url headers params json_data)) JNull))
    as [[e | tok] st3] eqn:Ha.
  { rewrite (attempt_reauth_fails remote post request loads py_repr urljoin
               method url headers params json_data st1 resp body net1
               Hreq Hbody H401 e st3 Hs Ha).
    discriminate. }
  rewrite (attempt_retry remote post request loads py_repr urljoin
             method url headers params json_data st1 resp body net1
             Hreq Hbody H401 tok st3 Hs Ha).
  destruct (request (net st3) method url (set_header headers "Authorization" (bearer tok))
                    params json_data) as [[e | r] net4] eqn:Hr.
  { destruct e; discriminate. }
  destruct (text r) as [e | retry_text] eqn:Ht.
  { destruct e; discriminate. }
  destruct (Z.eqb_spec (status r) 200) as [Hr200 | Hr200]; [|discriminate].
  destruct (loads retry_text) as [e | v'] eqn:Hv; [destruct e; discriminate|].
  cbn [fst snd]. intros E. inversion E; subst.
  exists st3, (set_header headers "Authorization" (bearer tok)), r, net4, retry_text.
  auto.
Qed.

(** X25.  [_make_request] returns a value only as the decoded body of a
    request to the joined url that was answered with status 200, and that
    request is the last call it makes: no other status, not even another
    2xx, and no failure on the way ever yields a value. *)
Theorem value_only_after_200 (st : state) (method endpoint : string)
        (params json_data : json) (v : json)
        (Hvalue : fst (_make_request method endpoint params json_data st) = inr v) :
  exists st' headers resp net' body,
    let url := urljoin (base_url (self st)) endpoint in
    request (net st') method url headers params json_data = (inr resp, net')
    /\ status resp = 200 /\ text resp = inr body /\ loads body = inr v
    /\ snd (_make_request method endpoint params json_data st)
       = record_call st' net' (ResourceCall method url headers params json_data).
Proof.
  destruct (ensure_token st) as [[e | []] st1] eqn:He.
  - rewrite (make_request_prologue_fails remote post request loads py_repr urljoin
               st st1 e method endpoint params json_data He) in Hvalue.
    discriminate Hvalue.
  - destruct (ensure_token_calls remote post urljoin st st1 _ He) as (_ & Hs).
    specialize (Hs eq_refl).
    rewrite (make_request_after_prologue remote post request loads py_repr urljoin
               st st1 method endpoint params json_data He) in *.
    rewrite (ensure_token_base_url st st1 _ He) in *.
    exact (attempt_value method _ _ params json_data st1 v Hs Hvalue).
Qed.

(** X26.  A success status other than 200 is a failure for the client: a
    first answer in 201..299 ends in a [WazuhApiError] that carries that
    status, after that one call. *)
Theorem other_success_status_is_an_error (st st1 : state) (method endpoint : string)
        (params json_data : json) (resp : Response) (body : string) (net1 : remote)
        (Hprologue : ensure_token st = (inr tt, st1))
        (Hreq : request (net st1) method (urljoin (base_url (self st1)) endpoint)
                        (request_headers (self st1)) params json_data = (inr resp, net1))
        (Hbody : text resp = inr body)
        (Hstatus : 200 < status resp <= 299) :
  _make_request method endpoint params json_data st
  = (inl (WazuhApiError ("API request failed: " ++ str_of_int (status resp)
                         ++ " - " ++ body) (Some (status resp))),
     record_call st1 net1
       (ResourceCall method (urljoin (base_url (self st1)) endpoint)
                     (request_headers (self st1)) params json_data)).
Proof.
  rewrite (make_request_after_prologue remote post request loads py_repr urljoin
             st st1 method endpoint params json_data Hprologue).
  apply (attempt_status_error remote post request loads py_repr urljoin
           method _ _ params json_data st1 resp body net1 Hreq Hbody); lia.
Qed.

(** X27.  [get_cluster_status] passes the error of [_make_request] on.
    From a response object it reads the first of [data.affected_items]
    only: without [data] or without [affected_items] both fields are
    [no]; a missing [enabled] or [running] in the first item is [no];
    and an empty [affected_items] raises Python's [IndexError], which is
    not a [WazuhApiError].  The state is the one [_make_request] left. *)
Theorem cluster_status_reading (st st' : state) (r : exn + json)
        (Hrun : _make_request "GET" "/cluster/status" JNull JNull st = (r, st')) :
  (forall e, r = inl e -> get_cluster_status st = (inl e, st'))
  /\ (forall d,
        r = inr (JDict d) -> dict_get d "data" = None ->
        get_cluster_status st
        = (inr {| enabled := JStr "no"; running := JStr "no" |}, st'))
  /\ (forall d c,
        r = inr (JDict d) -> dict_get d "data" = Some (JDict c) ->
        dict_get c "affected_items" = None ->
        get_cluster_status st
        = (inr {| enabled := JStr "no"; running := JStr "no" |}, st'))
  /\ (forall d c,
        r = inr (JDict d) -> dict_get d "data" = Some (JDict c) ->
        dict_get c "affected_items" = Some (JList []) ->
        get_cluster_status st = (inl (PyException "list index out of range"), st'))
  /\ (forall d c item rest,
        r = inr (JDict d) -> dict_get d "data" = Some (JDict c) ->
        dict_get c "affected_items" = Some (JList (JDict item :: rest)) ->
        get_cluster_status st
        = (inr {| enabled := get_default item "enabled" (JStr "no");
                  running := get_default item "running" (JStr "no") |}, st')).
Proof.
  unfold WazuhMore.get_cluster_status, bind. rewrite Hrun.
  split; [|split; [|split; [|split]]].
  - now intros e ->.
  - intros d -> Hd. unfold cluster_status_of, py_get_default.
    rewrite (get_default_none d "data" _ Hd). reflexivity.
  - intros d c -> Hd Hc. unfold cluster_status_of, py_get_default.
    rewrite (get_default_some d "data" _ _ Hd), (get_default_none c "affected_items" _ Hc).
    reflexivity.
  - intros d c -> Hd Hc. unfold cluster_status_of, py_get_default.
    rewrite (get_default_some d "data" _ _ Hd), (get_default_some c "affected_items" _ _ Hc).
    reflexivity.
  - intros d c item rest -> Hd Hc. unfold cluster_status_of, py_get_default.
    rewrite (get_default_some d "data" _ _ Hd), (get_default_some c "affected_items" _ _ Hc).
    reflexivity.
Qed.

End ClientMore.

(** *** The scripted remotes at work *)

Import SampleRemote SampleRemoteMore.

Lemma authenticate_contract_witness :
  Wazuh.authenticate remote post urljoin login_refused
  = (inl (WazuhApiError "Authentication failed: 403 - Forbidden" (Some 403)),
     record_call login_refused [answers 200 "{}"] login).
Proof.
  destruct (authenticate_contract remote post urljoin login_refused
              (answers 403 "Forbidden") [answers 200 "{}"] eq_refl eq_refl)
    as (_ & Hrefused & _).
  etransitivity.
  - eapply Hrefused; [reflexivity | simpl; lia | reflexivity].
  - vm_compute. reflexivity.
Defined.

Lemma no_session_no_call_witness :
  Wazuh.authenticate remote post urljoin outside_session
  = (inl no_session, outside_session)
  /\ get_agents outside_session = (inl no_session, outside_session).
Proof.
  exact (no_session_no_call remote post request loads no_repr urljoin
           outside_session "GET" "/agents" JNull JNull eq_refl).
Defined.

Lemma held_token_is_reused_witness :
  fst (get_agents token_held) = inr (JDict [])
  /\ calls (snd (get_agents token_held)) = [agents_with "t0"]
  /\ self (snd (get_agents token_held)) = client (JStr "t0").
Proof.
  exact (held_token_is_reused remote post request loads no_repr urljoin
           token_held "GET" "/agents" JNull JNull
           {| status := 200; text := inr "{}"; json_body := inl JSONDecodeError |}
           "{}" [] (JDict [])
           eq_refl eq_refl eq_refl eq_refl eq_refl eq_refl).
Defined.

Lemma first_use_authenticates_witness :
  get_agents login_refused
  = (inl (WazuhApiError "Authentication failed: 403 - Forbidden" (Some 403)),
     record_call login_refused [answers 200 "{}"] login)
  /\ calls (snd (get_agents login_refused)) = [login].
Proof.
  destruct (first_use_authenticates remote post request loads no_repr urljoin
              login_refused "GET" "/agents" JNull JNull eq_refl eq_refl)
    as (Hfails & _).
  destruct (Hfails (WazuhApiError "Authentication failed: 403 - Forbidden" (Some 403))
                   (record_call login_refused [answers 200 "{}"] login) eq_refl)
    as (Hrun & Hcalls).
  split.
  - exact Hrun.
  - unfold get_agents. rewrite Hrun. exact Hcalls.
Defined.

Lemma undecodable_body_witness :
  get_agents not_json
  = (inl (WazuhApiError "Invalid JSON response: oops" None),
     record_call not_json [] (agents_with "t0"))
  /\ fst (get_agents not_json_on_retry) = inl JSONDecodeError.
Proof.
  split.
  - destruct (undecodable_body remote post request loads no_repr urljoin
                not_json not_json "GET" "/agents" JNull JNull eq_refl)
      as (Hfirst & _).
    exact (Hfirst {| status := 200; text := inr "oops";
                     json_body := inl JSONDecodeError |}
                  "oops" [] eq_refl eq_refl eq_refl eq_refl).
  - destruct (undecodable_body remote post request loads no_repr urljoin
                not_json_on_retry not_json_on_retry "GET" "/agents" JNull JNull eq_refl)
      as (_ & Hretry).
    exact (Hretry {| status := 401; text := inr "Unauthorized";
                     json_body := inl JSONDecodeError |}
                  "Unauthorized" [grants "t1"; answers 200 "oops"]
                  (JStr "t1") _
                  {| status := 200; text := inr "oops";
                     json_body := inl JSONDecodeError |}
                  "oops" []
                  eq_refl eq_refl eq_refl eq_refl eq_refl eq_refl eq_refl eq_refl).
Defined.

Lemma value_only_after_200_witness :
  fst (get_agents token_held) = inr (JDict [])
  /\ exists st' headers resp net' body,
       request (net st') "GET" "https://localhost:55000/agents" headers JNull JNull
       = (inr resp, net')
       /\ status resp = 200 /\ text resp = inr body /\ loads body = inr (JDict [])
       /\ snd (get_agents token_held)
          = record_call st' net'
              (ResourceCall "GET" "https://localhost:55000/agents" headers JNull JNull).
Proof.
  split.
  - reflexivity.
  - exact (value_only_after_200 remote post request loads no_repr urljoin
             token_held "GET" "/agents" JNull JNull (JDict []) eq_refl).
Defined.

Lemma other_success_status_is_an_error_witness :
  get_agents no_content
  = (inl (WazuhApiError "API request failed: 204 - " (Some 204)),
     record_call no_content [] (agents_with "t0")).
Proof.
  assert (Hstatus : 200 < 204 <= 299) by lia.
  exact (other_success_status_is_an_error remote post request loads no_repr urljoin
           no_content no_content "GET" "/agents" JNull JNull
           {| status := 204; text := inr ""; json_body := inl JSONDecodeError |}
           "" [] eq_refl eq_refl eq_refl Hstatus).
Defined.

Lemma cluster_status_reading_witness :
  WazuhMore.get_cluster_status remote post request loads no_repr urljoin token_held
  = (inr {| enabled := JStr "no"; running := JStr "no" |},
     record_call token_held [] (cluster_status_with "t0")).
Proof.
  destruct (cluster_status_reading remote post request loads no_repr urljoin
              token_held (record_call token_held [] (cluster_status_with "t0"))
              (inr (JDict [])) eq_refl)
    as (_ & Hnone & _).
  exact (Hnone [] eq_refl eq_refl).
Defined.

End WazuhMoreFacts.

(** ** [ToolUtils.format_timestamp] *)

Module TimestampFacts.
Import PyStr Timestamp.







End TimestampFacts.
